(** * RX_que: the prescription engine of the pharmacy backend

    A shallow embedding of [models.py] (the relational schema) and of the
    request handlers of [app.py], with the database threaded through the
    handlers as an explicit value.

    Conventions of the embedding.
    - A table is the list of its rows in insertion (rowid) order; a query
      over one table without ORDER BY returns rows in that order, and the
      rows of the association table are read through the index of its
      primary key.  [Model.query] is the session's query over the table of
      the model.
    - A handler takes the parsed JSON body and the database, and returns the
      HTTP response together with the database after the request.  A body is
      [None] when [request.get_json()] returns None, and otherwise the
      object read with [.get]: its keys are among the documented ones, with
      values of the documented types, and an absent key is [None].  The
      session is request scoped, so a handler that returns before [commit]
      leaves the database as it was after its last successful [commit].
    - [commit] fails exactly when a constraint declared in [models.py]
      (primary key, unique) is violated; failures of the storage itself are
      outside the model.
    - An integer of a body or of a route is any Python int; a key stored in
      an INTEGER column is a signed 64-bit integer.
    - [datetime.utcnow()] and [date.today()] are arguments of the handlers
      that read them; timestamps are integers, and a response carries the
      timestamp that [isoformat()] would render. *)

From stdpp Require Import base decidable option list sorting strings pretty gmap fin_maps.
From Stdlib Require Import ZArith Lia.

Local Open Scope string_scope.
Local Open Scope list_scope.
Local Open Scope Z_scope.

(** ** models.py *)

Record User := mkUser {
  user_id : Z;
  user_username : string;
  user_password_hash : string;
  user_role : string }.

Record Patient := mkPatient {
  patient_id : Z;
  patient_name : string;
  patient_file_number : string }.

Record Drug := mkDrug {
  drug_id : Z;
  drug_name : string;
  drug_strength : string;
  drug_instructions : string;
  drug_warnings : string }.

Record Prescription := mkPrescription {
  prescription_id : Z;
  prescription_patient_id : Z;
  prescription_doctor_id : Z;
  prescription_status : string;
  prescription_created_at : Z }.

(** How the unit of work of the installed SQLAlchemy writes a many-to-many
    collection in which the same object stands more than once: one INSERT
    into the association table per element of the list (the 1.4 series), or
    one INSERT per object of the list (the 2.x series).  The repository pins
    no version. *)
Inductive Flush := insert_per_element | insert_per_object.

#[global] Instance Flush_eq_dec : EqDecision Flush.
Proof. solve_decision. Defined.

(** [db = SQLAlchemy(app)]: the five tables, and the unit of work that
    writes them.  A row of [prescription_drug_association] is the pair
    (prescription_id, drug_id); both columns form its primary key. *)
Record DB := mkDB {
  users : list User;
  patients : list Patient;
  drugs : list Drug;
  prescriptions : list Prescription;
  prescription_drug_association : list (Z * Z);
  flush : Flush }.

#[global] Instance User_eq_dec : EqDecision User.
Proof. solve_decision. Defined.
#[global] Instance Patient_eq_dec : EqDecision Patient.
Proof. solve_decision. Defined.
#[global] Instance Drug_eq_dec : EqDecision Drug.
Proof. solve_decision. Defined.
#[global] Instance Prescription_eq_dec : EqDecision Prescription.
Proof. solve_decision. Defined.

(** An integer primary key left unset on insert: one more than the largest
    key of the table, 1 for an empty table. *)
Definition next_id (ids : list Z) : Z := foldr Z.max 0 ids + 1.

(** ** Queries *)

(** SQLite's INTEGER is a signed 64-bit integer. *)
Definition int64 (n : Z) : Prop := - 2 ^ 63 ≤ n < 2 ^ 63.

#[global] Instance int64_dec n : Decision (int64 n).
Proof. unfold int64. apply _. Defined.

(** What a query gives that compares a key column with a Python int taken
    from the request, for the row [row] that the comparison selects: the
    sqlite3 driver raises OverflowError when it binds an int outside the
    64-bit range.  A stored key is within the range, so a parameter that
    selects a row has been bound. *)
Inductive Lookup (A : Type) : Type :=
| Found (x : A)
| NotFound
| OverflowError.
Arguments Found {A} x.
Arguments NotFound {A}.
Arguments OverflowError {A}.

Definition bound {A} (parameter : Z) (row : option A) : Lookup A :=
  match row with
  | Some x => Found x
  | None => if decide (int64 parameter) then NotFound else OverflowError
  end.

(** The row that a query selects; where the key comes from the request the
    handlers run the query through [bound].

    [User.query.filter_by(id=doctor_id, role='doctor').first()] *)
Definition User_filter_by_id_role (db : DB) (id : Z) (role : string) : option User :=
  head (filter (λ u, user_id u = id ∧ user_role u = role) (users db)).

(** The relationship [Prescription.doctor]: the user with the id that the
    foreign key holds. *)
Definition User_get (db : DB) (id : Z) : option User :=
  head (filter (λ u, user_id u = id) (users db)).

(** [Patient.query.filter_by(file_number=...).first()] *)
Definition Patient_filter_by_file_number (db : DB) (fn : string) : option Patient :=
  head (filter (λ p, patient_file_number p = fn) (patients db)).

(** The relationship [Prescription.patient]: the patient with the id that
    the foreign key holds. *)
Definition Patient_get (db : DB) (id : Z) : option Patient :=
  head (filter (λ p, patient_id p = id) (patients db)).

(** [Drug.query.get(drug_id)] *)
Definition Drug_get (db : DB) (id : Z) : option Drug :=
  head (filter (λ d, drug_id d = id) (drugs db)).

(** [Prescription.query.get(prescription_id)] *)
Definition Prescription_get (db : DB) (id : Z) : option Prescription :=
  head (filter (λ p, prescription_id p = id) (prescriptions db)).

(** The order of the index of the primary key (prescription_id, drug_id)
    among the rows of one prescription. *)
Definition by_drug_id (row1 row2 : Z * Z) : Prop := row1.2 ≤ row2.2.

#[global] Instance by_drug_id_dec row1 row2 : Decision (by_drug_id row1 row2).
Proof. unfold by_drug_id. apply _. Defined.

(** The relationship [Prescription.prescribed_drugs]: the association rows of
    the prescription joined with [drugs].  The relationship declares no
    [order_by]; SQLite finds the rows of the prescription in the index of the
    primary key, so the drugs come in ascending order of their id, whatever
    the order in which the rows were written. *)
Definition prescribed_drugs (db : DB) (p : Prescription) : list Drug :=
  omap (λ row, Drug_get db row.2)
       (merge_sort by_drug_id
          (filter (λ row, row.1 = prescription_id p) (prescription_drug_association db))).

(** The relationship [Drug.prescriptions]: the association rows of the drug
    joined with [prescriptions].  The handlers read its length only. *)
Definition drug_prescriptions (db : DB) (d : Drug) : list Prescription :=
  omap (λ row, Prescription_get db row.1)
       (filter (λ row, row.2 = drug_id d) (prescription_drug_association db)).

(** ** Responses *)

(** [jsonify(body), code] on the success paths, [jsonify({"message": ...}),
    code] on the failure paths.  An exception that escapes a handler is the
    framework's 500 response. *)
Inductive Response (A : Type) : Type :=
| Ok (code : Z) (body : A)
| Fail (code : Z) (message : string).
Arguments Ok {A} code body.
Arguments Fail {A} code message.

Definition status_code {A} (r : Response A) : Z :=
  match r with Ok c _ => c | Fail c _ => c end.

Definition unhandled_exception {A} : Response A := Fail 500 "Internal Server Error".

(** Python truthiness of the values a body field can hold. *)
Definition truthy_str (o : option string) : bool :=
  match o with Some s => bool_decide (s ≠ EmptyString) | None => false end.
Definition truthy_int (o : option Z) : bool :=
  match o with Some n => bool_decide (n ≠ 0) | None => false end.
Definition truthy_list {A} (o : option (list A)) : bool :=
  match o with Some (_ :: _) => true | _ => false end.

(** ** POST /prescriptions *)

(** One element of ["drugs"]: a JSON object read with [.get('drug_id')]. *)
Record DrugInfo := mkDrugInfo { info_drug_id : option Z }.

Record PrescriptionData := mkPrescriptionData {
  data_patient_name : option string;
  data_patient_file_number : option string;
  data_doctor_id : option Z;
  data_drugs : option (list DrugInfo) }.

Record Created := mkCreated {
  created_message : string;
  created_prescription_id : Z;
  created_status : string;
  created_created_at : Z }.

(** [not data] for the object of a body: it has no key. *)
Definition PrescriptionData_empty (data : PrescriptionData) : bool :=
  match data with
  | mkPrescriptionData None None None None => true
  | _ => false
  end.

(** [all([patient_name, patient_file_number, doctor_id, drugs_data])] *)
Definition required_fields (data : PrescriptionData) : bool :=
  truthy_str (data_patient_name data) && truthy_str (data_patient_file_number data)
  && truthy_int (data_doctor_id data) && truthy_list (data_drugs data).

(** [db.session.add(patient); db.session.commit()]: [None] is the
    IntegrityError of the unique constraint on [file_number]. *)
Definition insert_patient (db : DB) (name fn : string) : option (Patient * DB) :=
  if decide (fn ∈ patient_file_number <$> patients db) then None
  else
    let patient := mkPatient (next_id (patient_id <$> patients db)) name fn in
    Some (patient,
          mkDB (users db) (patients db ++ [patient]) (drugs db) (prescriptions db)
               (prescription_drug_association db) (flush db)).

(** The loop over [drugs_data]: [inl] is the response that ends the handler
    inside the loop (an early return, or the OverflowError of a lookup, which
    nothing catches), [inr] the list [prescribed_drugs_list] after the last
    iteration. *)
Fixpoint validate_drugs (db : DB) (drugs_data : list DrugInfo) (prescribed_drugs_list : list Drug)
  : (Z * string) + list Drug :=
  match drugs_data with
  | [] => inr prescribed_drugs_list
  | drug_info :: rest =>
      if truthy_int (info_drug_id drug_info) then
        let drug_id := default 0 (info_drug_id drug_info) in
        match bound drug_id (Drug_get db drug_id) with
        | OverflowError => inl (500, "Internal Server Error")
        | NotFound => inl (400, "Drug with ID " +:+ pretty drug_id +:+ " not found")
        | Found drug => validate_drugs db rest (prescribed_drugs_list ++ [drug])
        end
      else inl (400, "Each drug entry must contain a 'drug_id'")
  end.

(** The block [# Find or create patient]: [None] is the failed commit of a
    new patient. *)
Definition find_or_create_patient (db : DB) (patient_name patient_file_number : string)
  : option (Patient * DB) :=
  match Patient_filter_by_file_number db patient_file_number with
  | Some patient => Some (patient, db)
  | None => insert_patient db patient_name patient_file_number
  end.

(** The elements of a list, each once, at its first occurrence. *)
Fixpoint first_occurrences {A} `{!EqDecision A} (l : list A) : list A :=
  match l with
  | [] => []
  | x :: l => x :: filter (λ y, y ≠ x) (first_occurrences l)
  end.

(** The association rows that the unit of work inserts for the collection
    [new_prescription.prescribed_drugs] of the prescription [id]. *)
Definition collection_rows (db : DB) (id : Z) (prescribed : list Drug) : list (Z * Z) :=
  match flush db with
  | insert_per_element => (λ d, (id, drug_id d)) <$> prescribed
  | insert_per_object => first_occurrences ((λ d, (id, drug_id d)) <$> prescribed)
  end.

(** [db.session.add(new_prescription); db.session.commit()]: one row in
    [prescriptions] and the association rows of the collection; [None] is
    the IntegrityError of the primary key (prescription_id, drug_id) of the
    association table, and nothing of the transaction is kept. *)
Definition insert_prescription (db : DB) (now : Z) (patient : Patient) (doctor : User)
    (prescribed : list Drug) : option (Prescription * DB) :=
  let id := next_id (prescription_id <$> prescriptions db) in
  let new_prescription := mkPrescription id (patient_id patient) (user_id doctor) "pending" now in
  let rows := collection_rows db id prescribed in
  if decide (NoDup (prescription_drug_association db ++ rows)) then
    Some (new_prescription,
          mkDB (users db) (patients db) (drugs db) (prescriptions db ++ [new_prescription])
               (prescription_drug_association db ++ rows) (flush db))
  else None.

Definition create_prescription (now : Z) (data : option PrescriptionData) (db : DB)
  : Response Created * DB :=
  match data with
  | None => (Fail 400 "Request body must be JSON", db)
  | Some data =>
    if PrescriptionData_empty data then (Fail 400 "Request body must be JSON", db)
    else if negb (required_fields data)
    then (Fail 400 "Missing required fields: patient_name, patient_file_number, doctor_id, drugs", db)
    else
      let patient_name := default EmptyString (data_patient_name data) in
      let patient_file_number := default EmptyString (data_patient_file_number data) in
      let doctor_id := default 0 (data_doctor_id data) in
      let drugs_data := default [] (data_drugs data) in
      if decide (drugs_data = []) then (Fail 400 "Drugs must be a non-empty list", db)
      else
        match bound doctor_id (User_filter_by_id_role db doctor_id "doctor") with
        | OverflowError => (unhandled_exception, db)
        | NotFound => (Fail 403 "Invalid or unauthorized doctor ID", db)
        | Found doctor =>
          match find_or_create_patient db patient_name patient_file_number with
          | None => (Fail 500 "Error creating patient", db)
          | Some (patient, db1) =>
            match validate_drugs db1 drugs_data [] with
            | inl (code, message) => (Fail code message, db1)
            | inr prescribed_drugs_list =>
              if decide (prescribed_drugs_list = [])
              then (Fail 400 "No valid drugs provided for prescription", db1)
              else
                match insert_prescription db1 now patient doctor prescribed_drugs_list with
                | Some (new_prescription, db2) =>
                    (Ok 201 (mkCreated "Prescription created successfully"
                                       (prescription_id new_prescription)
                                       (prescription_status new_prescription)
                                       (prescription_created_at new_prescription)), db2)
                | None => (Fail 500 "Error creating prescription", db1)
                end
            end
          end
        end
  end.

(** A body with the four fields present, and the ["drugs"] list that names
    the drug ids [ids]. *)
Definition request (name fn : string) (doctor_id : Z) (drugs_data : list DrugInfo)
  : option PrescriptionData :=
  Some (mkPrescriptionData (Some name) (Some fn) (Some doctor_id) (Some drugs_data)).

Definition drug_refs (ids : list Z) : list DrugInfo := (λ i, mkDrugInfo (Some i)) <$> ids.

(** ** GET /prescriptions/<id>

    The route variable [prescription_id] of the three handlers below is
    written [id].  The converter [<int:prescription_id>] of the routes passes
    the non-negative integers, of any size. *)

Record DoctorSummary := mkDoctorSummary {
  summary_id : Z;
  summary_username : string }.

(** The ["patient"] object has the columns of the patient row and each
    element of ["prescribed_drugs"] the columns of the drug row. *)
Record PrescriptionView := mkPrescriptionView {
  view_id : Z;
  view_patient : Patient;
  view_doctor : DoctorSummary;
  view_status : string;
  view_created_at : Z;
  view_prescribed_drugs : list Drug }.

Definition get_prescription (id : Z) (db : DB) : Response PrescriptionView :=
  match bound id (Prescription_get db id) with
  | OverflowError => unhandled_exception
  | NotFound => Fail 404 "Prescription not found"
  | Found prescription =>
      let drugs_info := prescribed_drugs db prescription in
      match Patient_get db (prescription_patient_id prescription),
            User_get db (prescription_doctor_id prescription) with
      | Some patient, Some doctor =>
          Ok 200 (mkPrescriptionView
                    (prescription_id prescription)
                    (mkPatient (patient_id patient) (patient_name patient)
                               (patient_file_number patient))
                    (mkDoctorSummary (user_id doctor) (user_username doctor))
                    (prescription_status prescription)
                    (prescription_created_at prescription)
                    drugs_info)
      | _, _ => unhandled_exception
      end
  end.

(** ** PUT /prescriptions/<id>/status *)

Record StatusData := mkStatusData { data_status : option string }.

Definition StatusData_empty (data : StatusData) : bool :=
  match data with
  | mkStatusData None => true
  | _ => false
  end.

Record UpdatedPrescription := mkUpdatedPrescription {
  updated_id : Z;
  updated_patient_id : Z;
  updated_doctor_id : Z;
  updated_status : string;
  updated_created_at : Z;
  updated_prescribed_drugs : list Drug }.

Record Updated := mkUpdated {
  updated_message : string;
  updated_prescription : UpdatedPrescription }.

Definition with_status (new_status : string) (p : Prescription) : Prescription :=
  mkPrescription (prescription_id p) (prescription_patient_id p) (prescription_doctor_id p)
                 new_status (prescription_created_at p).

(** [prescription.status = new_status; db.session.commit()]: the UPDATE of
    the row with that primary key. *)
Definition set_status (db : DB) (id : Z) (new_status : string) : DB :=
  mkDB (users db) (patients db) (drugs db)
       ((λ p, if decide (prescription_id p = id) then with_status new_status p else p)
          <$> prescriptions db)
       (prescription_drug_association db) (flush db).

Definition update_prescription_status (id : Z) (data : option StatusData) (db : DB)
  : Response Updated * DB :=
  match data with
  | None => (Fail 400 "Request body must be JSON", db)
  | Some data =>
    if StatusData_empty data then (Fail 400 "Request body must be JSON", db)
    else if negb (truthy_str (data_status data)) then (Fail 400 "New status is required", db)
    else
      let new_status := default EmptyString (data_status data) in
      match bound id (Prescription_get db id) with
      | OverflowError => (unhandled_exception, db)
      | NotFound => (Fail 404 "Prescription not found", db)
      | Found _ =>
          let db1 := set_status db id new_status in
          match Prescription_get db1 id with
          | Some prescription =>
              (Ok 200 (mkUpdated "Prescription status updated successfully"
                         (mkUpdatedPrescription
                            (prescription_id prescription)
                            (prescription_patient_id prescription)
                            (prescription_doctor_id prescription)
                            (prescription_status prescription)
                            (prescription_created_at prescription)
                            (prescribed_drugs db1 prescription))), db1)
          | None => (unhandled_exception, db1)
          end
      end
  end.

(** ** GET /drugs and POST /drugs *)

Definition get_drugs (db : DB) : Response (list Drug) := Ok 200 (drugs db).

Record DrugData := mkDrugData {
  data_name : option string;
  data_strength : option string;
  data_instructions : option string;
  data_warnings : option string }.

Record Added := mkAdded {
  added_message : string;
  added_drug : Drug }.

Definition DrugData_empty (data : DrugData) : bool :=
  match data with
  | mkDrugData None None None None => true
  | _ => false
  end.

Definition add_drug (data : option DrugData) (db : DB) : Response Added * DB :=
  match data with
  | None => (Fail 400 "Request body must be JSON", db)
  | Some data =>
    if DrugData_empty data then (Fail 400 "Request body must be JSON", db)
    else if negb (truthy_str (data_name data) && truthy_str (data_strength data)
             && truthy_str (data_instructions data) && truthy_str (data_warnings data))
    then (Fail 400 "Missing required fields: name, strength, instructions, warnings", db)
    else
      let new_drug :=
        mkDrug (next_id (drug_id <$> drugs db))
               (default EmptyString (data_name data))
               (default EmptyString (data_strength data))
               (default EmptyString (data_instructions data))
               (default EmptyString (data_warnings data)) in
      (Ok 201 (mkAdded "Drug added successfully" new_drug),
       mkDB (users db) (patients db) (drugs db ++ [new_drug]) (prescriptions db)
            (prescription_drug_association db) (flush db))
  end.

(** ** GET /prescriptions/<id>/label *)

Record Labels := mkLabels {
  labels_prescription_id : Z;
  labels_labels : list string }.

Definition newline : string := String (Ascii.ascii_of_nat 10) EmptyString.

(** The f-string of one label; [today_date] is [date.today().isoformat()]. *)
Definition label_string (patient_name patient_file_number : string) (drug : Drug)
    (today_date : string) : string :=
  "name of patient: " +:+ patient_name +:+ newline +:+
  "file number: " +:+ patient_file_number +:+ newline +:+
  "drug name: " +:+ drug_name drug +:+ newline +:+
  "strength: " +:+ drug_strength drug +:+ newline +:+
  "instructions: " +:+ drug_instructions drug +:+ newline +:+
  "warning: " +:+ drug_warnings drug +:+ newline +:+
  "date: " +:+ today_date.

Definition get_prescription_label (today_date : string) (id : Z) (db : DB)
  : Response Labels :=
  match bound id (Prescription_get db id) with
  | OverflowError => unhandled_exception
  | NotFound => Fail 404 "Prescription not found"
  | Found prescription =>
      match Patient_get db (prescription_patient_id prescription) with
      | None => unhandled_exception
      | Some patient =>
          let patient_name := patient_name patient in
          let patient_file_number := patient_file_number patient in
          Ok 200 (mkLabels id
                    ((λ drug, label_string patient_name patient_file_number drug today_date)
                       <$> prescribed_drugs db prescription))
      end
  end.

(** ** GET /dashboard/notifications *)

Record Notification := mkNotification {
  notification_id : Z;
  notification_patient_name : string;
  notification_created_at : Z }.

(** [ORDER BY created_at DESC]: [newer_first p q] when [p] may stand before [q]. *)
Definition newer_first (p q : Prescription) : Prop :=
  prescription_created_at q ≤ prescription_created_at p.

#[global] Instance newer_first_dec p q : Decision (newer_first p q).
Proof. unfold newer_first. apply _. Defined.

(** [Prescription.query.filter_by(status='pending')
      .order_by(Prescription.created_at.desc()).all()] *)
Definition pending_prescriptions (db : DB) : list Prescription :=
  merge_sort newer_first (filter (λ p, prescription_status p = "pending") (prescriptions db)).

Definition get_dashboard_notifications (db : DB) : Response (list Notification) :=
  match mapM (λ pres,
                patient ← Patient_get db (prescription_patient_id pres);
                Some (mkNotification (prescription_id pres) (patient_name patient)
                                     (prescription_created_at pres)))
             (pending_prescriptions db) with
  | Some notifications => Ok 200 notifications
  | None => unhandled_exception
  end.

(** ** GET /dashboard/statistics/drug_prescriptions *)

Definition get_drug_prescription_statistics (db : DB) : Response (gmap string nat) :=
  let drugs := drugs db in
  let drug_counts : gmap string nat := ∅ in
  if decide (drugs = []) then Ok 200 drug_counts
  else
    Ok 200 (foldl (λ drug_counts drug,
                     <[drug_name drug := length (drug_prescriptions db drug)]> drug_counts)
                  drug_counts drugs).

(** ** The server as a transition system *)

(** The requests that can change the database. *)
Inductive Request :=
| POST_prescriptions (now : Z) (data : option PrescriptionData)
| PUT_prescription_status (id : Z) (data : option StatusData)
| POST_drugs (data : option DrugData).

Definition handle (db : DB) (r : Request) : DB :=
  match r with
  | POST_prescriptions now data => (create_prescription now data db).2
  | PUT_prescription_status id data => (update_prescription_status id data db).2
  | POST_drugs data => (add_drug data db).2
  end.

Definition serve (db : DB) (rs : list Request) : DB := foldl handle db rs.

(** ** The schema's constraints *)

(** Primary keys and unique columns hold no duplicate, and every foreign key
    refers to a row. *)
Record consistent (db : DB) : Prop := mkConsistent {
  users_pk : NoDup (user_id <$> users db);
  patients_pk : NoDup (patient_id <$> patients db);
  patients_file_number_unique : NoDup (patient_file_number <$> patients db);
  drugs_pk : NoDup (drug_id <$> drugs db);
  prescriptions_pk : NoDup (prescription_id <$> prescriptions db);
  association_pk : NoDup (prescription_drug_association db);
  prescription_patient_fk :
    Forall (λ p, prescription_patient_id p ∈ patient_id <$> patients db) (prescriptions db);
  prescription_doctor_fk :
    Forall (λ p, prescription_doctor_id p ∈ user_id <$> users db) (prescriptions db);
  association_prescription_fk :
    Forall (λ row, row.1 ∈ prescription_id <$> prescriptions db) (prescription_drug_association db);
  association_drug_fk :
    Forall (λ row, row.2 ∈ drug_id <$> drugs db) (prescription_drug_association db) }.

#[global] Instance consistent_dec db : Decision (consistent db).
Proof.
  refine (cast_if (decide (
    NoDup (user_id <$> users db) ∧ NoDup (patient_id <$> patients db) ∧
    NoDup (patient_file_number <$> patients db) ∧ NoDup (drug_id <$> drugs db) ∧
    NoDup (prescription_id <$> prescriptions db) ∧ NoDup (prescription_drug_association db) ∧
    Forall (λ p, prescription_patient_id p ∈ patient_id <$> patients db) (prescriptions db) ∧
    Forall (λ p, prescription_doctor_id p ∈ user_id <$> users db) (prescriptions db) ∧
    Forall (λ row, row.1 ∈ prescription_id <$> prescriptions db) (prescription_drug_association db) ∧
    Forall (λ row, row.2 ∈ drug_id <$> drugs db) (prescription_drug_association db))));
  [ by destruct_and!; constructor | intros []; apply n; repeat split; done ].
Defined.

(** ** A sample database: the rows of [populate_test_data] in test_app.py *)

Definition testdoc : User := mkUser 1 "testdoc" "pbkdf2:sha256$doctor" "doctor".
Definition testpharmacist : User := mkUser 2 "testpharmacist" "pbkdf2:sha256$pharmacist" "pharmacist".
Definition drug1 : Drug :=
  mkDrug 1 "Amoxicillin" "250mg" "Take 1 every 8 hours" "Allergic reactions possible".
Definition drug2 : Drug :=
  mkDrug 2 "Panadol" "500mg" "2 tablets every 4-6 hours" "Max 8 tablets/day".
Definition drug3 : Drug :=
  mkDrug 3 "Lisinopril" "10mg" "1 tablet daily" "Monitor blood pressure".
Definition patient1 : Patient := mkPatient 1 "John Doe" "JD001".

Definition test_db : DB :=
  mkDB [testdoc; testpharmacist] [patient1] [drug1; drug2; drug3] [] [] insert_per_element.

(** The same rows with the other unit of work. *)
Definition test_db_per_object : DB :=
  mkDB [testdoc; testpharmacist] [patient1] [drug1; drug2; drug3] [] [] insert_per_object.

(** The sample database after [test_create_prescription_new_patient], and
    after a second prescription for the patient of [populate_test_data]. *)
Definition test_db1 : DB :=
  (create_prescription 100 (request "Jane Smith" "JS001" 1 (drug_refs [1; 2])) test_db).2.

Definition test_db2 : DB :=
  (create_prescription 200 (request "John Doe" "JD001" 1 (drug_refs [1])) test_db1).2.

(** ... and after the first prescription was marked ready. *)
Definition test_db3 : DB :=
  (update_prescription_status 1 (Some (mkStatusData (Some "ready"))) test_db2).2.

(** ** The reporting module in the words of the specification *)

(** The count of distinct prescriptions referencing a drug: the size of the
    set of prescription ids that the association table links to the drug. *)
Definition distinct_prescriptions_referencing (db : DB) (d : Drug) : nat :=
  size (list_to_set ((λ row, row.1) <$>
          filter (λ row, row.2 = drug_id d) (prescription_drug_association db)) : gset Z).

(** ** POST /login *)

Record LoginData := mkLoginData {
  data_username : option string;
  data_password : option string }.

Record LoggedIn := mkLoggedIn {
  login_message : string;
  login_user_id : Z;
  login_role : string }.

Definition LoginData_empty (data : LoginData) : bool :=
  match data with
  | mkLoginData None None => true
  | _ => false
  end.

(** [User.query.filter_by(username=username).first()] *)
Definition User_filter_by_username (db : DB) (username : string) : option User :=
  head (filter (λ u, user_username u = username) (users db)).

Section login.

(** [werkzeug.security.check_password_hash(pwhash, password)] *)
Variable check_password_hash : string → string → bool.

Definition login (data : option LoginData) (db : DB) : Response LoggedIn :=
  match data with
  | None => Fail 400 "Request body must be JSON"
  | Some data =>
    if LoginData_empty data then Fail 400 "Request body must be JSON"
    else if negb (truthy_str (data_username data)) then Fail 400 "Username is required"
    else if negb (truthy_str (data_password data)) then Fail 400 "Password is required"
    else
      let username := default EmptyString (data_username data) in
      let password := default EmptyString (data_password data) in
      match User_filter_by_username db username with
      | Some user =>
          if check_password_hash (user_password_hash user) password
          then Ok 200 (mkLoggedIn "Login successful" (user_id user) (user_role user))
          else Fail 401 "Invalid username or password"
      | None => Fail 401 "Invalid username or password"
      end
  end.

End login.

(** ** The block under [if __name__ == '__main__']

    The rows it adds when they are missing; [generate_password_hash] salts
    its result, so the two hashes are arguments.  Printing and [app.run] are
    left out. *)

(** [Drug.query.filter_by(name=...).first()] *)
Definition Drug_filter_by_name (db : DB) (name : string) : option Drug :=
  head (filter (λ d, drug_name d = name) (drugs db)).

(** [if not User.query.filter_by(username=...).first(): db.session.add(User(...));
    db.session.commit()] *)
Definition ensure_user (username password_hash role : string) (db : DB) : DB :=
  match User_filter_by_username db username with
  | Some _ => db
  | None =>
      mkDB (users db ++ [mkUser (next_id (user_id <$> users db)) username password_hash role])
           (patients db) (drugs db) (prescriptions db) (prescription_drug_association db)
           (flush db)
  end.

(** [if not Drug.query.filter_by(name=...).first(): db.session.add(Drug(...))];
    the query flushes the drugs added before it. *)
Definition ensure_drug (name strength instructions warnings : string) (db : DB) : DB :=
  match Drug_filter_by_name db name with
  | Some _ => db
  | None =>
      mkDB (users db) (patients db)
           (drugs db ++ [mkDrug (next_id (drug_id <$> drugs db)) name strength instructions
                                warnings])
           (prescriptions db) (prescription_drug_association db) (flush db)
  end.

Definition main (hashed_doctor hashed_pharmacist : string) (db : DB) : DB :=
  let db := ensure_user "testdoctor" hashed_doctor "doctor" db in
  let db := ensure_user "testpharmacist" hashed_pharmacist "pharmacist" db in
  let db := ensure_drug "Amoxicillin" "250mg" "Take one tablet every 8 hours"
                        "May cause allergic reaction." db in
  let db := ensure_drug "Lisinopril" "10mg" "Take one tablet daily"
                        "Monitor blood pressure." db in
  ensure_drug "Metformin" "500mg" "Take one tablet twice daily with meals"
              "May cause gastrointestinal upset." db.

(** The database after [Base.metadata.create_all]: five empty tables. *)
Definition empty_db (unit_of_work : Flush) : DB := mkDB [] [] [] [] [] unit_of_work.

(** A body for POST /drugs with the four fields present. *)
Definition drug_data (name strength instructions warnings : string) : option DrugData :=
  Some (mkDrugData (Some name) (Some strength) (Some instructions) (Some warnings)).

(** A body for PUT /prescriptions/<id>/status. *)
Definition status_data (new_status : string) : option StatusData :=
  Some (mkStatusData (Some new_status)).

(** * Properties *)

(** A decidable proposition about given rows is settled by evaluating its
    decision procedure. *)
Ltac by_evaluation := apply (bool_decide_unpack _); vm_compute; exact I.

(** ** First match of a query *)

Section first_match.
Context {A : Type} (P : A → Prop) `{!∀ x, Decision (P x)}.

Lemma first_Some l x : head (filter P l) = Some x → x ∈ l ∧ P x.
Proof.
  intros Hx. apply head_Some_elem_of in Hx. apply list_elem_of_filter in Hx. tauto.
Qed.

Lemma first_None l : head (filter P l) = None ↔ Forall (λ x, ¬ P x) l.
Proof.
  induction l as [|y l IH]; simpl.
  - split; [constructor | done].
  - rewrite filter_cons. destruct (decide (P y)); simpl.
    + split; [done | by inversion 1].
    + rewrite IH. split; [by constructor | by inversion 1].
Qed.

Lemma first_app l l' :
  head (filter P (l ++ l')) =
  match head (filter P l) with Some x => Some x | None => head (filter P l') end.
Proof. rewrite filter_app. by destruct (filter P l). Qed.

Lemma filter_none l : Forall (λ x, ¬ P x) l → filter P l = [].
Proof.
  induction 1 as [|y l Hy _ IH]; [done|]. by rewrite filter_cons, decide_False.
Qed.

Lemma filter_all l : Forall P l → filter P l = l.
Proof.
  induction 1 as [|y l Hy _ IH]; [done|]. rewrite filter_cons, decide_True by done.
  by f_equal.
Qed.

Lemma first_is_Some l x : x ∈ l → P x → is_Some (head (filter P l)).
Proof.
  intros Hin HP. destruct (head (filter P l)) eqn:E; [by eexists|].
  apply first_None in E. rewrite Forall_forall in E. by destruct (E x Hin).
Qed.
End first_match.

Section by_key.
Context {A K : Type} `{!EqDecision K} (key : A → K).

Lemma get_unique l x :
  NoDup (key <$> l) → x ∈ l → head (filter (λ y, key y = key x) l) = Some x.
Proof.
  induction l as [|y l IH]; intros Hnd Hin; [by apply elem_of_nil in Hin|].
  rewrite fmap_cons in Hnd. apply NoDup_cons in Hnd as [Hy Hnd].
  rewrite filter_cons. apply elem_of_cons in Hin as [->|Hin].
  - by rewrite decide_True.
  - rewrite decide_False; [by apply IH|].
    intros E. apply Hy. rewrite E. by apply list_elem_of_fmap_2.
Qed.

Lemma get_absent l k : k ∉ key <$> l → head (filter (λ y, key y = k) l) = None.
Proof.
  intros Hk. apply first_None, Forall_forall. intros x Hx E. apply Hk.
  rewrite <- E. by apply list_elem_of_fmap_2.
Qed.

Lemma get_present l k : k ∈ key <$> l → is_Some (head (filter (λ y, key y = k) l)).
Proof.
  intros Hk. apply list_elem_of_fmap in Hk as (x & -> & Hx). by eapply first_is_Some.
Qed.
End by_key.

Lemma next_id_bound ids i : i ∈ ids → i < next_id ids.
Proof.
  unfold next_id. induction ids as [|j ids IH]; intros Hin; [by apply elem_of_nil in Hin|].
  simpl. apply elem_of_cons in Hin as [->|Hin]; [lia|]. specialize (IH Hin). lia.
Qed.

Lemma next_id_fresh ids : next_id ids ∉ ids.
Proof. intros Hin. apply next_id_bound in Hin. lia. Qed.

(** ** Find or create patient *)

Lemma Patient_filter_by_file_number_None db fn :
  Patient_filter_by_file_number db fn = None ↔ fn ∉ patient_file_number <$> patients db.
Proof.
  unfold Patient_filter_by_file_number. split.
  - intros E Hin. apply (get_present patient_file_number) in Hin as [p Hp]. congruence.
  - apply get_absent.
Qed.

Lemma find_or_create_patient_found db name fn patient :
  Patient_filter_by_file_number db fn = Some patient →
  find_or_create_patient db name fn = Some (patient, db).
Proof. unfold find_or_create_patient. by intros ->. Qed.

Lemma find_or_create_patient_new db name fn :
  Patient_filter_by_file_number db fn = None →
  find_or_create_patient db name fn =
    Some (mkPatient (next_id (patient_id <$> patients db)) name fn,
          mkDB (users db)
               (patients db ++ [mkPatient (next_id (patient_id <$> patients db)) name fn])
               (drugs db) (prescriptions db) (prescription_drug_association db) (flush db)).
Proof.
  intros E. unfold find_or_create_patient, insert_patient. rewrite E.
  apply Patient_filter_by_file_number_None in E. by rewrite decide_False.
Qed.

(** The block never takes its failure branch, and it only ever appends to
    [patients]. *)
Lemma find_or_create_patient_Some db name fn :
  ∃ patient db1, find_or_create_patient db name fn = Some (patient, db1) ∧
    patient ∈ patients db1 ∧ patient_file_number patient = fn ∧
    users db1 = users db ∧ drugs db1 = drugs db ∧ prescriptions db1 = prescriptions db ∧
    prescription_drug_association db1 = prescription_drug_association db ∧
    (patients db1 = patients db ∨
     Patient_filter_by_file_number db fn = None ∧
     patient = mkPatient (next_id (patient_id <$> patients db)) name fn ∧
     patients db1 = patients db ++ [patient]).
Proof.
  destruct (Patient_filter_by_file_number db fn) as [p|] eqn:E.
  - exists p, db. rewrite (find_or_create_patient_found _ _ _ _ E).
    apply first_Some in E as [? ?]. naive_solver.
  - eexists _, _. rewrite (find_or_create_patient_new _ _ _ E). simpl.
    split_and!; try done; [apply elem_of_app; right; apply list_elem_of_singleton; done | by right].
Qed.

Lemma find_or_create_patient_flush db name fn patient db1 :
  find_or_create_patient db name fn = Some (patient, db1) → flush db1 = flush db.
Proof.
  unfold find_or_create_patient, insert_patient.
  destruct (Patient_filter_by_file_number db fn); [by intros [= _ <-]|].
  case_decide; [done|]. by intros [= _ <-].
Qed.

Lemma find_or_create_patient_consistent db name fn patient db1 :
  consistent db → find_or_create_patient db name fn = Some (patient, db1) → consistent db1.
Proof.
  intros [Hupk Hppk Hfnu Hdpk Hprpk Hapk Hpfk Hdfk Hapfk Hadfk] Hfoc.
  destruct (find_or_create_patient_Some db name fn)
    as (p & d & E & _ & _ & Hu & Hd & Hp & Ha & Hpat).
  rewrite E in Hfoc. simplify_eq.
  destruct Hpat as [Hpat|(Hnone & -> & Hpat)].
  - constructor; rewrite ?Hu, ?Hd, ?Hp, ?Ha, ?Hpat; done.
  - apply Patient_filter_by_file_number_None in Hnone.
    constructor; rewrite ?Hu, ?Hd, ?Hp, ?Ha, ?Hpat, ?fmap_app; simpl; try done.
    + apply NoDup_app. split_and!; [done| |apply NoDup_singleton].
      intros i Hi ->%list_elem_of_singleton. by apply next_id_fresh in Hi.
    + apply NoDup_app. split_and!; [done| |apply NoDup_singleton].
      by intros i Hi ->%list_elem_of_singleton.
    + eapply Forall_impl; [exact Hpfk|]. intros q Hq. apply elem_of_app. by left.
Qed.

(** ** Validate drugs *)

Lemma Drug_get_Some db i d : Drug_get db i = Some d → d ∈ drugs db ∧ drug_id d = i.
Proof. unfold Drug_get. intros H. by apply (first_Some (λ d, drug_id d = i)) in H. Qed.

(** A run of the loop that reaches its end has looked every entry up. *)
Lemma validate_drugs_inr db drugs_data acc l :
  validate_drugs db drugs_data acc = inr l →
  ∃ ids found, drugs_data = drug_refs ids ∧ l = acc ++ found ∧
    Forall (λ i, i ≠ 0) ids ∧ mapM (Drug_get db) ids = Some found.
Proof.
  revert acc. induction drugs_data as [|[[i|]] rest IH]; intros acc Hv; simpl in Hv.
  - exists [], []. simplify_eq. by rewrite app_nil_r.
  - unfold truthy_int in Hv. simpl in Hv. case_bool_decide as Hi; [|done].
    destruct (Drug_get db i) as [d|] eqn:Hd; simpl in Hv; [|by case_decide].
    apply IH in Hv as (ids & found & -> & -> & Hnz & Hm).
    exists (i :: ids), (d :: found). split_and!; [done|by rewrite <- app_assoc|by constructor|].
    simpl. rewrite Hd. simpl. by rewrite Hm.
  - done.
Qed.

Lemma validate_drugs_all_found db ids acc found :
  Forall (λ i, i ≠ 0) ids → mapM (Drug_get db) ids = Some found →
  validate_drugs db (drug_refs ids) acc = inr (acc ++ found).
Proof.
  revert acc found. induction ids as [|i ids IH]; intros acc found Hnz Hm; simpl in *.
  - injection Hm as <-. by rewrite app_nil_r.
  - apply Forall_cons in Hnz as [Hi Hnz]. rewrite bool_decide_true by done.
    destruct (Drug_get db i) as [d|]; [|done]. simpl in Hm.
    destruct (mapM (Drug_get db) ids) as [ds|] eqn:Hds; [|done]. injection Hm as <-.
    cbn [bound]. rewrite (IH _ ds) by done. by rewrite <- app_assoc.
Qed.

(** The loop returns at the first entry without a drug id, or with the id 0,
    whatever follows it. *)
Lemma validate_drugs_without_drug_id db ids entry rest acc :
  Forall (λ i, i ≠ 0 ∧ is_Some (Drug_get db i)) ids →
  info_drug_id entry = None ∨ info_drug_id entry = Some 0 →
  validate_drugs db (drug_refs ids ++ entry :: rest) acc =
    inl (400, "Each drug entry must contain a 'drug_id'").
Proof.
  revert acc. induction ids as [|i ids IH]; intros acc Hok Hentry; simpl.
  - by destruct Hentry as [->| ->].
  - apply Forall_cons in Hok as [[Hi [d Hd]] Hok]. rewrite bool_decide_true by done.
    rewrite Hd. by apply IH.
Qed.

(** The loop ends at the first id without a row, whatever follows it: with
    the 400 that names the id or, for an id that SQLite cannot hold, with the
    OverflowError of the lookup. *)
Lemma validate_drugs_first_missing db ids missing rest acc :
  Forall (λ i, i ≠ 0 ∧ is_Some (Drug_get db i)) ids →
  missing ≠ 0 → Drug_get db missing = None →
  validate_drugs db (drug_refs ids ++ mkDrugInfo (Some missing) :: rest) acc =
    if decide (int64 missing)
    then inl (400, "Drug with ID " +:+ pretty missing +:+ " not found")
    else inl (500, "Internal Server Error").
Proof.
  revert acc. induction ids as [|i ids IH]; intros acc Hok Hnz Hnone; simpl.
  - rewrite bool_decide_true by done. rewrite Hnone. simpl. by case_decide.
  - apply Forall_cons in Hok as [[Hi [d Hd]] Hok]. rewrite bool_decide_true by done.
    rewrite Hd. by apply IH.
Qed.

Lemma mapM_Drug_get db ids found :
  mapM (Drug_get db) ids = Some found →
  drug_id <$> found = ids ∧ Forall (λ d, d ∈ drugs db) found.
Proof.
  intros Hm. apply mapM_Some_1 in Hm.
  induction Hm as [|i d ids found Hd _ [IH1 IH2]]; [done|].
  apply Drug_get_Some in Hd as [? ?]. split; [by rewrite fmap_cons, IH1; f_equal | by constructor].
Qed.

(** ** Insert prescription *)

Lemma elem_of_first_occurrences {A} `{!EqDecision A} (l : list A) x :
  x ∈ first_occurrences l ↔ x ∈ l.
Proof.
  induction l as [|y l IH]; [done|]. simpl.
  rewrite !elem_of_cons, (list_elem_of_filter (λ z, z ≠ y)), IH.
  destruct (decide (x = y)); tauto.
Qed.

Lemma NoDup_first_occurrences {A} `{!EqDecision A} (l : list A) :
  NoDup (first_occurrences l).
Proof.
  induction l as [|y l IH]; simpl; [constructor|]. apply NoDup_cons. split.
  - by intros [? _]%(list_elem_of_filter (λ z, z ≠ y)).
  - by apply NoDup_filter.
Qed.

Lemma first_occurrences_NoDup {A} `{!EqDecision A} (l : list A) :
  NoDup l → first_occurrences l = l.
Proof.
  induction 1 as [|y l Hy _ IH]; [done|]. simpl. rewrite IH. f_equal.
  apply (filter_all (λ z, z ≠ y)), Forall_forall. by intros z Hz ->.
Qed.

(** The rows of a collection: one row of the prescription for each drug of
    the list, under either unit of work. *)
Lemma elem_of_collection_rows db id prescribed row :
  row ∈ collection_rows db id prescribed ↔ ∃ d, d ∈ prescribed ∧ row = (id, drug_id d).
Proof.
  unfold collection_rows. destruct (flush db); rewrite ?elem_of_first_occurrences.
  all: rewrite list_elem_of_fmap; split; intros (d & ? & ?); by exists d.
Qed.

Lemma NoDup_drug_rows (id : Z) prescribed :
  NoDup ((λ d, (id, drug_id d)) <$> prescribed) ↔ NoDup (drug_id <$> prescribed).
Proof.
  change (NoDup (((λ i, (id, i)) ∘ drug_id) <$> prescribed) ↔ NoDup (drug_id <$> prescribed)).
  rewrite list_fmap_compose. apply NoDup_fmap. by intros ?? [=].
Qed.

(** Only the unit of work that inserts a row per element can come up with
    the same row twice. *)
Lemma NoDup_collection_rows db id prescribed :
  NoDup (collection_rows db id prescribed) ↔
  flush db = insert_per_object ∨ NoDup (drug_id <$> prescribed).
Proof.
  unfold collection_rows. destruct (flush db).
  - rewrite NoDup_drug_rows. split; [by right|]. by intros [[=]|?].
  - split; [by left|]. intros _. apply NoDup_first_occurrences.
Qed.

(** A list of drugs with pairwise different ids is written as it stands. *)
Lemma collection_rows_NoDup db id prescribed :
  NoDup (drug_id <$> prescribed) →
  collection_rows db id prescribed = (λ d, (id, drug_id d)) <$> prescribed.
Proof.
  intros Hnd. unfold collection_rows. destruct (flush db); [done|].
  by apply first_occurrences_NoDup, NoDup_drug_rows.
Qed.

Lemma collection_rows_nil db id prescribed :
  collection_rows db id prescribed = [] → prescribed = [].
Proof.
  intros Hnil. destruct prescribed as [|d prescribed]; [done|].
  assert ((id, drug_id d) ∈ collection_rows db id (d :: prescribed)) as Hin.
  { apply elem_of_collection_rows. exists d. split; [by left|done]. }
  rewrite Hnil in Hin. by apply elem_of_nil in Hin.
Qed.

Lemma insert_prescription_Some db now patient doctor prescribed p db2 :
  insert_prescription db now patient doctor prescribed = Some (p, db2) →
  p = mkPrescription (next_id (prescription_id <$> prescriptions db))
                     (patient_id patient) (user_id doctor) "pending" now ∧
  users db2 = users db ∧ patients db2 = patients db ∧ drugs db2 = drugs db ∧
  prescriptions db2 = prescriptions db ++ [p] ∧
  prescription_drug_association db2 =
    prescription_drug_association db ++ collection_rows db (prescription_id p) prescribed ∧
  NoDup (prescription_drug_association db2).
Proof.
  unfold insert_prescription. case_decide as Hnd; [|done]. intros [= <- <-]. by simpl.
Qed.

(** The commit is refused exactly when the unit of work inserts a row per
    element and two elements are the same drug. *)
Lemma insert_prescription_NoDup db now patient doctor prescribed :
  consistent db →
  is_Some (insert_prescription db now patient doctor prescribed) ↔
  flush db = insert_per_object ∨ NoDup (drug_id <$> prescribed).
Proof.
  intros Hc. unfold insert_prescription.
  set (id := next_id _). set (rows := collection_rows _ _ _).
  assert (∀ row, row ∈ prescription_drug_association db → row ∉ rows) as Hdisj.
  { intros row Hrow Hin. subst rows. apply elem_of_collection_rows in Hin as (d & _ & ->).
    pose proof (association_prescription_fk _ Hc) as Hfk.
    rewrite Forall_forall in Hfk. apply Hfk in Hrow. simpl in Hrow.
    by apply next_id_fresh in Hrow. }
  rewrite <- (NoDup_collection_rows db id prescribed). fold rows. case_decide as Hnd.
  - split; [|by eexists]. intros _. by apply NoDup_app in Hnd as (_ & _ & ?).
  - split; [by intros [? ?]|]. intros Hr. destruct Hnd. apply NoDup_app.
    split_and!; [apply (association_pk _ Hc)|done|done].
Qed.

Lemma insert_prescription_consistent db now patient doctor prescribed p db2 :
  consistent db → patient ∈ patients db → doctor ∈ users db →
  Forall (λ d, d ∈ drugs db) prescribed →
  insert_prescription db now patient doctor prescribed = Some (p, db2) →
  consistent db2.
Proof.
  intros [Hupk Hppk Hfnu Hdpk Hprpk Hapk Hpfk Hdfk Hapfk Hadfk] Hpat Hdoc Hdrugs Hins.
  apply insert_prescription_Some in Hins as (Hp & Hu & Hpa & Hd & Hpr & Ha & Hnd).
  constructor; rewrite ?Hu, ?Hpa, ?Hd, ?Hpr, ?fmap_app; try done.
  - apply NoDup_app. split_and!; [done| |apply NoDup_singleton].
    intros i Hi ->%list_elem_of_singleton. subst p. by apply next_id_fresh in Hi.
  - apply Forall_app. split; [done|]. apply Forall_singleton. subst p. simpl.
    by apply list_elem_of_fmap_2.
  - apply Forall_app. split; [done|]. apply Forall_singleton. subst p. simpl.
    by apply list_elem_of_fmap_2.
  - rewrite Ha. apply Forall_app. split.
    + eapply Forall_impl; [exact Hapfk|]. intros row Hrow. apply elem_of_app. by left.
    + apply Forall_forall. intros row (d & _ & ->)%elem_of_collection_rows. simpl.
      apply elem_of_app. right. by apply list_elem_of_singleton.
  - rewrite Ha. apply Forall_app. split; [done|].
    apply Forall_forall. intros row (d & Hin & ->)%elem_of_collection_rows. simpl.
    rewrite Forall_forall in Hdrugs. by apply list_elem_of_fmap_2, Hdrugs.
Qed.

(** ** POST /prescriptions, case by case *)

(** With the four fields present the handler is past its first checks. *)
Lemma create_prescription_request now name fn doctor_id drugs_data db :
  name ≠ EmptyString → fn ≠ EmptyString → doctor_id ≠ 0 → drugs_data ≠ [] →
  create_prescription now (request name fn doctor_id drugs_data) db =
    match User_filter_by_id_role db doctor_id "doctor" with
    | None =>
        (if decide (int64 doctor_id) then Fail 403 "Invalid or unauthorized doctor ID"
         else unhandled_exception, db)
    | Some doctor =>
      match find_or_create_patient db name fn with
      | None => (Fail 500 "Error creating patient", db)
      | Some (patient, db1) =>
        match validate_drugs db1 drugs_data [] with
        | inl (code, message) => (Fail code message, db1)
        | inr prescribed_drugs_list =>
          if decide (prescribed_drugs_list = [])
          then (Fail 400 "No valid drugs provided for prescription", db1)
          else
            match insert_prescription db1 now patient doctor prescribed_drugs_list with
            | Some (new_prescription, db2) =>
                (Ok 201 (mkCreated "Prescription created successfully"
                                   (prescription_id new_prescription)
                                   (prescription_status new_prescription)
                                   (prescription_created_at new_prescription)), db2)
            | None => (Fail 500 "Error creating prescription", db1)
            end
        end
      end
    end.
Proof.
  intros Hname Hfn Hdoc Hdrugs. unfold create_prescription, request, required_fields. simpl.
  rewrite !bool_decide_true by done. destruct drugs_data; [done|]. simpl.
  rewrite ?decide_False by done.
  destruct (User_filter_by_id_role db doctor_id "doctor"); simpl; [done|by case_decide].
Qed.

(** What a 201 tells about the request and the steps taken. *)
Lemma create_prescription_Ok now data db code created db' :
  create_prescription now data db = (Ok code created, db') →
  ∃ name fn doctor_id ids doctor patient db1 found p,
    data = request name fn doctor_id (drug_refs ids) ∧
    name ≠ EmptyString ∧ fn ≠ EmptyString ∧ doctor_id ≠ 0 ∧ ids ≠ [] ∧
    Forall (λ i, i ≠ 0) ids ∧
    User_filter_by_id_role db doctor_id "doctor" = Some doctor ∧
    find_or_create_patient db name fn = Some (patient, db1) ∧
    mapM (Drug_get db1) ids = Some found ∧
    insert_prescription db1 now patient doctor found = Some (p, db') ∧
    code = 201 ∧
    created = mkCreated "Prescription created successfully" (prescription_id p) "pending" now.
Proof.
  unfold create_prescription. destruct data as [data|]; [|done].
  destruct (PrescriptionData_empty data); [done|].
  destruct (negb _) eqn:Hneg; [done|].
  apply negb_false_iff in Hneg. unfold required_fields in Hneg. rewrite !andb_true_iff in Hneg.
  destruct Hneg as [[[Hname Hfn] Hdid] Hdrugs].
  destruct data as [[name|] [fn|] [doctor_id|] [drugs_data|]]; simpl in *; try done.
  apply bool_decide_eq_true in Hname. apply bool_decide_eq_true in Hfn.
  apply bool_decide_eq_true in Hdid.
  case_decide; [done|].
  destruct (User_filter_by_id_role _ _ _) as [doctor|] eqn:Hdoc; simpl; [|by case_decide].
  destruct (find_or_create_patient _ _ _) as [[patient db1]|] eqn:Hfoc; [|done].
  destruct (validate_drugs _ _ _) as [[? ?]|found] eqn:Hv; [done|].
  case_decide; [done|].
  destruct (insert_prescription _ _ _ _ _) as [[p db2]|] eqn:Hins; [|done].
  intros [= <- <- <-].
  apply validate_drugs_inr in Hv as (ids & found' & Hids & Hfound & Hnz & Hm).
  simpl in Hfound. subst found'.
  pose proof Hins as (-> & _)%insert_prescription_Some.
  eexists name, fn, doctor_id, ids, doctor, patient, db1, found, _.
  unfold request. rewrite Hids. split_and!; try done.
  by intros ->.
Qed.

Lemma create_prescription_consistent now data db :
  consistent db → consistent (create_prescription now data db).2.
Proof.
  intros Hc. unfold create_prescription. destruct data as [data|]; [|done].
  destruct (PrescriptionData_empty data); [done|].
  destruct (negb _); [done|]. case_decide; [done|].
  destruct (User_filter_by_id_role _ _ _) as [doctor|] eqn:Hdoc; cbn [bound];
    [|by case_decide].
  destruct (find_or_create_patient _ _ _) as [[patient db1]|] eqn:Hfoc; [|done].
  pose proof (find_or_create_patient_consistent _ _ _ _ _ Hc Hfoc) as Hc1.
  destruct (validate_drugs _ _ _) as [[? ?]|found] eqn:Hv; [done|].
  case_decide; [done|].
  destruct (insert_prescription _ _ _ _ _) as [[p db2]|] eqn:Hins; [|done]. simpl.
  destruct (find_or_create_patient_Some db (default EmptyString (data_patient_name data))
              (default EmptyString (data_patient_file_number data)))
    as (patient' & db1' & E & Hin & _ & Hu & _).
  rewrite Hfoc in E. simplify_eq.
  apply validate_drugs_inr in Hv as (ids & found' & _ & -> & _ & Hm). simpl in Hins.
  apply mapM_Drug_get in Hm as [_ Hdrugs].
  eapply insert_prescription_consistent; [exact Hc1|exact Hin| |exact Hdrugs|exact Hins].
  rewrite Hu. unfold User_filter_by_id_role in Hdoc.
  by apply (first_Some (λ u, user_id u = _ ∧ user_role u = _)) in Hdoc as [? _].
Qed.

(** ** PUT /prescriptions/<id>/status *)

Lemma set_status_ids db id new_status :
  prescription_id <$> prescriptions (set_status db id new_status) =
  prescription_id <$> prescriptions db.
Proof.
  simpl. rewrite <- list_fmap_compose. apply list_fmap_ext. intros i p _. simpl.
  by case_decide.
Qed.

Lemma set_status_consistent db id new_status :
  consistent db → consistent (set_status db id new_status).
Proof.
  intros [Hupk Hppk Hfnu Hdpk Hprpk Hapk Hpfk Hdfk Hapfk Hadfk].
  constructor; rewrite ?set_status_ids; try done; simpl.
  - apply Forall_fmap. eapply Forall_impl; [exact Hpfk|]. intros p Hp. simpl. by case_decide.
  - apply Forall_fmap. eapply Forall_impl; [exact Hdfk|]. intros p Hp. simpl. by case_decide.
Qed.

Lemma update_prescription_status_db id data db :
  (update_prescription_status id data db).2 = db ∨
  ∃ new_status, new_status ≠ EmptyString ∧ data = Some (mkStatusData (Some new_status)) ∧
    is_Some (Prescription_get db id) ∧
    (update_prescription_status id data db).2 = set_status db id new_status.
Proof.
  unfold update_prescription_status. destruct data as [[[s|]]|]; simpl; try by left.
  case_bool_decide; simpl; [|by left].
  destruct (Prescription_get db id) eqn:E; simpl; [|left; by case_decide].
  right. exists s. split_and!; [done|done|by eexists|].
  by destruct (Prescription_get (set_status db id s) id).
Qed.

Lemma update_prescription_status_consistent id data db :
  consistent db → consistent (update_prescription_status id data db).2.
Proof.
  intros Hc. destruct (update_prescription_status_db id data db) as [->|(s & _ & _ & _ & ->)];
    [done | by apply set_status_consistent].
Qed.

(** ** POST /drugs *)

Lemma add_drug_db data db :
  (add_drug data db).2 = db ∨
  ∃ d, d.(drug_id) = next_id (drug_id <$> drugs db) ∧
    (add_drug data db).2 =
      mkDB (users db) (patients db) (drugs db ++ [d]) (prescriptions db)
           (prescription_drug_association db) (flush db).
Proof.
  unfold add_drug. destruct data as [data|]; [|by left].
  destruct (DrugData_empty data); [by left|].
  destruct (negb _); [by left|]. right. eexists. split; [|reflexivity]. reflexivity.
Qed.

Lemma add_drug_consistent data db : consistent db → consistent (add_drug data db).2.
Proof.
  intros Hc. destruct (add_drug_db data db) as [->|(d & Hd & ->)]; [done|].
  destruct Hc as [Hupk Hppk Hfnu Hdpk Hprpk Hapk Hpfk Hdfk Hapfk Hadfk].
  constructor; simpl; try done.
  - rewrite fmap_app. apply NoDup_app. split_and!; [done| |apply NoDup_singleton].
    intros i Hi ->%list_elem_of_singleton. rewrite Hd in Hi. by apply next_id_fresh in Hi.
  - eapply Forall_impl; [exact Hadfk|]. intros row Hrow. rewrite fmap_app.
    apply elem_of_app. by left.
Qed.

(** ** The constraints are an invariant of the server *)

Lemma handle_consistent db r : consistent db → consistent (handle db r).
Proof.
  destruct r; simpl;
    [apply create_prescription_consistent | apply update_prescription_status_consistent
    | apply add_drug_consistent].
Qed.

Lemma serve_consistent rs db : consistent db → consistent (serve db rs).
Proof.
  revert db. induction rs as [|r rs IH]; intros db Hc; [done|].
  simpl. by apply IH, handle_consistent.
Qed.

(** The sample databases satisfy the constraints. *)
Lemma consistent_test_db : consistent test_db.
Proof. by_evaluation. Qed.

Lemma consistent_test_db1 : consistent test_db1.
Proof. apply create_prescription_consistent, consistent_test_db. Qed.

Lemma consistent_test_db2 : consistent test_db2.
Proof. apply create_prescription_consistent, consistent_test_db1. Qed.

Lemma consistent_test_db3 : consistent test_db3.
Proof. apply update_prescription_status_consistent, consistent_test_db2. Qed.

(** ** Messages that carry an id *)

Lemma string_length_app s1 s2 :
  String.length (s1 +:+ s2) = (String.length s1 + String.length s2)%nat.
Proof.
  induction s1 as [|a s1 IH]; [done|].
  change (String a s1 +:+ s2) with (String a (s1 +:+ s2)). simpl. by rewrite IH.
Qed.

Lemma string_app_inj_r s x y : x +:+ s = y +:+ s → x = y.
Proof.
  revert y. induction x as [|a x IH]; intros [|b y] E.
  - done.
  - apply (f_equal String.length) in E. rewrite !string_length_app in E. simpl in E. lia.
  - apply (f_equal String.length) in E. rewrite !string_length_app in E. simpl in E. lia.
  - change (String a (x +:+ s) = String b (y +:+ s)) in E.
    injection E as -> E. f_equal. by apply IH.
Qed.

Lemma drug_not_found_message_inj (i j : Z) :
  "Drug with ID " +:+ pretty i +:+ " not found" = "Drug with ID " +:+ pretty j +:+ " not found" →
  i = j.
Proof.
  intros E. apply (inj (String.app _)) in E. apply string_app_inj_r in E.
  by apply (inj pretty) in E.
Qed.

(** ** Lookups in a database that differs in other tables *)

Lemma Drug_get_ext db db' i : drugs db' = drugs db → Drug_get db' i = Drug_get db i.
Proof. unfold Drug_get. by intros ->. Qed.

Lemma User_filter_by_id_role_Some db id role u :
  User_filter_by_id_role db id role = Some u → u ∈ users db ∧ user_id u = id ∧ user_role u = role.
Proof.
  unfold User_filter_by_id_role. intros E.
  by apply (first_Some (λ u, user_id u = id ∧ user_role u = role)) in E.
Qed.

Lemma User_filter_by_id_role_None db id role :
  User_filter_by_id_role db id role = None ↔
  ∀ u, u ∈ users db → user_id u = id → user_role u ≠ role.
Proof.
  unfold User_filter_by_id_role.
  rewrite (first_None (λ u, user_id u = id ∧ user_role u = role)), Forall_forall.
  split.
  - intros H u Hu Hid Hr. by apply (H u Hu).
  - intros H u Hu [Hid Hr]. by apply (H u Hu Hid).
Qed.

(** ** C4: an unresolved doctor *)

Lemma User_filter_by_id_role_present db doctor :
  doctor ∈ users db →
  is_Some (User_filter_by_id_role db (user_id doctor) (user_role doctor)).
Proof.
  intros Hin. unfold User_filter_by_id_role.
  by apply (first_is_Some (λ u, user_id u = user_id doctor ∧ user_role u = user_role doctor)
              _ doctor).
Qed.

(** C4.  When the doctor id of the body is not the id of a user with role
    doctor, POST /prescriptions fails and leaves the database as it was: no
    prescription, association or patient is written.  With the four fields
    present the failure is the 403 "Invalid or unauthorized doctor ID" when
    the doctor id is a 64-bit integer; for a doctor id beyond that range the
    lookup raises OverflowError and the failure is a 500. *)
Theorem create_prescription_unauthorized_doctor now data db :
  (∀ u, u ∈ users db → data_doctor_id data = Some (user_id u) → user_role u ≠ "doctor") →
  ∃ code message,
    create_prescription now (Some data) db = (Fail code message, db) ∧
    (required_fields data = true →
     if decide (int64 (default 0 (data_doctor_id data)))
     then code = 403 ∧ message = "Invalid or unauthorized doctor ID"
     else code = 500 ∧ message = "Internal Server Error").
Proof.
  intros Hnone. unfold create_prescription.
  destruct (PrescriptionData_empty data) eqn:Hempty.
  { eexists _, _. split; [done|]. by destruct data as [[?|] [?|] [?|] [?|]]. }
  destruct (required_fields data) eqn:Hreq; simpl; [|by eexists _, _].
  case_decide as Hdrugs.
  { unfold required_fields in Hreq. rewrite !andb_true_iff in Hreq.
    destruct Hreq as [_ Hl]. destruct (data_drugs data) as [[|]|]; done. }
  assert (User_filter_by_id_role db (default 0 (data_doctor_id data)) "doctor" = None) as ->.
  { apply User_filter_by_id_role_None. intros u Hu Hid. apply Hnone; [done|].
    unfold required_fields in Hreq. rewrite !andb_true_iff in Hreq.
    destruct Hreq as [[[_ _] Hd] _]. destruct (data_doctor_id data); [|done].
    simpl in Hid. by rewrite Hid. }
  simpl. case_decide; by eexists _, _.
Qed.

Lemma create_prescription_unauthorized_doctor_witness :
  create_prescription 100 (request "Test Patient" "TP001" 999 (drug_refs [1])) test_db =
    (Fail 403 "Invalid or unauthorized doctor ID", test_db).
Proof.
  destruct (create_prescription_unauthorized_doctor 100
              (mkPrescriptionData (Some "Test Patient") (Some "TP001") (Some 999)
                                  (Some (drug_refs [1]))) test_db)
    as (code & message & E & H).
  - intros u Hu [= Hid]. cbn in Hu.
    repeat (apply elem_of_cons in Hu as [->|Hu]; [vm_compute in Hid; discriminate|]).
    by apply elem_of_nil in Hu.
  - specialize (H eq_refl). rewrite decide_True in H by by_evaluation.
    destruct H as [-> ->]. exact E.
Defined.

(** C4, as the specification has it, fails for a doctor id that SQLite
    cannot hold: no user has the id 2^63, and the request is answered 500,
    not 403. *)
Lemma unauthorized_doctor_beyond_int64 :
  Forall (λ u, user_id u ≠ 2 ^ 63) (users test_db) ∧
  required_fields (mkPrescriptionData (Some "Test Patient") (Some "TP001") (Some (2 ^ 63))
                                      (Some (drug_refs [1]))) = true ∧
  create_prescription 100 (request "Test Patient" "TP001" (2 ^ 63) (drug_refs [1])) test_db =
    (Fail 500 "Internal Server Error", test_db) ∧
  create_prescription 100 (request "Test Patient" "TP001" (2 ^ 63) (drug_refs [1])) test_db ≠
    (Fail 403 "Invalid or unauthorized doctor ID", test_db).
Proof. split_and!; [by_evaluation | done | by vm_compute | by vm_compute]. Qed.

(** ** C3 and C10: a drug id without a row *)

(** The handler up to the return inside the loop, for a body whose first
    unknown drug id is [missing]. *)
Lemma create_prescription_first_missing now name fn doctor_id ids missing rest db :
  name ≠ EmptyString → fn ≠ EmptyString → doctor_id ≠ 0 →
  is_Some (User_filter_by_id_role db doctor_id "doctor") →
  Forall (λ i, i ≠ 0 ∧ is_Some (Drug_get db i)) ids →
  missing ≠ 0 → Drug_get db missing = None →
  ∃ patient db1,
    find_or_create_patient db name fn = Some (patient, db1) ∧
    create_prescription now
      (request name fn doctor_id (drug_refs ids ++ mkDrugInfo (Some missing) :: rest)) db =
      (if decide (int64 missing)
       then Fail 400 ("Drug with ID " +:+ pretty missing +:+ " not found")
       else unhandled_exception, db1).
Proof.
  intros Hname Hfn Hdid [doctor Hdoc] Hids Hnz Hmissing.
  destruct (find_or_create_patient_Some db name fn)
    as (patient & db1 & Hfoc & _ & _ & _ & Hdrugs & _).
  exists patient, db1. split; [done|].
  rewrite create_prescription_request by (try done; by destruct (drug_refs ids)).
  rewrite Hdoc, Hfoc, validate_drugs_first_missing; [by case_decide| |done|].
  - eapply Forall_impl; [exact Hids|]. intros i [? ?]. by rewrite (Drug_get_ext db).
  - by rewrite (Drug_get_ext db).
Qed.

(** The same for an entry that carries no drug id, or the id 0. *)
Lemma create_prescription_first_without_drug_id now name fn doctor_id ids entry rest db :
  name ≠ EmptyString → fn ≠ EmptyString → doctor_id ≠ 0 →
  is_Some (User_filter_by_id_role db doctor_id "doctor") →
  Forall (λ i, i ≠ 0 ∧ is_Some (Drug_get db i)) ids →
  info_drug_id entry = None ∨ info_drug_id entry = Some 0 →
  ∃ patient db1,
    find_or_create_patient db name fn = Some (patient, db1) ∧
    create_prescription now (request name fn doctor_id (drug_refs ids ++ entry :: rest)) db =
      (Fail 400 "Each drug entry must contain a 'drug_id'", db1).
Proof.
  intros Hname Hfn Hdid [doctor Hdoc] Hids Hentry.
  destruct (find_or_create_patient_Some db name fn)
    as (patient & db1 & Hfoc & _ & _ & _ & Hdrugs & _).
  exists patient, db1. split; [done|].
  rewrite create_prescription_request by (try done; by destruct (drug_refs ids)).
  rewrite Hdoc, Hfoc, validate_drugs_without_drug_id; [done| |done].
  eapply Forall_impl; [exact Hids|]. intros i [? ?]. by rewrite (Drug_get_ext db).
Qed.

(** C3.  With a doctor that resolves, a body whose drug ids are in the
    catalog up to a first id [missing] that is not fails at that id,
    whatever follows it: the entries behind [missing] are not looked at, and
    neither a prescription nor an association row is written.  The failure
    is the 400 "Drug with ID <missing> not found", a message that determines
    the id, when [missing] is a 64-bit integer other than 0.  The id 0 is
    taken for an entry without drug id and answered 400 "Each drug entry
    must contain a 'drug_id'"; for an id beyond 64 bits the lookup raises
    OverflowError and the answer is a 500. *)
Theorem create_prescription_drug_not_found now name fn doctor ids missing rest db :
  name ≠ EmptyString → fn ≠ EmptyString → user_id doctor ≠ 0 →
  doctor ∈ users db → user_role doctor = "doctor" →
  Forall (λ i, i ≠ 0 ∧ i ∈ drug_id <$> drugs db) ids →
  missing ∉ drug_id <$> drugs db →
  ∃ response db',
    response =
      (if decide (missing = 0) then Fail 400 "Each drug entry must contain a 'drug_id'"
       else if decide (int64 missing)
            then Fail 400 ("Drug with ID " +:+ pretty missing +:+ " not found")
            else Fail 500 "Internal Server Error") ∧
    (∀ i : Z, "Drug with ID " +:+ pretty i +:+ " not found" =
              "Drug with ID " +:+ pretty missing +:+ " not found" → i = missing) ∧
    (∀ rest',
       create_prescription now
         (request name fn (user_id doctor)
                  (drug_refs ids ++ mkDrugInfo (Some missing) :: rest')) db =
       (response, db')) ∧
    create_prescription now
      (request name fn (user_id doctor) (drug_refs ids ++ mkDrugInfo (Some missing) :: rest))
      db = (response, db') ∧
    prescriptions db' = prescriptions db ∧
    prescription_drug_association db' = prescription_drug_association db.
Proof.
  intros Hname Hfn Hdid Hdoc Hrole Hids Hmissing.
  pose proof (User_filter_by_id_role_present db doctor Hdoc) as Hfound.
  rewrite Hrole in Hfound.
  assert (Forall (λ i, i ≠ 0 ∧ is_Some (Drug_get db i)) ids) as Hids'.
  { eapply Forall_impl; [exact Hids|]. intros i [? ?]. split; [done|].
    by apply (get_present drug_id). }
  assert (Drug_get db missing = None) as Hnone by by apply (get_absent drug_id).
  destruct (find_or_create_patient_Some db name fn)
    as (patient & db1 & Hfoc & _ & _ & _ & _ & Hpr & Ha & _).
  eexists _, db1. split; [reflexivity|].
  assert (∀ rest',
    create_prescription now
      (request name fn (user_id doctor) (drug_refs ids ++ mkDrugInfo (Some missing) :: rest'))
      db =
    (if decide (missing = 0) then Fail 400 "Each drug entry must contain a 'drug_id'"
     else if decide (int64 missing)
          then Fail 400 ("Drug with ID " +:+ pretty missing +:+ " not found")
          else Fail 500 "Internal Server Error", db1)) as Hall.
  { intros rest'. destruct (decide (missing = 0)) as [->|Hnz].
    - destruct (create_prescription_first_without_drug_id now name fn (user_id doctor) ids
                  (mkDrugInfo (Some 0)) rest' db)
        as (patient' & db1' & Hfoc' & E); try done; [by right|].
      rewrite Hfoc in Hfoc'. by injection Hfoc' as <- <-.
    - destruct (create_prescription_first_missing now name fn (user_id doctor) ids missing
                  rest' db)
        as (patient' & db1' & Hfoc' & E); try done.
      rewrite Hfoc in Hfoc'. by injection Hfoc' as <- <-. }
  split_and!; [intros i; apply drug_not_found_message_inj|apply Hall|apply Hall|done|done].
Qed.

Lemma create_prescription_drug_not_found_witness :
  ∃ db',
    (∀ rest',
       create_prescription 100
         (request "Test Patient" "TP002" 1 (drug_refs [1] ++ mkDrugInfo (Some 999) :: rest'))
         test_db =
       (Fail 400 "Drug with ID 999 not found", db')) ∧
    prescriptions db' = prescriptions test_db ∧
    prescription_drug_association db' = prescription_drug_association test_db.
Proof.
  destruct (create_prescription_drug_not_found 100 "Test Patient" "TP002" testdoc [1] 999
              [] test_db)
    as (response & db' & -> & _ & Hall & _ & Hpr & Ha);
    [done | done | done | by_evaluation | done | by_evaluation | by_evaluation |].
  exists db'. split_and!; [|done|done]. intros rest'. apply (Hall rest').
Defined.

(** C3, as the specification has it, fails for two ids that no drug has.
    The id 0 is answered as an entry without drug id, not as a drug that was
    not found; the id 2^63 is answered 500. *)
Lemma missing_drug_is_not_always_named :
  Forall (λ d, drug_id d ≠ 0 ∧ drug_id d ≠ 2 ^ 63) (drugs test_db) ∧
  create_prescription 100 (request "Test Patient" "TP002" 1 (drug_refs [1; 0])) test_db =
    (Fail 400 "Each drug entry must contain a 'drug_id'",
     mkDB (users test_db) (patients test_db ++ [mkPatient 2 "Test Patient" "TP002"])
          (drugs test_db) [] [] insert_per_element) ∧
  create_prescription 100 (request "Test Patient" "TP002" 1 (drug_refs [1; 2 ^ 63])) test_db =
    (Fail 500 "Internal Server Error",
     mkDB (users test_db) (patients test_db ++ [mkPatient 2 "Test Patient" "TP002"])
          (drugs test_db) [] [] insert_per_element).
Proof. split_and!; [by_evaluation | by vm_compute | by vm_compute]. Qed.

(** C10.  When the file number is new, the doctor resolves and the loop
    ends at an unknown drug id, the failure (the 400 that names the id, or
    the 500 of an id beyond 64 bits) leaves the new patient in the database:
    [patients] has grown by the row created for the request, so the database
    is not the one before the request. *)
Theorem create_prescription_orphan_patient now name fn doctor_id ids missing rest db :
  name ≠ EmptyString → fn ≠ EmptyString → doctor_id ≠ 0 →
  is_Some (User_filter_by_id_role db doctor_id "doctor") →
  Patient_filter_by_file_number db fn = None →
  Forall (λ i, i ≠ 0 ∧ is_Some (Drug_get db i)) ids →
  missing ≠ 0 → Drug_get db missing = None →
  ∃ db',
    create_prescription now
      (request name fn doctor_id (drug_refs ids ++ mkDrugInfo (Some missing) :: rest)) db =
      (if decide (int64 missing)
       then Fail 400 ("Drug with ID " +:+ pretty missing +:+ " not found")
       else Fail 500 "Internal Server Error", db') ∧
    patients db' = patients db ++ [mkPatient (next_id (patient_id <$> patients db)) name fn] ∧
    Patient_filter_by_file_number db' fn =
      Some (mkPatient (next_id (patient_id <$> patients db)) name fn) ∧
    prescriptions db' = prescriptions db ∧
    db' ≠ db.
Proof.
  intros Hname Hfn Hdid Hdoc Hnew Hids Hnz Hmissing.
  destruct (create_prescription_first_missing now name fn doctor_id ids missing rest db)
    as (patient & db1 & Hfoc & E); try done.
  rewrite find_or_create_patient_new in Hfoc by done. injection Hfoc as <- <-.
  eexists. split; [exact E|]. simpl. split_and!; try done.
  - unfold Patient_filter_by_file_number in *. simpl.
    rewrite (first_app (λ p, patient_file_number p = fn)), Hnew.
    rewrite filter_cons, decide_True; done.
  - intros Heq. apply (f_equal (λ d, length (patients d))) in Heq. simpl in Heq.
    rewrite length_app in Heq. simpl in Heq. lia.
Qed.

Lemma create_prescription_orphan_patient_witness :
  ∃ db',
    create_prescription 100
      (request "Test Patient" "TP002" 1 (drug_refs [] ++ mkDrugInfo (Some 999) :: [])) test_db =
      (Fail 400 ("Drug with ID " +:+ pretty 999 +:+ " not found"), db') ∧
    patients db' = patients test_db ++ [mkPatient 2 "Test Patient" "TP002"] ∧
    Patient_filter_by_file_number db' "TP002" = Some (mkPatient 2 "Test Patient" "TP002") ∧
    prescriptions db' = prescriptions test_db ∧
    db' ≠ test_db.
Proof.
  apply (create_prescription_orphan_patient 100 "Test Patient" "TP002" 1 [] 999 [] test_db);
    [done | done | done | by eexists | reflexivity | constructor | done | reflexivity].
Defined.

(** ** C8: a drug id repeated in one request *)

(** With the doctor resolved and every drug id found, the handler reaches
    the commit of the prescription; what it returns is decided there. *)
Lemma create_prescription_to_commit now name fn doctor_id ids doctor db :
  name ≠ EmptyString → fn ≠ EmptyString → doctor_id ≠ 0 → ids ≠ [] →
  User_filter_by_id_role db doctor_id "doctor" = Some doctor →
  Forall (λ i, i ≠ 0 ∧ is_Some (Drug_get db i)) ids →
  ∃ patient db1 found,
    find_or_create_patient db name fn = Some (patient, db1) ∧
    mapM (Drug_get db1) ids = Some found ∧
    validate_drugs db1 (drug_refs ids) [] = inr found ∧
    create_prescription now (request name fn doctor_id (drug_refs ids)) db =
      match insert_prescription db1 now patient doctor found with
      | Some (new_prescription, db2) =>
          (Ok 201 (mkCreated "Prescription created successfully"
                             (prescription_id new_prescription) "pending" now), db2)
      | None => (Fail 500 "Error creating prescription", db1)
      end.
Proof.
  intros Hname Hfn Hdid Hne Hdoc Hids.
  destruct (find_or_create_patient_Some db name fn)
    as (patient & db1 & Hfoc & _ & _ & _ & Hdrugs & _).
  assert (is_Some (mapM (Drug_get db1) ids)) as [found Hfound].
  { apply mapM_is_Some. eapply Forall_impl; [exact Hids|]. intros i [_ ?]. simpl.
    by rewrite (Drug_get_ext db). }
  assert (validate_drugs db1 (drug_refs ids) [] = inr found) as Hv.
  { apply (validate_drugs_all_found db1 ids []); [|done].
    eapply Forall_impl; [exact Hids|]. by intros i [? _]. }
  exists patient, db1, found. split_and!; [done..|].
  rewrite create_prescription_request by (try done; by destruct ids).
  rewrite Hdoc, Hfoc, Hv. rewrite decide_False.
  - destruct (insert_prescription _ _ _ _ _) as [[p db2]|] eqn:Hins; [|done].
    by apply insert_prescription_Some in Hins as (-> & _).
  - intros ->. apply mapM_Drug_get in Hfound as [Hnil _]. by rewrite <- Hnil in Hne.
Qed.

(** The rows of the collection, by the drug ids of the request. *)
Lemma elem_of_collection_rows_ids db id found ids row :
  drug_id <$> found = ids →
  row ∈ collection_rows db id found ↔ ∃ i, i ∈ ids ∧ row = (id, i).
Proof.
  intros <-. rewrite elem_of_collection_rows. split.
  - intros (d & Hd & ->). exists (drug_id d). split; [by apply list_elem_of_fmap_2|done].
  - intros (i & (d & -> & Hd)%list_elem_of_fmap & ->). by exists d.
Qed.

Lemma collection_rows_NoDup_ids db id found ids :
  drug_id <$> found = ids → NoDup ids →
  collection_rows db id found = (λ i, (id, i)) <$> ids.
Proof.
  intros <- Hnd. rewrite collection_rows_NoDup by done. by rewrite <- list_fmap_compose.
Qed.

(** C8, as the code has it.  The loop over the drug entries does not look
    for repetitions, so a body that repeats a known drug id passes
    validation.  But the association table has the primary key
    (prescription_id, drug_id), so no prescription is ever stored with the
    same drug twice.  What becomes of the request is decided by the unit of
    work: where it inserts one row per element of the collection, the commit
    is refused, the handler answers 500 "Error creating prescription" and
    writes neither the prescription nor any association row; where it
    inserts one row per object, the handler answers 201 and the prescription
    has one association row for each drug id of the request.  A request
    without repetition is answered 201 in either case, and its association
    rows are written in the order of the request. *)
Theorem create_prescription_repeated_drug now name fn doctor ids db :
  consistent db →
  name ≠ EmptyString → fn ≠ EmptyString → user_id doctor ≠ 0 → ids ≠ [] →
  doctor ∈ users db → user_role doctor = "doctor" →
  Forall (λ i, i ≠ 0 ∧ i ∈ drug_id <$> drugs db) ids →
  ∃ patient db1 found response db',
    find_or_create_patient db name fn = Some (patient, db1) ∧
    validate_drugs db1 (drug_refs ids) [] = inr found ∧ drug_id <$> found = ids ∧
    create_prescription now (request name fn (user_id doctor) (drug_refs ids)) db =
      (response, db') ∧
    NoDup (prescription_drug_association db') ∧
    match response with
    | Ok code created =>
        code = 201 ∧ (flush db = insert_per_object ∨ NoDup ids) ∧
        (∀ row, row ∈ prescription_drug_association db' ↔
                row ∈ prescription_drug_association db ∨
                ∃ i, i ∈ ids ∧ row = (created_prescription_id created, i)) ∧
        (NoDup ids →
         prescription_drug_association db' =
           prescription_drug_association db ++
           ((λ i, (created_prescription_id created, i)) <$> ids))
    | Fail code message =>
        code = 500 ∧ message = "Error creating prescription" ∧
        flush db = insert_per_element ∧ ¬ NoDup ids ∧
        prescriptions db' = prescriptions db ∧
        prescription_drug_association db' = prescription_drug_association db
    end.
Proof.
  intros Hc Hname Hfn Hdid Hne Hdoc Hrole Hids.
  destruct (User_filter_by_id_role_present db doctor Hdoc) as [doctor' Hdoc'].
  rewrite Hrole in Hdoc'.
  destruct (create_prescription_to_commit now name fn (user_id doctor) ids doctor' db)
    as (patient & db1 & found & Hfoc & Hfound & Hv & E); try done.
  { eapply Forall_impl; [exact Hids|]. intros i [? ?]. split; [done|].
    by apply (get_present drug_id). }
  pose proof (find_or_create_patient_consistent _ _ _ _ _ Hc Hfoc) as Hc1.
  pose proof (find_or_create_patient_flush _ _ _ _ _ Hfoc) as Hfl.
  destruct (find_or_create_patient_Some db name fn)
    as (patient' & db1' & Hfoc' & _ & _ & _ & _ & Hpr & Ha & _).
  rewrite Hfoc in Hfoc'. symmetry in Hfoc'. simplify_eq.
  apply mapM_Drug_get in Hfound as [Hmap _].
  pose proof (insert_prescription_NoDup db1 now patient doctor' found Hc1) as Hins.
  rewrite Hmap, Hfl in Hins.
  destruct (insert_prescription db1 now patient doctor' found) as [[p db2]|] eqn:Hp.
  - eexists patient, db1, found, _, db2. split_and!; [done|done|done|exact E|..].
    + by apply insert_prescription_Some in Hp as (_ & _ & _ & _ & _ & _ & ?).
    + simpl. apply insert_prescription_Some in Hp as (_ & _ & _ & _ & _ & Ha2 & _).
      rewrite Ha2, Ha. split_and!; [done|apply Hins; by eexists| |].
      * intros row. by rewrite elem_of_app, (elem_of_collection_rows_ids _ _ _ ids).
      * intros Hnd. by rewrite (collection_rows_NoDup_ids _ _ _ ids).
  - eexists patient, db1, found, _, db1. split_and!; [done|done|done|exact E|..].
    + apply (association_pk _ Hc1).
    + simpl. split_and!; try done.
      * destruct (flush db); [done|]. destruct (proj2 Hins) as [? [=]]. by left.
      * intros Hnd. destruct (proj2 Hins) as [? [=]]. by right.
Qed.

Lemma create_prescription_repeated_drug_witness :
  ∃ found,
    validate_drugs
      (mkDB (users test_db) (patients test_db ++ [mkPatient 2 "Jane Smith" "JS001"])
            (drugs test_db) [] [] insert_per_element) (drug_refs [1; 1]) [] = inr found ∧
    drug_id <$> found = [1; 1] ∧
    create_prescription 100 (request "Jane Smith" "JS001" 1 (drug_refs [1; 1])) test_db =
      (Fail 500 "Error creating prescription",
       mkDB (users test_db) (patients test_db ++ [mkPatient 2 "Jane Smith" "JS001"])
            (drugs test_db) [] [] insert_per_element).
Proof.
  destruct (create_prescription_repeated_drug 100 "Jane Smith" "JS001" testdoc [1; 1] test_db
              consistent_test_db)
    as (patient & db1 & found & response & db' & Hfoc & Hv & Hmap & E & _ & Hresponse);
    [done | done | done | done | by_evaluation | done | by_evaluation |].
  vm_compute in Hfoc. injection Hfoc as <- <-.
  exists found. split_and!; [exact Hv | exact Hmap |].
  destruct response as [code created|code message].
  - destruct Hresponse as (_ & [[=]|Hnd] & _).
    apply NoDup_cons in Hnd as [Hin _]. destruct Hin. by left.
  - destruct Hresponse as (-> & -> & _). pose proof E as E'.
    vm_compute in E'. injection E' as <-. exact E.
Defined.

(** C8, as the specification has it, fails under either unit of work: the
    request below repeats drug 1; with a row per element it is not accepted
    and nothing of the prescription is written, with a row per object it is
    accepted and the repetition is dropped. *)
Lemma repeated_drug_is_not_persisted :
  consistent test_db ∧ consistent test_db_per_object ∧
  1 ∈ drug_id <$> drugs test_db ∧ testdoc ∈ users test_db ∧
  (create_prescription 100 (request "Jane Smith" "JS001" 1 (drug_refs [1; 1])) test_db).1 =
    Fail 500 "Error creating prescription" ∧
  prescription_drug_association
    (create_prescription 100 (request "Jane Smith" "JS001" 1 (drug_refs [1; 1])) test_db).2 =
    [] ∧
  (create_prescription 100 (request "Jane Smith" "JS001" 1 (drug_refs [1; 1]))
     test_db_per_object).1 =
    Ok 201 (mkCreated "Prescription created successfully" 1 "pending" 100) ∧
  prescription_drug_association
    (create_prescription 100 (request "Jane Smith" "JS001" 1 (drug_refs [1; 1]))
       test_db_per_object).2 = [(1, 1)].
Proof.
  split_and!; [apply consistent_test_db | by_evaluation | by_evaluation | by_evaluation
              | by vm_compute..].
Qed.

(** ** Relationships in a consistent database *)

Lemma omap_all_Some {A B} (f : A → option B) l :
  Forall (λ x, is_Some (f x)) l → Forall2 (λ x y, f x = Some y) l (omap f l).
Proof.
  induction 1 as [|x l [y Hy] _ IH]; [constructor|].
  simpl. rewrite Hy. simpl. by constructor.
Qed.

Lemma Patient_get_Some db id patient :
  Patient_get db id = Some patient → patient ∈ patients db ∧ patient_id patient = id.
Proof.
  unfold Patient_get. intros E. by apply (first_Some (λ p, patient_id p = id)) in E.
Qed.

Lemma User_get_Some db id u : User_get db id = Some u → u ∈ users db ∧ user_id u = id.
Proof. unfold User_get. intros E. by apply (first_Some (λ u, user_id u = id)) in E. Qed.

Lemma Prescription_get_Some db id p :
  Prescription_get db id = Some p → p ∈ prescriptions db ∧ prescription_id p = id.
Proof.
  unfold Prescription_get. intros E.
  by apply (first_Some (λ p, prescription_id p = id)) in E.
Qed.

(** A stored prescription is the row found under its id. *)
Lemma Prescription_get_stored db p :
  consistent db → p ∈ prescriptions db → Prescription_get db (prescription_id p) = Some p.
Proof.
  intros Hc Hp. apply (get_unique prescription_id); [apply (prescriptions_pk _ Hc)|done].
Qed.

Lemma Prescription_get_absent db id :
  id ∉ prescription_id <$> prescriptions db → Prescription_get db id = None.
Proof. apply (get_absent prescription_id). Qed.

(** The patient of a stored prescription is found. *)
Lemma prescription_patient db p :
  consistent db → p ∈ prescriptions db →
  is_Some (Patient_get db (prescription_patient_id p)).
Proof.
  intros Hc Hp. pose proof (prescription_patient_fk _ Hc) as Hfk.
  rewrite Forall_forall in Hfk. apply (get_present patient_id), Hfk, Hp.
Qed.

Lemma prescription_doctor db p :
  consistent db → p ∈ prescriptions db →
  is_Some (User_get db (prescription_doctor_id p)).
Proof.
  intros Hc Hp. pose proof (prescription_doctor_fk _ Hc) as Hfk.
  rewrite Forall_forall in Hfk. apply (get_present user_id), Hfk, Hp.
Qed.

#[global] Instance by_drug_id_total : Total by_drug_id.
Proof. intros row1 row2. unfold by_drug_id. lia. Qed.

#[global] Instance by_drug_id_trans : Transitive by_drug_id.
Proof. intros row1 row2 row3. unfold by_drug_id. lia. Qed.



Lemma omap_ext_Forall {A B} (f g : A → option B) l :
  Forall (λ x, f x = g x) l → omap f l = omap g l.
Proof.
  induction 1 as [|x l Hx _ IH]; [done|].
  change (omap f (x :: l)) with (match f x with Some y => y :: omap f l | None => omap f l end).
  change (omap g (x :: l)) with (match g x with Some y => y :: omap g l | None => omap g l end).
  by rewrite Hx, IH.
Qed.



(** Rows of other prescriptions and drugs added to the catalog do not change
    the drugs of a prescription. *)
Lemma prescribed_drugs_grown db db' p ds rows :
  consistent db →
  drugs db' = drugs db ++ ds →
  prescription_drug_association db' = prescription_drug_association db ++ rows →
  Forall (λ row : Z * Z, row.1 ≠ prescription_id p) rows →
  prescribed_drugs db' p = prescribed_drugs db p.
Proof.
  intros Hc Hd Ha Hrows. unfold prescribed_drugs. rewrite Ha, filter_app.
  rewrite (filter_none _ rows), app_nil_r.
  - apply omap_ext_Forall, Forall_forall. intros row Hrow.
    rewrite merge_sort_Permutation in Hrow.
    apply (list_elem_of_filter (λ row : Z * Z, row.1 = prescription_id p)) in Hrow as [_ Hrow].
    pose proof (association_drug_fk _ Hc) as Hfk. rewrite Forall_forall in Hfk.
    destruct (get_present drug_id (drugs db) row.2 (Hfk _ Hrow)) as [d Hdrug].
    unfold Drug_get. rewrite Hd.
    by rewrite (first_app (λ d, drug_id d = row.2)), Hdrug.
  - eapply Forall_impl; [exact Hrows|]. by intros row Hrow Heq.
Qed.

(** ** C1: creation, then retrieval *)

(** The relationships of a prescription that was just inserted. *)
Lemma insert_prescription_get db now patient doctor found p db2 :
  consistent db → patient ∈ patients db → doctor ∈ users db →
  insert_prescription db now patient doctor found = Some (p, db2) →
  Prescription_get db2 (prescription_id p) = Some p ∧
  Patient_get db2 (prescription_patient_id p) = Some patient ∧
  User_get db2 (prescription_doctor_id p) = Some doctor ∧
  (∀ i, (prescription_id p, i) ∈ prescription_drug_association db2 ↔
        i ∈ drug_id <$> found).
Proof.
  intros Hc Hpat Hdoc Hins.
  apply insert_prescription_Some in Hins as (Hp & Hu & Hpa & Hd & Hpr & Ha & _).
  assert (prescription_id p ∉ prescription_id <$> prescriptions db) as Hfresh.
  { rewrite Hp. simpl. apply next_id_fresh. }
  split_and!.
  - unfold Prescription_get. rewrite Hpr.
    rewrite (first_app (λ q, prescription_id q = prescription_id p)).
    rewrite (get_absent prescription_id) by done.
    by rewrite filter_cons, decide_True.
  - unfold Patient_get. rewrite Hpa, Hp. simpl.
    apply (get_unique patient_id); [apply (patients_pk _ Hc) | done].
  - unfold User_get. rewrite Hu, Hp. simpl.
    apply (get_unique user_id); [apply (users_pk _ Hc) | done].
  - intros i. rewrite Ha, elem_of_app.
    rewrite (elem_of_collection_rows_ids _ _ found (drug_id <$> found)) by done. split.
    + intros [Hold|(j & Hj & [= ->])]; [|done].
      pose proof (association_prescription_fk _ Hc) as Hfk. rewrite Forall_forall in Hfk.
      by apply Hfk in Hold.
    + intros Hi. right. by exists i.
Qed.




(** ** C5: the status update *)

Lemma first_fmap {A} (P : A → Prop) `{!∀ x, Decision (P x)} (f : A → A) l :
  (∀ x, P (f x) ↔ P x) → head (filter P (f <$> l)) = f <$> head (filter P l).
Proof.
  intros Hf. induction l as [|x l IH]; [done|].
  rewrite fmap_cons, !filter_cons.
  destruct (decide (P x)) as [Hx|Hx].
  - by rewrite decide_True by by apply Hf.
  - by rewrite decide_False by by rewrite Hf.
Qed.

Lemma Prescription_get_set_status db id new_status j :
  Prescription_get (set_status db id new_status) j =
  (λ p, if decide (prescription_id p = id) then with_status new_status p else p)
    <$> Prescription_get db j.
Proof.
  unfold Prescription_get. simpl. apply (first_fmap (λ p, prescription_id p = j)).
  intros p. by case_decide.
Qed.

Lemma same_key {A K} `{!EqDecision K} (key : A → K) l x y :
  NoDup (key <$> l) → x ∈ l → y ∈ l → key x = key y → x = y.
Proof.
  intros Hnd Hx Hy Hk. pose proof (get_unique key l x Hnd Hx) as Ex.
  pose proof (get_unique key l y Hnd Hy) as Ey. rewrite Hk in Ex. congruence.
Qed.

(** Writing the status a row already has changes nothing. *)
Lemma set_status_same db id p :
  consistent db → Prescription_get db id = Some p →
  set_status db id (prescription_status p) = db.
Proof.
  intros Hc Hget. apply Prescription_get_Some in Hget as [Hin Hid].
  unfold set_status. destruct db as [us ps ds prs assoc fl]. simpl in *. f_equal.
  rewrite <- (list_fmap_id prs) at 2. apply list_fmap_ext. intros i q Hq.
  apply list_elem_of_lookup_2 in Hq. simpl. case_decide as Hqid; [|done].
  assert (q = p) as ->.
  { apply (same_key prescription_id prs); [apply (prescriptions_pk _ Hc)|done|done|congruence]. }
  by destruct p.
Qed.

(** The UPDATE touches the row of the prescription and no other. *)
Lemma set_status_prescriptions db p new_status :
  consistent db → p ∈ prescriptions db →
  prescriptions (set_status db (prescription_id p) new_status) =
    (λ q, if decide (q = p) then with_status new_status p else q) <$> prescriptions db.
Proof.
  intros Hc Hp. simpl. apply list_fmap_ext. intros i q Hq.
  apply list_elem_of_lookup_2 in Hq. simpl. case_decide as Hqid.
  - assert (q = p) as ->.
    { by apply (same_key prescription_id (prescriptions db)); [apply (prescriptions_pk _ Hc)|..]. }
    by rewrite decide_True.
  - rewrite decide_False; [done|]. by intros ->.
Qed.

(** The handler for a body with a non-empty status. *)
Lemma update_prescription_status_request id new_status db :
  new_status ≠ EmptyString →
  update_prescription_status id (status_data new_status) db =
    match Prescription_get db id with
    | None =>
        (if decide (int64 id) then Fail 404 "Prescription not found"
         else unhandled_exception, db)
    | Some p =>
        (Ok 200 (mkUpdated "Prescription status updated successfully"
                   (mkUpdatedPrescription (prescription_id p) (prescription_patient_id p)
                      (prescription_doctor_id p) new_status (prescription_created_at p)
                      (prescribed_drugs db p))),
         set_status db id new_status)
    end.
Proof.
  intros Hne. unfold update_prescription_status, status_data. simpl.
  rewrite bool_decide_true by done. simpl.
  destruct (Prescription_get db id) as [p|] eqn:Hget; simpl; [|by case_decide].
  pose proof (Prescription_get_Some _ _ _ Hget) as [_ Hid].
  rewrite Prescription_get_set_status, Hget. simpl. by rewrite decide_True.
Qed.

(** C5.  For a non-empty [new_status], PUT /prescriptions/<id>/status on a
    stored prescription answers 200 whatever the old and the new status are;
    the response and the row afterwards carry [new_status] and the old
    patient, doctor and creation time, every other prescription and the
    other four tables are as before, and so are the associated drugs; when
    [new_status] is the status the row already had the whole database is
    unchanged.  On an id without a row the handler changes nothing; it
    answers 404 "Prescription not found" when the id is a 64-bit integer, and
    500 when it is beyond that range, where the lookup raises
    OverflowError. *)
Theorem update_prescription_status_overwrites id new_status db :
  consistent db → new_status ≠ EmptyString →
  (∀ p, p ∈ prescriptions db → prescription_id p = id →
     ∃ body db',
       update_prescription_status id (status_data new_status) db = (Ok 200 body, db') ∧
       updated_prescription body =
         mkUpdatedPrescription id (prescription_patient_id p) (prescription_doctor_id p)
           new_status (prescription_created_at p) (prescribed_drugs db p) ∧
       prescriptions db' =
         (λ q, if decide (q = p) then with_status new_status p else q) <$> prescriptions db ∧
       users db' = users db ∧ patients db' = patients db ∧ drugs db' = drugs db ∧
       prescription_drug_association db' = prescription_drug_association db ∧
       prescribed_drugs db' (with_status new_status p) = prescribed_drugs db p ∧
       (new_status = prescription_status p → db' = db)) ∧
  (id ∉ prescription_id <$> prescriptions db →
     (0 ≤ id < 2 ^ 63 →
      update_prescription_status id (status_data new_status) db =
        (Fail 404 "Prescription not found", db)) ∧
     (2 ^ 63 ≤ id →
      update_prescription_status id (status_data new_status) db =
        (Fail 500 "Internal Server Error", db))).
Proof.
  intros Hc Hne. rewrite update_prescription_status_request by done. split.
  - intros p Hp <-. pose proof (Prescription_get_stored db p Hc Hp) as Hget.
    rewrite Hget. eexists _, _. split; [reflexivity|]. simpl.
    split_and!; try done.
    + by apply set_status_prescriptions.
    + intros ->. by apply set_status_same.
  - intros Habsent. rewrite Prescription_get_absent by done. split.
    + intros Hid. rewrite decide_True; [done|]. unfold int64. lia.
    + intros Hid. rewrite decide_False; [done|]. unfold int64. lia.
Qed.

Lemma update_prescription_status_overwrites_witness :
  let p := mkPrescription 1 2 1 "pending" 100 in
  ∃ body db',
    update_prescription_status 1 (status_data "ready") test_db1 = (Ok 200 body, db') ∧
    updated_prescription body =
      mkUpdatedPrescription 1 (prescription_patient_id p) (prescription_doctor_id p)
        "ready" (prescription_created_at p) (prescribed_drugs test_db1 p) ∧
    prescriptions db' =
      (λ q, if decide (q = p) then with_status "ready" p else q) <$> prescriptions test_db1 ∧
    users db' = users test_db1 ∧ patients db' = patients test_db1 ∧
    drugs db' = drugs test_db1 ∧
    prescription_drug_association db' = prescription_drug_association test_db1 ∧
    prescribed_drugs db' (with_status "ready" p) = prescribed_drugs test_db1 p ∧
    ("ready" = prescription_status p → db' = test_db1).
Proof.
  intros p.
  apply (proj1 (update_prescription_status_overwrites 1 "ready" test_db1 consistent_test_db1
                  ltac:(done)) p); [by_evaluation | done].
Defined.

(** C5, as the specification has it, fails for an id that SQLite cannot
    hold: no prescription has the id 2^63, which the route passes, and the
    request is answered 500, not 404. *)
Lemma status_update_beyond_int64 :
  (2 ^ 63 ∉ prescription_id <$> prescriptions test_db1) ∧
  update_prescription_status (2 ^ 63) (status_data "ready") test_db1 =
    (Fail 500 "Internal Server Error", test_db1) ∧
  update_prescription_status (2 ^ 63) (status_data "ready") test_db1 ≠
    (Fail 404 "Prescription not found", test_db1).
Proof. split_and!; [by_evaluation | by vm_compute | by vm_compute]. Qed.

(** ** C9: labels *)

(** The handler on a prescription that is found. *)
Lemma get_prescription_label_stored today_date id db p patient :
  Prescription_get db id = Some p →
  Patient_get db (prescription_patient_id p) = Some patient →
  get_prescription_label today_date id db =
    Ok 200 (mkLabels id
              ((λ drug, label_string (patient_name patient) (patient_file_number patient)
                                     drug today_date)
                 <$> prescribed_drugs db p)).
Proof. intros Hget Hpat. unfold get_prescription_label. by rewrite Hget; simpl; rewrite Hpat. Qed.

Lemma get_prescription_label_absent today_date id db :
  Prescription_get db id = None →
  get_prescription_label today_date id db =
    if decide (int64 id) then Fail 404 "Prescription not found" else unhandled_exception.
Proof. intros Hget. unfold get_prescription_label. rewrite Hget. simpl. by case_decide. Qed.




(** ** C7: pending notifications *)

#[global] Instance newer_first_total : Total newer_first.
Proof. intros p q. unfold newer_first. lia. Qed.

#[global] Instance newer_first_trans : Transitive newer_first.
Proof. intros p q r. unfold newer_first. lia. Qed.

Lemma pending_prescriptions_spec db p :
  p ∈ pending_prescriptions db ↔ p ∈ prescriptions db ∧ prescription_status p = "pending".
Proof.
  unfold pending_prescriptions. rewrite merge_sort_Permutation.
  rewrite (list_elem_of_filter (λ p, prescription_status p = "pending")). tauto.
Qed.

(** C7.  GET /dashboard/notifications answers 200 with one entry per
    prescription whose status is the string "pending" and none for any other
    prescription; an entry carries the id and creation time of its
    prescription and the name of its patient, the row of [patients] whose id
    is the patient id of the prescription, and the entries stand with
    creation times in descending order. *)
Theorem get_dashboard_notifications_pending db :
  consistent db →
  ∃ notifications,
    get_dashboard_notifications db = Ok 200 notifications ∧
    Forall2 (λ p n,
               notification_id n = prescription_id p ∧
               notification_created_at n = prescription_created_at p ∧
               ∃ patient, patient ∈ patients db ∧
                          patient_id patient = prescription_patient_id p ∧
                          notification_patient_name n = patient_name patient)
            (pending_prescriptions db) notifications ∧
    pending_prescriptions db ≡ₚ
      filter (λ p, prescription_status p = "pending") (prescriptions db) ∧
    (∀ p, p ∈ prescriptions db →
       prescription_id p ∈ notification_id <$> notifications ↔
       prescription_status p = "pending") ∧
    StronglySorted (λ newer older, older ≤ newer) (notification_created_at <$> notifications).
Proof.
  intros Hc. unfold get_dashboard_notifications.
  set (entry := λ pres, _ ≫= _).
  assert (is_Some (mapM entry (pending_prescriptions db))) as [notifications Hm].
  { apply mapM_is_Some, Forall_forall. intros p [Hp _]%pending_prescriptions_spec.
    destruct (prescription_patient db p Hc Hp) as [patient Hpat].
    subst entry. simpl. rewrite Hpat. by eexists. }
  rewrite Hm. exists notifications. apply mapM_Some_1 in Hm.
  assert (Forall2 (λ p n,
            notification_id n = prescription_id p ∧
            notification_created_at n = prescription_created_at p ∧
            ∃ patient, patient ∈ patients db ∧
                       patient_id patient = prescription_patient_id p ∧
                       notification_patient_name n = patient_name patient)
          (pending_prescriptions db) notifications) as Hentries.
  { eapply Forall2_impl; [exact Hm|]. intros p n Hn. subst entry. simpl in Hn.
    destruct (Patient_get db (prescription_patient_id p)) as [patient|] eqn:Hpat; [|done].
    injection Hn as <-. simpl. apply Patient_get_Some in Hpat as [? ?].
    split_and!; [done|done|]. by exists patient. }
  assert (notification_id <$> notifications =
          prescription_id <$> pending_prescriptions db) as Hids.
  { clear Hm. induction Hentries as [|p n ps ns (? & _) _ IH]; [done|].
    rewrite !fmap_cons. by f_equal. }
  assert (notification_created_at <$> notifications =
          prescription_created_at <$> pending_prescriptions db) as Htimes.
  { clear Hm Hids. induction Hentries as [|p n ps ns (_ & ? & _) _ IH]; [done|].
    rewrite !fmap_cons. by f_equal. }
  split_and!; [done|done|apply merge_sort_Permutation| |].
  - intros p Hp. rewrite Hids. split.
    + intros (q & Hid & [Hq Hpending]%pending_prescriptions_spec)%list_elem_of_fmap.
      assert (p = q) as ->; [|done].
      by apply (same_key prescription_id (prescriptions db)); [apply (prescriptions_pk _ Hc)|..].
    + intros Hpending. apply list_elem_of_fmap_2. by apply pending_prescriptions_spec.
  - rewrite Htimes. apply (StronglySorted_fmap _ newer_first); [done|].
    apply (StronglySorted_merge_sort newer_first).
Qed.

Lemma get_dashboard_notifications_pending_witness :
  ∃ notifications,
    get_dashboard_notifications test_db3 = Ok 200 notifications ∧
    Forall2 (λ p n,
               notification_id n = prescription_id p ∧
               notification_created_at n = prescription_created_at p ∧
               ∃ patient, patient ∈ patients test_db3 ∧
                          patient_id patient = prescription_patient_id p ∧
                          notification_patient_name n = patient_name patient)
            (pending_prescriptions test_db3) notifications ∧
    pending_prescriptions test_db3 ≡ₚ
      filter (λ p, prescription_status p = "pending") (prescriptions test_db3) ∧
    (∀ p, p ∈ prescriptions test_db3 →
       prescription_id p ∈ notification_id <$> notifications ↔
       prescription_status p = "pending") ∧
    StronglySorted (λ newer older, older ≤ newer) (notification_created_at <$> notifications).
Proof.
  apply (get_dashboard_notifications_pending test_db3 consistent_test_db3).
Defined.

(** ** C6: prescriptions per drug *)

(** A dictionary filled by assignment in a loop holds, under a key, the value
    of the last element written under that key. *)
Lemma assignments_lookup {A} (key : A → string) (value : A → nat) (l : list A) k :
  foldl (λ (m : gmap string nat) x, <[key x := value x]> m) ∅ l !! k =
  value <$> last (filter (λ x, key x = k) l).
Proof.
  induction l as [|x l IH] using rev_ind; [done|].
  rewrite foldl_app, filter_app, last_app. simpl.
  rewrite lookup_insert, filter_cons. destruct (decide (key x = k)) as [Hk|Hk]; simpl.
  - done.
  - apply IH.
Qed.

Lemma Prescription_get_present db i :
  i ∈ prescription_id <$> prescriptions db → is_Some (Prescription_get db i).
Proof. apply (get_present prescription_id). Qed.

(** [len(drug.prescriptions)] counts the distinct prescriptions that
    reference the drug. *)
Lemma drug_prescriptions_length db d :
  consistent db →
  length (drug_prescriptions db d) = distinct_prescriptions_referencing db d.
Proof.
  intros Hc. unfold drug_prescriptions, distinct_prescriptions_referencing.
  set (rows := filter _ _).
  assert (Forall (λ row : Z * Z, is_Some (Prescription_get db row.1)) rows) as Hall.
  { apply Forall_forall. intros row Hrow. subst rows.
    apply (list_elem_of_filter (λ row : Z * Z, row.2 = drug_id d)) in Hrow as [_ Hrow].
    pose proof (association_prescription_fk _ Hc) as Hfk. rewrite Forall_forall in Hfk.
    apply Prescription_get_present, Hfk, Hrow. }
  apply (omap_all_Some (λ row : Z * Z, Prescription_get db row.1)) in Hall.
  apply Forall2_length in Hall. rewrite <- Hall.
  rewrite size_list_to_set; [by rewrite length_fmap|].
  apply NoDup_fmap_2_strong; [|apply NoDup_filter, (association_pk _ Hc)].
  intros [p1 d1] [p2 d2] H1 H2 Heq. subst rows.
  apply (list_elem_of_filter (λ row : Z * Z, row.2 = drug_id d)) in H1 as [H1 _].
  apply (list_elem_of_filter (λ row : Z * Z, row.2 = drug_id d)) in H2 as [H2 _].
  simpl in *. congruence.
Qed.

Lemma get_drug_prescription_statistics_lookup db :
  consistent db →
  ∃ drug_counts : gmap string nat,
    get_drug_prescription_statistics db = Ok 200 drug_counts ∧
    ∀ name, drug_counts !! name =
            distinct_prescriptions_referencing db
              <$> last (filter (λ d, drug_name d = name) (drugs db)).
Proof.
  intros Hc. unfold get_drug_prescription_statistics.
  case_decide as Hnil.
  - exists ∅. split; [done|]. intros name. by rewrite Hnil, lookup_empty.
  - eexists. split; [done|]. intros name.
    rewrite (assignments_lookup drug_name (λ d, length (drug_prescriptions db d))).
    destruct (last _); [|done]. simpl. by rewrite drug_prescriptions_length.
Qed.

(** The only drug of its name is the last one of its name. *)
Lemma last_of_name db d :
  d ∈ drugs db → (∀ d', d' ∈ drugs db → drug_name d' = drug_name d → d' = d) →
  last (filter (λ d', drug_name d' = drug_name d) (drugs db)) = Some d.
Proof.
  intros Hin Huniq.
  destruct (last (filter (λ d', drug_name d' = drug_name d) (drugs db))) as [d'|] eqn:E.
  - apply last_Some_elem_of in E.
    apply (list_elem_of_filter (λ d', drug_name d' = drug_name d)) in E as [Hn Hin'].
    f_equal. by apply Huniq.
  - apply last_None in E.
    assert (d ∈ filter (λ d', drug_name d' = drug_name d) (drugs db)) as Hd
      by by apply (list_elem_of_filter (λ d', drug_name d' = drug_name d)).
    rewrite E in Hd. by apply elem_of_nil in Hd.
Qed.

(** A request with a resolved doctor and known, pairwise different drug ids
    is accepted; the rows it writes. *)
Lemma create_prescription_created now name fn doctor_id ids doctor db :
  consistent db →
  name ≠ EmptyString → fn ≠ EmptyString → doctor_id ≠ 0 → ids ≠ [] →
  User_filter_by_id_role db doctor_id "doctor" = Some doctor →
  Forall (λ i, i ≠ 0 ∧ is_Some (Drug_get db i)) ids → NoDup ids →
  ∃ patient db1 db2,
    find_or_create_patient db name fn = Some (patient, db1) ∧
    create_prescription now (request name fn doctor_id (drug_refs ids)) db =
      (Ok 201 (mkCreated "Prescription created successfully"
                         (next_id (prescription_id <$> prescriptions db)) "pending" now), db2) ∧
    users db2 = users db ∧ patients db2 = patients db1 ∧ drugs db2 = drugs db ∧
    prescriptions db2 =
      prescriptions db ++
      [mkPrescription (next_id (prescription_id <$> prescriptions db))
                      (patient_id patient) (user_id doctor) "pending" now] ∧
    prescription_drug_association db2 =
      prescription_drug_association db ++
      ((λ i, (next_id (prescription_id <$> prescriptions db), i)) <$> ids).
Proof.
  intros Hc Hname Hfn Hdid Hne Hdoc Hids Hnd.
  destruct (create_prescription_to_commit now name fn doctor_id ids doctor db)
    as (patient & db1 & found & Hfoc & Hfound & _ & E); try done.
  pose proof (find_or_create_patient_consistent _ _ _ _ _ Hc Hfoc) as Hc1.
  destruct (find_or_create_patient_Some db name fn)
    as (patient' & db1' & Hfoc' & _ & _ & Hu & Hd & Hpr & Ha & _).
  rewrite Hfoc in Hfoc'. injection Hfoc' as <- <-.
  apply mapM_Drug_get in Hfound as [Hmap _].
  pose proof (insert_prescription_NoDup db1 now patient doctor found Hc1) as Hins.
  rewrite Hmap in Hins. destruct (proj2 Hins (or_intror Hnd)) as [[p db2] Hp]. rewrite Hp in E.
  pose proof (insert_prescription_Some _ _ _ _ _ _ _ Hp)
    as (Hpeq & Hu2 & Hpa2 & Hd2 & Hpr2 & Ha2 & _).
  rewrite (collection_rows_NoDup_ids _ _ _ ids) in Ha2 by done.
  subst p. simpl in *. rewrite Hpr in *.
  exists patient, db1, db2. split_and!; try done; try congruence.
Qed.

Lemma Drug_get_present db d : d ∈ drugs db → is_Some (Drug_get db (drug_id d)).
Proof. intros Hd. apply (get_present drug_id). by apply list_elem_of_fmap_2. Qed.

(** The statistics after prescriptions P1 = {d1, d2} and P2 = {d1} were
    created in a database without prescriptions. *)
Lemma statistics_after_two_prescriptions db now1 now2 name1 fn1 name2 fn2 doctor_id doctor
    d1 d2 d3 :
  consistent db → prescriptions db = [] →
  name1 ≠ EmptyString → fn1 ≠ EmptyString → name2 ≠ EmptyString → fn2 ≠ EmptyString →
  doctor_id ≠ 0 → User_filter_by_id_role db doctor_id "doctor" = Some doctor →
  d1 ∈ drugs db → d2 ∈ drugs db → d3 ∈ drugs db →
  drug_id d1 ≠ 0 → drug_id d2 ≠ 0 →
  d1 ≠ d2 → d3 ≠ d1 → d3 ≠ d2 →
  NoDup (drug_name <$> drugs db) →
  ∃ created1 db1 created2 db2 (drug_counts : gmap string nat),
    create_prescription now1
      (request name1 fn1 doctor_id (drug_refs [drug_id d1; drug_id d2])) db =
      (Ok 201 created1, db1) ∧
    create_prescription now2 (request name2 fn2 doctor_id (drug_refs [drug_id d1])) db1 =
      (Ok 201 created2, db2) ∧
    get_drug_prescription_statistics db2 = Ok 200 drug_counts ∧
    drug_counts !! drug_name d1 = Some 2%nat ∧
    drug_counts !! drug_name d2 = Some 1%nat ∧
    drug_counts !! drug_name d3 = Some 0%nat.
Proof.
  intros Hc Hempty Hn1 Hf1 Hn2 Hf2 Hdid Hdoc Hd1 Hd2 Hd3 Hz1 Hz2 H12 H31 H32 Hnames.
  assert (∀ d d', d ∈ drugs db → d' ∈ drugs db → d ≠ d' → drug_id d ≠ drug_id d') as Hids.
  { intros d d' Hd Hd' Hne Heq. apply Hne.
    by apply (same_key drug_id (drugs db)); [apply (drugs_pk _ Hc)|..]. }
  assert (prescription_drug_association db = []) as Hassoc.
  { pose proof (association_prescription_fk _ Hc) as Hfk. rewrite Hempty in Hfk.
    destruct (prescription_drug_association db) as [|row rows]; [done|].
    apply Forall_cons in Hfk as [Hrow _]. by apply elem_of_nil in Hrow. }
  destruct (create_prescription_created now1 name1 fn1 doctor_id [drug_id d1; drug_id d2]
              doctor db)
    as (patient1 & dba & db1 & _ & E1 & Hu1 & _ & Hdr1 & Hpr1 & Ha1); try done.
  { repeat constructor; try done; by apply Drug_get_present. }
  { repeat constructor; rewrite ?elem_of_cons, ?elem_of_nil; [|tauto].
    intros [Heq|[]]. by apply (Hids d1 d2). }
  pose proof (create_prescription_consistent now1
                (request name1 fn1 doctor_id (drug_refs [drug_id d1; drug_id d2])) db Hc) as Hc1.
  rewrite E1 in Hc1. simpl in Hc1.
  destruct (create_prescription_created now2 name2 fn2 doctor_id [drug_id d1] doctor db1)
    as (patient2 & dbb & db2 & _ & E2 & Hu2 & _ & Hdr2 & Hpr2 & Ha2); try done.
  { unfold User_filter_by_id_role in *. by rewrite Hu1. }
  { repeat constructor; [done|]. rewrite (Drug_get_ext db) by done. by apply Drug_get_present. }
  { repeat constructor. by intros ?%elem_of_nil. }
  pose proof (create_prescription_consistent now2
                (request name2 fn2 doctor_id (drug_refs [drug_id d1])) db1 Hc1) as Hc2.
  rewrite E2 in Hc2. simpl in Hc2.
  destruct (get_drug_prescription_statistics_lookup db2 Hc2) as (drug_counts & Estat & Hlook).
  eexists _, db1, _, db2, drug_counts. split_and!; [exact E1|exact E2|exact Estat|..].
  all: rewrite Hlook, Hdr2, Hdr1.
  all: rewrite last_of_name;
    [|done|intros d' Hd' Hn; by apply (same_key drug_name (drugs db))]; simpl; f_equal.
  all: unfold distinct_prescriptions_referencing;
    rewrite Ha2, Hpr1, Ha1, Hassoc, Hempty; simpl.
  - rewrite filter_cons, decide_True by done.
    rewrite filter_cons, decide_False by (simpl; by apply not_eq_sym, Hids).
    rewrite filter_cons, decide_True by done. done.
  - rewrite filter_cons, decide_False by (simpl; by apply Hids).
    rewrite filter_cons, decide_True by done.
    rewrite filter_cons, decide_False by (simpl; by apply Hids). done.
  - rewrite filter_cons, decide_False by (simpl; by apply not_eq_sym, Hids).
    rewrite filter_cons, decide_False by (simpl; by apply not_eq_sym, Hids).
    rewrite filter_cons, decide_False by (simpl; by apply not_eq_sym, Hids). done.
Qed.

(** C6.  GET /dashboard/statistics/drug_prescriptions answers 200 with a
    dictionary that holds, under every name of the catalog, the number of
    distinct prescriptions referencing the last drug of that name in the
    catalog (an earlier drug of the same name is overwritten), so every drug
    of the catalog has an entry under its name, the entry of a drug that
    shares its name with no other is its own count, and that count is 0 when
    no prescription references the drug.  In particular, after prescriptions
    for {d1, d2} and for {d1} were created in a database without
    prescriptions, the dictionary maps d1 to 2, d2 to 1 and d3 to 0. *)
Theorem drug_prescription_statistics db :
  consistent db →
  (∃ drug_counts : gmap string nat,
     get_drug_prescription_statistics db = Ok 200 drug_counts ∧
     (∀ name, drug_counts !! name =
              distinct_prescriptions_referencing db
                <$> last (filter (λ d, drug_name d = name) (drugs db))) ∧
     (∀ d, d ∈ drugs db → is_Some (drug_counts !! drug_name d)) ∧
     (∀ d, d ∈ drugs db →
           (∀ d', d' ∈ drugs db → drug_name d' = drug_name d → d' = d) →
           drug_counts !! drug_name d = Some (distinct_prescriptions_referencing db d)) ∧
     (∀ d, d ∈ drugs db →
           (∀ d', d' ∈ drugs db → drug_name d' = drug_name d → d' = d) →
           (∀ row, row ∈ prescription_drug_association db → row.2 ≠ drug_id d) →
           drug_counts !! drug_name d = Some 0%nat)) ∧
  (∀ now1 now2 name1 fn1 name2 fn2 doctor_id doctor d1 d2 d3,
     prescriptions db = [] →
     name1 ≠ EmptyString → fn1 ≠ EmptyString → name2 ≠ EmptyString → fn2 ≠ EmptyString →
     doctor_id ≠ 0 → User_filter_by_id_role db doctor_id "doctor" = Some doctor →
     d1 ∈ drugs db → d2 ∈ drugs db → d3 ∈ drugs db →
     drug_id d1 ≠ 0 → drug_id d2 ≠ 0 →
     d1 ≠ d2 → d3 ≠ d1 → d3 ≠ d2 →
     NoDup (drug_name <$> drugs db) →
     ∃ created1 db1 created2 db2 (drug_counts : gmap string nat),
       create_prescription now1
         (request name1 fn1 doctor_id (drug_refs [drug_id d1; drug_id d2])) db =
         (Ok 201 created1, db1) ∧
       create_prescription now2 (request name2 fn2 doctor_id (drug_refs [drug_id d1])) db1 =
         (Ok 201 created2, db2) ∧
       get_drug_prescription_statistics db2 = Ok 200 drug_counts ∧
       drug_counts !! drug_name d1 = Some 2%nat ∧
       drug_counts !! drug_name d2 = Some 1%nat ∧
       drug_counts !! drug_name d3 = Some 0%nat).
Proof.
  intros Hc. split.
  - destruct (get_drug_prescription_statistics_lookup db Hc) as (drug_counts & E & Hlook).
    exists drug_counts. split_and!; [done|done|..].
    + intros d Hd. rewrite Hlook. apply fmap_is_Some, last_is_Some.
      intros Hnil.
      assert (d ∈ filter (λ d', drug_name d' = drug_name d) (drugs db)) as Hin
        by by apply (list_elem_of_filter (λ d', drug_name d' = drug_name d)).
      rewrite Hnil in Hin. by apply elem_of_nil in Hin.
    + intros d Hd Huniq. by rewrite Hlook, last_of_name.
    + intros d Hd Huniq Hnone. rewrite Hlook, last_of_name by done. simpl. f_equal.
      unfold distinct_prescriptions_referencing.
      rewrite (filter_none (λ row : Z * Z, row.2 = drug_id d)); [done|].
      by apply Forall_forall.
  - intros. by eapply statistics_after_two_prescriptions.
Qed.

Lemma drug_prescription_statistics_witness :
  ∃ created1 db1 created2 db2 (drug_counts : gmap string nat),
    create_prescription 100 (request "Jane Smith" "JS001" 1 (drug_refs [1; 2])) test_db =
      (Ok 201 created1, db1) ∧
    create_prescription 200 (request "John Doe" "JD001" 1 (drug_refs [1])) db1 =
      (Ok 201 created2, db2) ∧
    get_drug_prescription_statistics db2 = Ok 200 drug_counts ∧
    drug_counts !! "Amoxicillin" = Some 2%nat ∧
    drug_counts !! "Panadol" = Some 1%nat ∧
    drug_counts !! "Lisinopril" = Some 0%nat.
Proof.
  destruct (drug_prescription_statistics test_db consistent_test_db) as [_ Hscenario].
  apply (Hscenario 100 200 "Jane Smith" "JS001" "John Doe" "JD001" 1 testdoc drug1 drug2 drug3);
    try done; by_evaluation.
Defined.

(** ** C2: one patient per file number *)

(** POST /prescriptions leaves [patients] alone or appends the patient it
    created for a file number that had none. *)
Lemma create_prescription_patients now data db :
  patients (create_prescription now data db).2 = patients db ∨
  ∃ data0 fn,
    data = Some data0 ∧ data_patient_file_number data0 = Some fn ∧
    Patient_filter_by_file_number db fn = None ∧
    patients (create_prescription now data db).2 =
      patients db ++ [mkPatient (next_id (patient_id <$> patients db))
                                (default EmptyString (data_patient_name data0)) fn].
Proof.
  unfold create_prescription. destruct data as [data|]; [|by left].
  destruct (PrescriptionData_empty data); [by left|].
  destruct (negb _) eqn:Hreq; [by left|]. case_decide; [by left|].
  destruct (User_filter_by_id_role _ _ _) as [doctor|]; cbn [bound];
    [|case_decide; by left].
  apply negb_false_iff in Hreq. unfold required_fields in Hreq.
  rewrite !andb_true_iff in Hreq. destruct Hreq as [[[_ Hfn] _] _].
  destruct (data_patient_file_number data) as [fn|] eqn:Efn; [|done]. simpl.
  set (name := default EmptyString (data_patient_name data)).
  destruct (find_or_create_patient_Some db name fn)
    as (patient & db1 & Hfoc & _ & _ & _ & _ & _ & _ & Hpat).
  rewrite Hfoc.
  assert (patients db1 = patients db ∨
          ∃ data0 fn0, Some data = Some data0 ∧ data_patient_file_number data0 = Some fn0 ∧
            Patient_filter_by_file_number db fn0 = None ∧
            patients db1 =
              patients db ++ [mkPatient (next_id (patient_id <$> patients db))
                                        (default EmptyString (data_patient_name data0)) fn0])
    as Hdb1.
  { destruct Hpat as [?|(Hnone & -> & Hpat)]; [by left|]. right. by exists data, fn. }
  destruct (validate_drugs _ _ _) as [[? ?]|found]; [done|].
  case_decide; [done|].
  destruct (insert_prescription _ _ _ _ _) as [[p db2]|] eqn:Hins; [|done].
  apply insert_prescription_Some in Hins as (_ & _ & Hpa & _). simpl. by rewrite Hpa.
Qed.

Lemma Patient_filter_by_file_number_app db db' fn patient extra :
  patients db' = patients db ++ extra →
  Patient_filter_by_file_number db fn = Some patient →
  Patient_filter_by_file_number db' fn = Some patient.
Proof.
  unfold Patient_filter_by_file_number. intros -> Hget.
  by rewrite (first_app (λ p, patient_file_number p = fn)), Hget.
Qed.

(** No request changes the patient found under a file number. *)
Lemma handle_patient_stable db r fn patient :
  Patient_filter_by_file_number db fn = Some patient →
  Patient_filter_by_file_number (handle db r) fn = Some patient.
Proof.
  intros Hget. destruct r as [now data|id data|data]; simpl.
  - destruct (create_prescription_patients now data db) as [E|(? & ? & _ & _ & _ & E)].
    + apply (Patient_filter_by_file_number_app db _ fn patient []); [|done].
      by rewrite app_nil_r.
    + by eapply Patient_filter_by_file_number_app.
  - destruct (update_prescription_status_db id data db) as [->|(? & _ & _ & _ & ->)]; done.
  - destruct (add_drug_db data db) as [->|(? & _ & ->)]; done.
Qed.

Lemma serve_patient_stable requests db fn patient :
  Patient_filter_by_file_number db fn = Some patient →
  Patient_filter_by_file_number (serve db requests) fn = Some patient.
Proof.
  revert db. induction requests as [|r requests IH]; intros db Hget; [done|].
  simpl. by apply IH, handle_patient_stable.
Qed.

(** The prescription written by an accepted request is found under the
    returned id. *)
Lemma insert_prescription_lookup db now patient doctor found p db2 :
  insert_prescription db now patient doctor found = Some (p, db2) →
  Prescription_get db2 (prescription_id p) = Some p ∧
  prescription_patient_id p = patient_id patient.
Proof.
  intros Hins. apply insert_prescription_Some in Hins as (Hp & _ & _ & _ & Hpr & _).
  split; [|by rewrite Hp].
  unfold Prescription_get. rewrite Hpr.
  rewrite (first_app (λ q, prescription_id q = prescription_id p)).
  rewrite (get_absent prescription_id) by (rewrite Hp; apply next_id_fresh).
  by rewrite filter_cons, decide_True.
Qed.

(** C2.  The first POST /prescriptions that carries a file number without a
    patient (and passes the field and doctor checks) creates the patient with
    the supplied name.  From then on, whatever requests are served, that row
    stays the patient of the file number: a later POST /prescriptions with
    the same file number adds no patient, leaves the stored name as it is
    whatever name it carries, and the prescription it creates belongs to
    that patient id. *)
Theorem patient_resolution_is_idempotent now name fn doctor_id drugs_data db :
  name ≠ EmptyString → fn ≠ EmptyString → doctor_id ≠ 0 → drugs_data ≠ [] →
  is_Some (User_filter_by_id_role db doctor_id "doctor") →
  Patient_filter_by_file_number db fn = None →
  ∃ patient,
    patient = mkPatient (next_id (patient_id <$> patients db)) name fn ∧
    Patient_filter_by_file_number
      (create_prescription now (request name fn doctor_id drugs_data) db).2 fn = Some patient ∧
    ∀ requests now' name' doctor_id' drugs',
      let db2 := serve (create_prescription now (request name fn doctor_id drugs_data) db).2
                       requests in
      let later := create_prescription now'
                     (Some (mkPrescriptionData name' (Some fn) doctor_id' drugs')) db2 in
      Patient_filter_by_file_number db2 fn = Some patient ∧
      patients later.2 = patients db2 ∧
      Patient_filter_by_file_number later.2 fn = Some patient ∧
      (∀ code created, later.1 = Ok code created →
         ∃ p, Prescription_get later.2 (created_prescription_id created) = Some p ∧
              prescription_patient_id p = patient_id patient).
Proof.
  intros Hname Hfn Hdid Hdrugs [doctor Hdoc] Hnew.
  eexists. split; [reflexivity|].
  set (db1 := (create_prescription now (request name fn doctor_id drugs_data) db).2).
  assert (Patient_filter_by_file_number db1 fn =
          Some (mkPatient (next_id (patient_id <$> patients db)) name fn)) as Hfirst.
  { subst db1. rewrite create_prescription_request, Hdoc by done.
    rewrite find_or_create_patient_new by done.
    set (patient := mkPatient _ _ _). set (dbp := mkDB _ _ _ _ _ _).
    assert (Patient_filter_by_file_number dbp fn = Some patient) as Hdbp.
    { unfold Patient_filter_by_file_number in *. subst dbp. simpl.
      rewrite (first_app (λ p, patient_file_number p = fn)), Hnew.
      by rewrite filter_cons, decide_True. }
    destruct (validate_drugs _ _ _) as [[? ?]|found]; [done|].
    case_decide; [done|].
    destruct (insert_prescription _ _ _ _ _) as [[p db2]|] eqn:Hins; [|done].
    apply insert_prescription_Some in Hins as (_ & _ & Hpa & _). simpl.
    unfold Patient_filter_by_file_number in *. by rewrite Hpa. }
  split; [done|]. intros requests now' name' doctor_id' drugs' db2 later.
  assert (Patient_filter_by_file_number db2 fn =
          Some (mkPatient (next_id (patient_id <$> patients db)) name fn)) as Hdb2
    by by apply serve_patient_stable.
  assert (patients later.2 = patients db2) as Hsame.
  { subst later.
    destruct (create_prescription_patients now'
                (Some (mkPrescriptionData name' (Some fn) doctor_id' drugs')) db2)
      as [E|(data0 & fn0 & [= <-] & [= <-] & Hnone & _)]; [done|congruence]. }
  split_and!; [done|done| |].
  - unfold Patient_filter_by_file_number in *. by rewrite Hsame.
  - intros code created Hok.
    destruct later as [response db3] eqn:Hlater. simpl in Hok. subst response.
    apply create_prescription_Ok in Hlater
      as (name0 & fn0 & did0 & ids0 & doctor0 & patient0 & dbp & found & p &
          Hdata & _ & _ & _ & _ & _ & _ & Hfoc & _ & Hins & _ & ->).
    injection Hdata as _ <- _ _.
    rewrite (find_or_create_patient_found _ _ _ _ Hdb2) in Hfoc. injection Hfoc as <- <-.
    exists p. simpl. by destruct (insert_prescription_lookup _ _ _ _ _ _ _ Hins) as [-> ->].
Qed.

Lemma patient_resolution_is_idempotent_witness :
  ∃ patient,
    patient = mkPatient 2 "Jane Smith" "JS001" ∧
    Patient_filter_by_file_number
      (create_prescription 100 (request "Jane Smith" "JS001" 1 (drug_refs [1; 2])) test_db).2
      "JS001" = Some patient ∧
    ∀ requests now' name' doctor_id' drugs',
      let db2 := serve (create_prescription 100
                          (request "Jane Smith" "JS001" 1 (drug_refs [1; 2])) test_db).2
                       requests in
      let later := create_prescription now'
                     (Some (mkPrescriptionData name' (Some "JS001") doctor_id' drugs')) db2 in
      Patient_filter_by_file_number db2 "JS001" = Some patient ∧
      patients later.2 = patients db2 ∧
      Patient_filter_by_file_number later.2 "JS001" = Some patient ∧
      (∀ code created, later.1 = Ok code created →
         ∃ p, Prescription_get later.2 (created_prescription_id created) = Some p ∧
              prescription_patient_id p = patient_id patient).
Proof.
  apply (patient_resolution_is_idempotent 100 "Jane Smith" "JS001" 1 (drug_refs [1; 2]) test_db);
    [done | done | done | done | by eexists | reflexivity].
Defined.

(** * Further properties of the handlers *)

(** ** What no request does *)

Lemma with_status_same p : with_status (prescription_status p) p = p.
Proof. by destruct p. Qed.

(** The rows a POST /prescriptions writes. *)
Lemma create_prescription_effect now data db :
  users (create_prescription now data db).2 = users db ∧
  drugs (create_prescription now data db).2 = drugs db ∧
  (∃ ps, patients (create_prescription now data db).2 = patients db ++ ps) ∧
  (prescriptions (create_prescription now data db).2 = prescriptions db ∧
   prescription_drug_association (create_prescription now data db).2 =
     prescription_drug_association db
   ∨ ∃ p rows,
       prescription_id p = next_id (prescription_id <$> prescriptions db) ∧
       prescription_status p = "pending" ∧
       prescriptions (create_prescription now data db).2 = prescriptions db ++ [p] ∧
       prescription_drug_association (create_prescription now data db).2 =
         prescription_drug_association db ++ rows ∧
       Forall (λ row : Z * Z, row.1 = prescription_id p) rows).
Proof.
  assert (∃ ps, patients (create_prescription now data db).2 = patients db ++ ps) as Hpat.
  { destruct (create_prescription_patients now data db) as [E|(? & ? & _ & _ & _ & E)].
    - exists []. by rewrite app_nil_r.
    - by eexists. }
  unfold create_prescription in *. destruct data as [data|]; [|by split_and!; try left].
  destruct (PrescriptionData_empty data); [by split_and!; try left|].
  destruct (negb _); [by split_and!; try left|]. case_decide; [by split_and!; try left|].
  destruct (User_filter_by_id_role _ _ _) as [doctor|]; cbn [bound] in *;
    [|case_decide; by split_and!; try left].
  destruct (find_or_create_patient_Some db (default EmptyString (data_patient_name data))
              (default EmptyString (data_patient_file_number data)))
    as (patient & db1 & Hfoc & _ & _ & Hu & Hd & Hpr & Ha & _).
  rewrite Hfoc in *.
  destruct (validate_drugs _ _ _) as [[? ?]|found]; [by split_and!; try left|].
  case_decide; [by split_and!; try left|].
  destruct (insert_prescription _ _ _ _ _) as [[p db2]|] eqn:Hins; [|by split_and!; try left].
  apply insert_prescription_Some in Hins as (Hp & Hu2 & _ & Hd2 & Hpr2 & Ha2 & _). simpl in *.
  split_and!; [congruence|congruence|done|]. right.
  exists p, (collection_rows db1 (prescription_id p) found).
  rewrite Hpr2, Ha2, Ha. rewrite Hpr in Hp |- *. split_and!; try done; try by rewrite Hp.
  apply Forall_forall. by intros row (d & _ & ->)%elem_of_collection_rows.
Qed.

(** The shape of the database after one request: users are as before, the
    other tables have grown at the end, new association rows belong to a new
    prescription, and a stored prescription is at most given another status. *)
Lemma handle_shape db r :
  users (handle db r) = users db ∧
  (∃ ps, patients (handle db r) = patients db ++ ps) ∧
  (∃ ds, drugs (handle db r) = drugs db ++ ds) ∧
  (∃ rows, prescription_drug_association (handle db r) =
             prescription_drug_association db ++ rows ∧
           Forall (λ row : Z * Z, row.1 ∉ prescription_id <$> prescriptions db) rows) ∧
  (∀ j p, Prescription_get db j = Some p →
          ∃ s, Prescription_get (handle db r) j = Some (with_status s p)).
Proof.
  destruct r as [now data|id data|data]; simpl.
  - destruct (create_prescription_effect now data db) as (Hu & Hd & Hpat & Hpr).
    split_and!; [done|done|exists []; by rewrite Hd, app_nil_r| |].
    + destruct Hpr as [[_ Ha]|(p & rows & Hid & _ & _ & Ha & Hrows)].
      * exists []. by rewrite Ha, app_nil_r.
      * exists rows. split; [done|]. eapply Forall_impl; [exact Hrows|].
        intros row ->. rewrite Hid. apply next_id_fresh.
    + intros j p Hget. exists (prescription_status p). rewrite with_status_same.
      destruct Hpr as [[Hpr _]|(q & rows & _ & _ & Hpr & _)];
        unfold Prescription_get in *; rewrite Hpr; [done|].
      by rewrite (first_app (λ q, prescription_id q = j)), Hget.
  - destruct (update_prescription_status_db id data db) as [->|(s & _ & _ & _ & ->)].
    + split_and!; try done; try (exists []; by rewrite app_nil_r).
      intros j p Hget. exists (prescription_status p). by rewrite with_status_same.
    + simpl. split_and!; try done; try (exists []; by rewrite app_nil_r).
      intros j p Hget. rewrite Prescription_get_set_status, Hget. simpl.
      case_decide; [by exists s|]. exists (prescription_status p). by rewrite with_status_same.
  - destruct (add_drug_db data db) as [->|(d & _ & ->)]; simpl.
    + split_and!; try done; try (exists []; by rewrite app_nil_r).
      intros j p Hget. exists (prescription_status p). by rewrite with_status_same.
    + split_and!; try done; try (exists []; by rewrite app_nil_r); [by exists [d]|].
      intros j p Hget. exists (prescription_status p). by rewrite with_status_same.
Qed.

(** X1.  The constraints of the schema (primary keys, the unique file
    number, foreign keys) that hold before a sequence of POST /prescriptions,
    PUT status and POST /drugs requests hold after it. *)
Theorem requests_keep_constraints requests db :
  consistent db → consistent (serve db requests).
Proof. apply serve_consistent. Qed.

Lemma requests_keep_constraints_witness :
  consistent (serve test_db
    [POST_prescriptions 100 (request "Jane Smith" "JS001" 1 (drug_refs [1; 1]));
     POST_drugs (drug_data "Panadol" "1g" "1 tablet" "none");
     POST_prescriptions 200 (request "Jane Smith" "JS001" 1 (drug_refs [4; 2]));
     PUT_prescription_status 1 (status_data "ready")]).
Proof. apply requests_keep_constraints, consistent_test_db. Defined.

(** X2.  No request removes, reorders or rewrites a row of users, patients,
    drugs or associations: after any sequence of requests the users are as
    before, and patients, drugs and association rows are the old rows followed
    by the new ones. *)
Theorem tables_are_append_only requests db :
  users (serve db requests) = users db ∧
  patients db `prefix_of` patients (serve db requests) ∧
  drugs db `prefix_of` drugs (serve db requests) ∧
  prescription_drug_association db `prefix_of`
    prescription_drug_association (serve db requests) ∧
  prescription_id <$> prescriptions db `prefix_of`
    prescription_id <$> prescriptions (serve db requests).
Proof.
  revert db. induction requests as [|r requests IH]; intros db; [done|]. simpl.
  destruct (IH (handle db r)) as (Hu & Hp & Hd & Ha & Hpr).
  destruct (handle_shape db r) as (Hu1 & [ps Hp1] & [ds Hd1] & (rows & Ha1 & _) & _).
  split_and!.
  - congruence.
  - etrans; [|exact Hp]. rewrite Hp1. by apply prefix_app_r.
  - etrans; [|exact Hd]. rewrite Hd1. by apply prefix_app_r.
  - etrans; [|exact Ha]. rewrite Ha1. by apply prefix_app_r.
  - etrans; [|exact Hpr]. destruct r as [now data|id data|data]; simpl.
    + destruct (create_prescription_effect now data db)
        as (_ & _ & _ & [[-> _]|(p & ? & _ & _ & -> & _)]); [done|].
      rewrite fmap_app. by apply prefix_app_r.
    + by destruct (update_prescription_status_db id data db)
        as [->|(s & _ & _ & _ & ->)]; rewrite ?set_status_ids.
    + by destruct (add_drug_db data db) as [->|(d & _ & ->)].
Qed.

(** What GET /prescriptions/<id> reads, for an answer 200. *)
Lemma get_prescription_Ok id db code view :
  get_prescription id db = Ok code view →
  ∃ p patient doctor,
    Prescription_get db id = Some p ∧
    Patient_get db (prescription_patient_id p) = Some patient ∧
    User_get db (prescription_doctor_id p) = Some doctor ∧
    code = 200 ∧
    view = mkPrescriptionView (prescription_id p) patient
             (mkDoctorSummary (user_id doctor) (user_username doctor))
             (prescription_status p) (prescription_created_at p) (prescribed_drugs db p).
Proof.
  unfold get_prescription. destruct (Prescription_get db id) as [p|] eqn:Hp; simpl;
    [|by case_decide].
  destruct (Patient_get _ _) as [patient|] eqn:Hpat; [|done].
  destruct (User_get _ _) as [doctor|] eqn:Hdoc; [|done].
  intros [= <- <-]. exists p, patient, doctor. by destruct patient.
Qed.

(** A database that has only grown reads a stored prescription as before. *)
Lemma get_prescription_grown db db' id p s ps ds rows view :
  consistent db →
  users db' = users db → patients db' = patients db ++ ps → drugs db' = drugs db ++ ds →
  prescription_drug_association db' = prescription_drug_association db ++ rows →
  Forall (λ row : Z * Z, row.1 ∉ prescription_id <$> prescriptions db) rows →
  Prescription_get db id = Some p →
  Prescription_get db' id = Some (with_status s p) →
  get_prescription id db = Ok 200 view →
  get_prescription id db' =
    Ok 200 (mkPrescriptionView (view_id view) (view_patient view) (view_doctor view) s
                               (view_created_at view) (view_prescribed_drugs view)).
Proof.
  intros Hc Hu Hp Hd Ha Hrows Hget Hget' Hview.
  apply get_prescription_Ok in Hview as (p0 & patient & doctor & Hget0 & Hpat & Hdoc & _ & ->).
  rewrite Hget in Hget0. injection Hget0 as <-.
  pose proof (Prescription_get_Some _ _ _ Hget) as [Hin Hid].
  unfold get_prescription. rewrite Hget'. simpl.
  assert (Patient_get db' (prescription_patient_id p) = Some patient) as ->.
  { unfold Patient_get in *. rewrite Hp.
    by rewrite (first_app (λ q, patient_id q = prescription_patient_id p)), Hpat. }
  assert (User_get db' (prescription_doctor_id p) = Some doctor) as ->.
  { unfold User_get in *. by rewrite Hu. }
  destruct patient. simpl. do 2 f_equal.
  change (prescribed_drugs db' (with_status s p) = prescribed_drugs db p).
  rewrite <- (prescribed_drugs_grown db db' p ds rows); [done..|].
  eapply Forall_impl; [exact Hrows|]. intros row Hrow Heq. apply Hrow.
  rewrite Heq. by apply list_elem_of_fmap_2.
Qed.

Lemma handle_view_stable db r id view :
  consistent db → get_prescription id db = Ok 200 view →
  ∃ s, get_prescription id (handle db r) =
         Ok 200 (mkPrescriptionView (view_id view) (view_patient view) (view_doctor view) s
                                    (view_created_at view) (view_prescribed_drugs view)).
Proof.
  intros Hc Hview.
  pose proof (get_prescription_Ok _ _ _ _ Hview) as (p & _ & _ & Hget & _).
  destruct (handle_shape db r) as (Hu & [ps Hp] & [ds Hd] & (rows & Ha & Hrows) & Hpr).
  destruct (Hpr id p Hget) as [s Hget'].
  exists s. by eapply get_prescription_grown.
Qed.

(** X3.  Whatever requests are served, GET /prescriptions/<id> keeps
    answering 200 for a prescription it once answered 200 for, with the same
    id, patient, doctor, creation time and drugs: only the status can differ. *)
Theorem stored_prescription_changes_only_in_status requests db id view :
  consistent db → get_prescription id db = Ok 200 view →
  ∃ status,
    get_prescription id (serve db requests) =
      Ok 200 (mkPrescriptionView (view_id view) (view_patient view) (view_doctor view) status
                                 (view_created_at view) (view_prescribed_drugs view)).
Proof.
  revert db view. induction requests as [|r requests IH]; intros db view Hc Hview.
  - exists (view_status view). by destruct view.
  - simpl. destruct (handle_view_stable db r id view Hc Hview) as [s Hs].
    destruct (IH _ _ (handle_consistent db r Hc) Hs) as [status Hstatus].
    by exists status.
Qed.

Lemma stored_prescription_changes_only_in_status_witness :
  ∃ status,
    get_prescription 1
      (serve test_db1
         [POST_drugs (drug_data "Ibuprofen" "200mg" "As needed for pain" "none");
          POST_prescriptions 200 (request "Jane S." "JS001" 1 (drug_refs [4]));
          PUT_prescription_status 1 (status_data "ready")]) =
      Ok 200 (mkPrescriptionView 1 (mkPatient 2 "Jane Smith" "JS001")
                (mkDoctorSummary 1 "testdoc") status 100 [drug1; drug2]).
Proof.
  apply (stored_prescription_changes_only_in_status _ test_db1 1
           (mkPrescriptionView 1 (mkPatient 2 "Jane Smith" "JS001")
              (mkDoctorSummary 1 "testdoc") "pending" 100 [drug1; drug2]));
    [apply consistent_test_db1 | reflexivity].
Defined.

(** ** POST /login *)

Lemma serve_users requests db : users (serve db requests) = users db.
Proof.
  revert db. induction requests as [|r requests IH]; intros db; [done|]. simpl.
  rewrite IH. by destruct (handle_shape db r) as [-> _].
Qed.

Section login_properties.
Context (check_password_hash : string → string → bool).

(** X4.  With unique usernames and both fields present, POST /login answers
    200 with the id and role of the user of that name when the stored hash
    verifies the password, and the one 401 "Invalid username or password"
    both when no user has that name and when the hash does not verify. *)
Theorem login_checks_the_stored_hash db username password :
  NoDup (user_username <$> users db) →
  username ≠ EmptyString → password ≠ EmptyString →
  (∀ u, u ∈ users db → user_username u = username →
        check_password_hash (user_password_hash u) password = true →
        login check_password_hash (Some (mkLoginData (Some username) (Some password))) db =
          Ok 200 (mkLoggedIn "Login successful" (user_id u) (user_role u))) ∧
  ((∀ u, u ∈ users db → user_username u = username →
         check_password_hash (user_password_hash u) password = false) →
   login check_password_hash (Some (mkLoginData (Some username) (Some password))) db =
     Fail 401 "Invalid username or password").
Proof.
  intros Hnd Hu Hp. unfold login. simpl. rewrite !bool_decide_true by done. simpl. split.
  - intros u Hin Hname Hcheck. unfold User_filter_by_username. rewrite <- Hname.
    by rewrite (get_unique user_username), Hcheck.
  - intros Hnone. unfold User_filter_by_username.
    destruct (head _) as [u|] eqn:E; [|done].
    apply (first_Some (λ u, user_username u = username)) in E as [Hin Hname].
    by rewrite (Hnone u Hin Hname).
Qed.

(** X5.  No sequence of prescription, status and drug requests changes the
    answer of POST /login. *)
Theorem login_is_unaffected_by_requests requests data db :
  login check_password_hash data (serve db requests) = login check_password_hash data db.
Proof.
  unfold login, User_filter_by_username.
  by rewrite serve_users.
Qed.

End login_properties.

Lemma login_checks_the_stored_hash_witness :
  let check := λ pwhash password : string, bool_decide (pwhash = "pbkdf2:sha256$" +:+ password) in
  login check (Some (mkLoginData (Some "testdoc") (Some "doctor"))) test_db =
    Ok 200 (mkLoggedIn "Login successful" 1 "doctor") ∧
  login check (Some (mkLoginData (Some "testdoc") (Some "wrong"))) test_db =
    Fail 401 "Invalid username or password" ∧
  login check (Some (mkLoginData (Some "nobody") (Some "doctor"))) test_db =
    Fail 401 "Invalid username or password".
Proof.
  intros check.
  assert (NoDup (user_username <$> users test_db)) as Hnd by by_evaluation.
  split_and!.
  - apply (proj1 (login_checks_the_stored_hash check test_db "testdoc" "doctor" Hnd
                    ltac:(done) ltac:(done)) testdoc); [by_evaluation | done | done].
  - apply (proj2 (login_checks_the_stored_hash check test_db "testdoc" "wrong" Hnd
                    ltac:(done) ltac:(done))).
    intros u Hu Hname. cbn in Hu.
    repeat (apply elem_of_cons in Hu as [->|Hu]; [done|]). by apply elem_of_nil in Hu.
  - apply (proj2 (login_checks_the_stored_hash check test_db "nobody" "doctor" Hnd
                    ltac:(done) ltac:(done))).
    intros u Hu Hname. cbn in Hu.
    repeat (apply elem_of_cons in Hu as [->|Hu]; [done|]). by apply elem_of_nil in Hu.
Defined.

(** ** POST /prescriptions: acceptance and failure *)

Lemma drug_refs_inj ids ids' : drug_refs ids = drug_refs ids' → ids = ids'.
Proof.
  revert ids'. induction ids as [|i ids IH]; intros [|i' ids'] E; try done.
  injection E as -> E. f_equal. by apply IH.
Qed.

(** X6.  In a database that satisfies the constraints, POST /prescriptions
    answers 201 exactly for the bodies with a non-empty name and file number,
    the non-zero id of a user with role doctor, and a non-empty list of
    entries whose drug ids are non-zero and in the catalog; where the unit
    of work inserts a row per element of the collection, the drug ids must
    be pairwise different as well. *)
Theorem create_prescription_accepts_exactly now data db :
  consistent db →
  (∃ created db', create_prescription now data db = (Ok 201 created, db')) ↔
  (∃ name fn doctor ids,
     data = request name fn (user_id doctor) (drug_refs ids) ∧
     name ≠ EmptyString ∧ fn ≠ EmptyString ∧ user_id doctor ≠ 0 ∧ ids ≠ [] ∧
     doctor ∈ users db ∧ user_role doctor = "doctor" ∧
     Forall (λ i, i ≠ 0 ∧ i ∈ drug_id <$> drugs db) ids ∧
     (flush db = insert_per_element → NoDup ids)).
Proof.
  intros Hc. split.
  - intros (created & db' & Hcreate).
    apply create_prescription_Ok in Hcreate
      as (name & fn & doctor_id & ids & doctor & patient & db1 & found & p &
          -> & Hname & Hfn & Hdid & Hne & Hnz & Hdoc & Hfoc & Hfound & Hins & _).
    apply User_filter_by_id_role_Some in Hdoc as (Huser & <- & Hrole).
    exists name, fn, doctor, ids. split_and!; try done.
    + destruct (find_or_create_patient_Some db name fn)
        as (patient' & db1' & Hfoc' & _ & _ & _ & Hd & _).
      rewrite Hfoc in Hfoc'. injection Hfoc' as <- <-.
      apply mapM_Drug_get in Hfound as [Hmap Hin]. rewrite Hd in Hin.
      rewrite Forall_forall in Hnz. rewrite Forall_forall in Hin.
      apply Forall_forall. intros i Hi.
      split; [by apply Hnz|]. rewrite <- Hmap in Hi.
      apply list_elem_of_fmap in Hi as (d & -> & Hd'). by apply list_elem_of_fmap_2, Hin.
    + intros Hflush.
      pose proof (find_or_create_patient_consistent _ _ _ _ _ Hc Hfoc) as Hc1.
      pose proof (find_or_create_patient_flush _ _ _ _ _ Hfoc) as Hfl.
      apply mapM_Drug_get in Hfound as [<- _].
      destruct (proj1 (insert_prescription_NoDup db1 now patient doctor found Hc1))
        as [Hobj|Hnd]; [by eexists| |done].
      rewrite Hfl, Hflush in Hobj. discriminate Hobj.
  - intros (name & fn & doctor & ids & -> & Hname & Hfn & Hdid & Hne & Hdoc & Hrole &
            Hids & Hnd).
    destruct (User_filter_by_id_role_present db doctor Hdoc) as [doctor' Hdoc'].
    rewrite Hrole in Hdoc'.
    destruct (create_prescription_to_commit now name fn (user_id doctor) ids doctor' db)
      as (patient & db1 & found & Hfoc & Hfound & _ & E); try done.
    { eapply Forall_impl; [exact Hids|]. intros i [? ?]. split; [done|].
      by apply (get_present drug_id). }
    pose proof (find_or_create_patient_consistent _ _ _ _ _ Hc Hfoc) as Hc1.
    pose proof (find_or_create_patient_flush _ _ _ _ _ Hfoc) as Hfl.
    apply mapM_Drug_get in Hfound as [Hmap _].
    destruct (proj2 (insert_prescription_NoDup db1 now patient doctor' found Hc1))
      as [[p db2] Hp].
    { rewrite Hmap, Hfl. destruct (flush db); [right; by apply Hnd|by left]. }
    rewrite Hp in E. by eexists _, _.
Qed.

Lemma create_prescription_accepts_exactly_witness :
  (∃ created db',
     create_prescription 100 (request "Jane Smith" "JS001" 1 (drug_refs [3; 1])) test_db =
       (Ok 201 created, db')) ∧
  ¬ (∃ created db',
       create_prescription 100 (request "Jane Smith" "JS001" 2 (drug_refs [3; 1])) test_db =
         (Ok 201 created, db')) ∧
  ¬ (∃ created db',
       create_prescription 100 (request "Jane Smith" "JS001" 1 (drug_refs [3; 3])) test_db =
         (Ok 201 created, db')) ∧
  (∃ created db',
     create_prescription 100 (request "Jane Smith" "JS001" 1 (drug_refs [3; 3]))
       test_db_per_object = (Ok 201 created, db')).
Proof.
  split_and!.
  - apply (create_prescription_accepts_exactly 100 _ test_db consistent_test_db).
    exists "Jane Smith", "JS001", testdoc, [3; 1].
    split_and!; try done; by_evaluation.
  - intros H.
    apply (create_prescription_accepts_exactly 100 _ test_db consistent_test_db) in H
      as (name & fn & doctor & ids & [= <- <- Hid _] & _ & _ & _ & _ & Hdoc & Hrole & _).
    cbn in Hdoc.
    repeat (apply elem_of_cons in Hdoc as [->|Hdoc]; [by vm_compute in Hid, Hrole|]).
    by apply elem_of_nil in Hdoc.
  - intros H.
    apply (create_prescription_accepts_exactly 100 _ test_db consistent_test_db) in H
      as (name & fn & doctor & ids & [= <- <- _ Hids] & _ & _ & _ & _ & _ & _ & _ & Hnd).
    apply (drug_refs_inj [3; 3]) in Hids. subst ids.
    specialize (Hnd eq_refl). apply NoDup_cons in Hnd as [Hin _]. apply Hin. by left.
  - apply (create_prescription_accepts_exactly 100 _ test_db_per_object); [by_evaluation|].
    exists "Jane Smith", "JS001", testdoc, [3; 3].
    split_and!; try done; by_evaluation.
Defined.

(** X7.  POST /prescriptions writes a whole prescription or none: with a 201
    exactly one prescription row, under the returned id and with status
    "pending", and at least one association row, all of that id, are added;
    with any other answer the prescriptions and the associations are as
    before. *)
Theorem create_prescription_all_or_nothing now data db :
  match (create_prescription now data db).1 with
  | Ok _ created =>
      ∃ p rows,
        prescriptions (create_prescription now data db).2 = prescriptions db ++ [p] ∧
        prescription_id p = created_prescription_id created ∧
        prescription_status p = "pending" ∧
        prescription_drug_association (create_prescription now data db).2 =
          prescription_drug_association db ++ rows ∧
        rows ≠ [] ∧ Forall (λ row : Z * Z, row.1 = created_prescription_id created) rows
  | Fail _ _ =>
      prescriptions (create_prescription now data db).2 = prescriptions db ∧
      prescription_drug_association (create_prescription now data db).2 =
        prescription_drug_association db
  end.
Proof.
  destruct (create_prescription now data db) as [[code created|code message] db'] eqn:E; simpl.
  - apply create_prescription_Ok in E
      as (name & fn & doctor_id & ids & doctor & patient & db1 & found & p &
          _ & _ & _ & _ & Hne & _ & _ & Hfoc & Hfound & Hins & _ & ->).
    destruct (find_or_create_patient_Some db name fn)
      as (patient' & db1' & Hfoc' & _ & _ & _ & _ & Hpr & Ha & _).
    rewrite Hfoc in Hfoc'. injection Hfoc' as <- <-.
    apply insert_prescription_Some in Hins as (Hp & _ & _ & _ & Hpr2 & Ha2 & _).
    exists p, (collection_rows db1 (prescription_id p) found). simpl.
    rewrite Hpr2, Ha2, Hpr, Ha. split_and!; try done; [by rewrite Hp| |].
    + apply mapM_Drug_get in Hfound as [Hmap _]. intros Hnil.
      apply collection_rows_nil in Hnil. subst found. by rewrite <- Hmap in Hne.
    + apply Forall_forall. by intros row (d & _ & ->)%elem_of_collection_rows.
  - revert E. unfold create_prescription. destruct data as [data|]; [|by intros [= _ _ <-]].
    destruct (PrescriptionData_empty data); [by intros [= _ _ <-]|].
    destruct (negb _); [by intros [= _ _ <-]|]. case_decide; [by intros [= _ _ <-]|].
    destruct (User_filter_by_id_role _ _ _) as [doctor|]; cbn [bound];
      [|case_decide; by intros [= _ _ <-]].
    destruct (find_or_create_patient_Some db (default EmptyString (data_patient_name data))
                (default EmptyString (data_patient_file_number data)))
      as (patient & db1 & Hfoc & _ & _ & _ & _ & Hpr & Ha & _).
    rewrite Hfoc.
    destruct (validate_drugs _ _ _) as [[? ?]|found]; [by intros [= _ _ <-]|].
    case_decide; [by intros [= _ _ <-]|].
    destruct (insert_prescription _ _ _ _ _) as [[p db2]|]; [done|by intros [= _ _ <-]].
Qed.

(** The three ways in which the loop over the drug entries ends the
    handler. *)
Lemma validate_drugs_inl db drugs_data acc code message :
  validate_drugs db drugs_data acc = inl (code, message) →
  code = 400 ∧ message = "Each drug entry must contain a 'drug_id'" ∨
  (∃ i : Z, code = 400 ∧ message = "Drug with ID " +:+ pretty i +:+ " not found") ∨
  code = 500 ∧ message = "Internal Server Error".
Proof.
  revert acc. induction drugs_data as [|info rest IH]; intros acc Hv; simpl in Hv; [done|].
  destruct (truthy_int (info_drug_id info)); [|injection Hv as <- <-; auto].
  destruct (Drug_get db _) as [d|]; simpl in Hv; [by eapply IH|].
  case_decide; injection Hv as <- <-; [|auto]. right. left. by eexists.
Qed.

Lemma validate_drugs_nonempty db drugs_data found :
  drugs_data ≠ [] → validate_drugs db drugs_data [] = inr found → found ≠ [].
Proof.
  intros Hne Hv Hnil. subst found.
  apply validate_drugs_inr in Hv as (ids & found & -> & Hnil & _ & Hm).
  symmetry in Hnil. apply app_eq_nil in Hnil as [_ ->].
  apply mapM_Some_1, Forall2_length in Hm. destruct ids; [done|]. simpl in Hm. lia.
Qed.

(** X8.  POST /prescriptions never answers "No valid drugs provided for
    prescription": a loop that ran to its end over a non-empty list of
    entries has collected a drug for every entry. *)
Theorem create_prescription_collects_a_drug_per_entry now data db :
  ∀ code, (create_prescription now data db).1 ≠
          Fail code "No valid drugs provided for prescription".
Proof.
  intros code. unfold create_prescription. destruct data as [data|]; [|done].
  destruct (PrescriptionData_empty data); [done|].
  destruct (negb _); [done|]. case_decide as Hne; [done|].
  destruct (User_filter_by_id_role _ _ _) as [doctor|]; cbn [bound]; [|by case_decide].
  destruct (find_or_create_patient _ _ _) as [[patient db1]|]; [|done].
  destruct (validate_drugs _ _ _) as [[c m]|found] eqn:Hv.
  - apply validate_drugs_inl in Hv as [[_ ->]|[(i & _ & ->)|[_ ->]]]; [done| |done].
    simpl. intros E. discriminate E.
  - rewrite decide_False by by eapply validate_drugs_nonempty.
    by destruct (insert_prescription _ _ _ _ _) as [[p db2]|].
Qed.

(** X9.  With the four fields present and a doctor that resolves, an entry
    without a drug id (or with the id 0) behind entries that are found makes
    POST /prescriptions answer 400 "Each drug entry must contain a
    'drug_id'" whatever follows the entry; no prescription or association is
    written, and the patient of a file number that was new has been. *)
Theorem create_prescription_entry_without_drug_id now name fn doctor_id ids entry rest db :
  name ≠ EmptyString → fn ≠ EmptyString → doctor_id ≠ 0 →
  is_Some (User_filter_by_id_role db doctor_id "doctor") →
  Forall (λ i, i ≠ 0 ∧ is_Some (Drug_get db i)) ids →
  info_drug_id entry = None ∨ info_drug_id entry = Some 0 →
  ∃ db',
    create_prescription now (request name fn doctor_id (drug_refs ids ++ entry :: rest)) db =
      (Fail 400 "Each drug entry must contain a 'drug_id'", db') ∧
    prescriptions db' = prescriptions db ∧
    prescription_drug_association db' = prescription_drug_association db ∧
    (Patient_filter_by_file_number db fn = None →
     patients db' = patients db ++ [mkPatient (next_id (patient_id <$> patients db)) name fn]) ∧
    (is_Some (Patient_filter_by_file_number db fn) → db' = db).
Proof.
  intros Hname Hfn Hdid [doctor Hdoc] Hids Hentry.
  destruct (find_or_create_patient_Some db name fn)
    as (patient & db1 & Hfoc & _ & _ & _ & Hd & Hpr & Ha & _).
  assert (∀ acc, validate_drugs db1 (drug_refs ids ++ entry :: rest) acc =
                 inl (400, "Each drug entry must contain a 'drug_id'")) as Hv.
  { intros acc. apply validate_drugs_without_drug_id; [|done].
    eapply Forall_impl; [exact Hids|]. intros i [? ?]. by rewrite (Drug_get_ext db). }
  exists db1. rewrite create_prescription_request by (try done; by destruct (drug_refs ids)).
  rewrite Hdoc, Hfoc, Hv. split_and!; try done.
  - intros Hnew. rewrite find_or_create_patient_new in Hfoc by done. by injection Hfoc as <- <-.
  - intros [p Hp]. rewrite (find_or_create_patient_found _ _ _ _ Hp) in Hfoc.
    by injection Hfoc as <- <-.
Qed.

Lemma create_prescription_entry_without_drug_id_witness :
  ∃ db',
    create_prescription 100
      (request "Test Patient" "TP003" 1 (drug_refs [2] ++ mkDrugInfo None :: drug_refs [999]))
      test_db =
      (Fail 400 "Each drug entry must contain a 'drug_id'", db') ∧
    prescriptions db' = prescriptions test_db ∧
    prescription_drug_association db' = prescription_drug_association test_db ∧
    (Patient_filter_by_file_number test_db "TP003" = None →
     patients db' = patients test_db ++ [mkPatient 2 "Test Patient" "TP003"]) ∧
    (is_Some (Patient_filter_by_file_number test_db "TP003") → db' = test_db).
Proof.
  apply (create_prescription_entry_without_drug_id 100 "Test Patient" "TP003" 1 [2]
           (mkDrugInfo None) (drug_refs [999]) test_db);
    [done | done | done | by eexists | by_evaluation | by left].
Defined.

(** ** PUT /prescriptions/<id>/status: acceptance and composition *)

Lemma update_prescription_status_stored id new_status db p :
  new_status ≠ EmptyString → Prescription_get db id = Some p →
  update_prescription_status id (status_data new_status) db =
    (Ok 200 (mkUpdated "Prescription status updated successfully"
               (mkUpdatedPrescription (prescription_id p) (prescription_patient_id p)
                  (prescription_doctor_id p) new_status (prescription_created_at p)
                  (prescribed_drugs db p))),
     set_status db id new_status).
Proof.
  intros Hne Hget. by rewrite update_prescription_status_request, Hget.
Qed.

(** X10.  PUT /prescriptions/<id>/status answers 200 exactly when the body
    has a non-empty status and a prescription of the table has the id; with
    any other answer the database is as before. *)
Theorem update_prescription_status_accepts_exactly id data db :
  ((∃ body db', update_prescription_status id data db = (Ok 200 body, db')) ↔
   (∃ new_status, data = status_data new_status ∧ new_status ≠ EmptyString ∧
                  id ∈ prescription_id <$> prescriptions db)) ∧
  (∀ code message, (update_prescription_status id data db).1 = Fail code message →
                   (update_prescription_status id data db).2 = db).
Proof.
  split; [split|].
  - intros (body & db' & E). revert E. unfold update_prescription_status.
    destruct data as [[[s|]]|]; simpl; try done.
    case_bool_decide as Hs; simpl; [|done].
    destruct (Prescription_get db id) as [p|] eqn:Hget; simpl; [|by case_decide].
    intros _. exists s. split_and!; [done|done|].
    apply Prescription_get_Some in Hget as [Hin <-]. by apply list_elem_of_fmap_2.
  - intros (s & -> & Hs & [p Hget]%Prescription_get_present).
    rewrite (update_prescription_status_stored _ _ _ _ Hs Hget). by eexists _, _.
  - intros code message. unfold update_prescription_status.
    destruct data as [[[s|]]|]; simpl; try done.
    case_bool_decide as Hs; simpl; [|done].
    destruct (Prescription_get db id) as [p|] eqn:Hget; simpl; [|by case_decide].
    rewrite Prescription_get_set_status, Hget. done.
Qed.

Lemma update_prescription_status_accepts_exactly_witness :
  (∃ body db',
     update_prescription_status 1 (status_data "ready") test_db1 = (Ok 200 body, db')) ∧
  ¬ (∃ body db',
       update_prescription_status 2 (status_data "ready") test_db1 = (Ok 200 body, db')).
Proof.
  split.
  - apply (proj1 (update_prescription_status_accepts_exactly 1 _ test_db1)).
    exists "ready". split_and!; [done | done | by_evaluation].
  - intros H.
    apply (proj1 (update_prescription_status_accepts_exactly 2 _ test_db1)) in H
      as (s & _ & _ & Hin).
    revert Hin. by_evaluation.
Defined.

Lemma set_status_twice db id s1 s2 :
  set_status (set_status db id s1) id s2 = set_status db id s2.
Proof.
  unfold set_status. simpl. f_equal. rewrite <- list_fmap_compose.
  apply list_fmap_ext. intros i p _. simpl. by repeat case_decide.
Qed.

(** X11.  Of two status updates of the same prescription the second one
    decides: the database after both is the database after the second alone. *)
Theorem update_prescription_status_last_wins id s1 s2 db :
  s1 ≠ EmptyString → s2 ≠ EmptyString →
  (update_prescription_status id (status_data s2)
     (update_prescription_status id (status_data s1) db).2).2 =
  (update_prescription_status id (status_data s2) db).2.
Proof.
  intros H1 H2. destruct (Prescription_get db id) as [p|] eqn:Hget.
  - rewrite (update_prescription_status_stored id s1 db p) by done. cbn [snd].
    assert (Prescription_get (set_status db id s1) id = Some (with_status s1 p)) as Hget1.
    { rewrite Prescription_get_set_status, Hget. simpl. rewrite decide_True; [done|].
      by apply Prescription_get_Some in Hget as [_ ?]. }
    rewrite (update_prescription_status_stored id s2 _ _ H2 Hget1).
    rewrite (update_prescription_status_stored id s2 _ _ H2 Hget). cbn [snd].
    apply set_status_twice.
  - rewrite (update_prescription_status_request id s1) by done. by rewrite Hget.
Qed.

Lemma update_prescription_status_last_wins_witness :
  (update_prescription_status 1 (status_data "dispensed")
     (update_prescription_status 1 (status_data "ready") test_db2).2).2 =
  (update_prescription_status 1 (status_data "dispensed") test_db2).2.
Proof. by apply (update_prescription_status_last_wins 1 "ready" "dispensed" test_db2). Defined.

(** X12.  After a status update that answered 200, GET /prescriptions/<id>
    answers 200 with the id, patient id, doctor id, status, creation time and
    drugs of the update's response. *)
Theorem update_then_get_prescription id data db code body db' :
  consistent db →
  update_prescription_status id data db = (Ok code body, db') →
  ∃ view,
    get_prescription id db' = Ok 200 view ∧
    view_id view = updated_id (updated_prescription body) ∧
    patient_id (view_patient view) = updated_patient_id (updated_prescription body) ∧
    summary_id (view_doctor view) = updated_doctor_id (updated_prescription body) ∧
    view_status view = updated_status (updated_prescription body) ∧
    view_created_at view = updated_created_at (updated_prescription body) ∧
    view_prescribed_drugs view = updated_prescribed_drugs (updated_prescription body).
Proof.
  intros Hc E.
  assert (∃ s p, s ≠ EmptyString ∧ Prescription_get db id = Some p ∧
                 data = status_data s) as (s & p & Hs & Hget & ->).
  { revert E. unfold update_prescription_status.
    destruct data as [[[s|]]|]; simpl; try done.
    case_bool_decide as Hs; simpl; [|done].
    destruct (Prescription_get db id) as [p|] eqn:Hget; simpl; [|by case_decide].
    intros _. by exists s, p. }
  rewrite (update_prescription_status_stored _ _ _ _ Hs Hget) in E.
  injection E as <- <- <-. simpl.
  pose proof (Prescription_get_Some _ _ _ Hget) as [Hin Hid].
  destruct (prescription_patient db p Hc Hin) as [patient Hpat].
  pose proof (prescription_doctor_fk _ Hc) as Hfk. rewrite Forall_forall in Hfk.
  destruct (get_present user_id (users db) _ (Hfk p Hin)) as [doctor Hdoc].
  eexists. unfold get_prescription.
  rewrite Prescription_get_set_status, Hget. simpl. rewrite decide_True by done. simpl.
  unfold Patient_get, User_get in *. simpl. rewrite Hpat, Hdoc.
  split; [reflexivity|]. simpl. split_and!; try done.
  - by apply (first_Some (λ q, patient_id q = prescription_patient_id p)) in Hpat as [_ ?].
  - by apply (first_Some (λ u, user_id u = prescription_doctor_id p)) in Hdoc as [_ ?].
Qed.

Lemma update_then_get_prescription_witness :
  ∃ view,
    get_prescription 1 test_db3 = Ok 200 view ∧
    view_id view = 1 ∧ patient_id (view_patient view) = 2 ∧
    summary_id (view_doctor view) = 1 ∧ view_status view = "ready" ∧
    view_created_at view = 100 ∧ view_prescribed_drugs view = [drug1; drug2].
Proof.
  apply (update_then_get_prescription 1 (status_data "ready") test_db2 200
           (mkUpdated "Prescription status updated successfully"
              (mkUpdatedPrescription 1 2 1 "ready" 100 [drug1; drug2])) test_db3);
    [apply consistent_test_db2 | reflexivity].
Defined.

Lemma assignments_ext {A} (key : A → string) (value value' : A → nat) (l : list A)
    (m : gmap string nat) :
  (∀ x, value x = value' x) →
  foldl (λ (m : gmap string nat) x, <[key x := value x]> m) m l =
  foldl (λ (m : gmap string nat) x, <[key x := value' x]> m) m l.
Proof.
  intros Hv. revert m. induction l as [|x l IH]; intros m; [done|]. simpl.
  by rewrite Hv, IH.
Qed.

(** X13.  A status update changes neither the drug statistics nor the labels
    of any prescription. *)
Theorem status_update_leaves_statistics_and_labels id data db :
  get_drug_prescription_statistics (update_prescription_status id data db).2 =
    get_drug_prescription_statistics db ∧
  ∀ today_date j,
    get_prescription_label today_date j (update_prescription_status id data db).2 =
    get_prescription_label today_date j db.
Proof.
  destruct (update_prescription_status_db id data db) as [->|(s & _ & _ & _ & ->)]; [done|].
  split.
  - unfold get_drug_prescription_statistics. simpl. case_decide; [done|]. f_equal.
    apply assignments_ext. intros d. unfold drug_prescriptions. simpl.
    erewrite (omap_ext_Forall (λ row : Z * Z, Prescription_get (set_status db id s) row.1));
      [|apply Forall_forall; intros row _; apply Prescription_get_set_status].
    by rewrite <- list_fmap_omap, length_fmap.
  - intros today_date j. unfold get_prescription_label.
    rewrite Prescription_get_set_status.
    destruct (Prescription_get db j) as [p|]; [|done]. simpl.
    assert (∀ q : Prescription,
              prescription_patient_id
                (if decide (prescription_id q = id) then with_status s q else q) =
              prescription_patient_id q) as -> by (intros q; by case_decide).
    unfold Patient_get. simpl.
    destruct (head _) as [patient|]; [|done]. do 2 f_equal.
    unfold prescribed_drugs. simpl. by case_decide.
Qed.

(** ** The notification feed after other requests *)

(** The entries of the feed are the pending prescriptions with the names of
    their patients. *)
Lemma get_dashboard_notifications_entries db :
  consistent db →
  ∃ notifications,
    get_dashboard_notifications db = Ok 200 notifications ∧
    ∀ n, n ∈ notifications ↔
         ∃ p patient,
           p ∈ prescriptions db ∧ prescription_status p = "pending" ∧
           Patient_get db (prescription_patient_id p) = Some patient ∧
           n = mkNotification (prescription_id p) (patient_name patient)
                              (prescription_created_at p).
Proof.
  intros Hc. unfold get_dashboard_notifications.
  set (entry := λ pres, _ ≫= _).
  assert (∀ p n, entry p = Some n ↔
            ∃ patient, Patient_get db (prescription_patient_id p) = Some patient ∧
                       n = mkNotification (prescription_id p) (patient_name patient)
                                          (prescription_created_at p)) as Hentry.
  { intros p n. subst entry. simpl.
    destruct (Patient_get db (prescription_patient_id p)) as [patient|]; simpl.
    - split; [intros [= <-]; by eexists|intros (? & [= <-] & ->); done].
    - split; [done|by intros (? & ? & _)]. }
  assert (is_Some (mapM entry (pending_prescriptions db))) as [notifications Hm].
  { apply mapM_is_Some, Forall_forall. intros p [Hp _]%pending_prescriptions_spec.
    destruct (prescription_patient db p Hc Hp) as [patient Hpat]. simpl.
    eexists. apply Hentry. by eexists. }
  rewrite Hm. exists notifications. split; [done|]. apply mapM_Some_1 in Hm.
  intros n. split.
  - intros [k Hk]%list_elem_of_lookup_1.
    destruct (Forall2_lookup_r _ _ _ _ _ Hm Hk) as (p & Hp & Hn).
    apply list_elem_of_lookup_2, pending_prescriptions_spec in Hp as [Hin Hpending].
    apply Hentry in Hn as (patient & Hpat & ->). by exists p, patient.
  - intros (p & patient & Hin & Hpending & Hpat & ->).
    assert (p ∈ pending_prescriptions db) as [k Hk]%list_elem_of_lookup_1
      by by apply pending_prescriptions_spec.
    destruct (Forall2_lookup_l _ _ _ _ _ Hm Hk) as (n & Hn & Hpn).
    apply Hentry in Hpn as (patient' & Hpat' & ->). rewrite Hpat in Hpat'.
    injection Hpat' as <-. by eapply list_elem_of_lookup_2.
Qed.

(** X14.  A prescription that POST /prescriptions accepted is in the
    notification feed right afterwards, with the returned id, the creation
    time, and the stored name of the patient of the request's file number. *)
Theorem created_prescription_is_notified now name fn doctor_id drugs_data db code created db' :
  consistent db →
  create_prescription now (request name fn doctor_id drugs_data) db = (Ok code created, db') →
  ∃ notifications patient,
    get_dashboard_notifications db' = Ok 200 notifications ∧
    Patient_filter_by_file_number db' fn = Some patient ∧
    mkNotification (created_prescription_id created) (patient_name patient) now
      ∈ notifications.
Proof.
  intros Hc Hcreate.
  pose proof (create_prescription_consistent now (request name fn doctor_id drugs_data) db Hc)
    as Hc'. rewrite Hcreate in Hc'. simpl in Hc'.
  apply create_prescription_Ok in Hcreate
    as (name0 & fn0 & did0 & ids & doctor & patient & db1 & found & p &
        [= <- <- <- _] & _ & _ & _ & _ & _ & Hdoc & Hfoc & Hfound & Hins & _ & ->).
  pose proof (find_or_create_patient_consistent _ _ _ _ _ Hc Hfoc) as Hc1.
  destruct (find_or_create_patient_Some db name fn)
    as (patient' & db1' & Hfoc' & Hpat & Hfn & Hu & _).
  rewrite Hfoc in Hfoc'. injection Hfoc' as <- <-.
  apply User_filter_by_id_role_Some in Hdoc as (Huser & _ & _).
  destruct (insert_prescription_get db1 now patient doctor found p db')
    as (Hget & Hgetp & _ & _); try done.
  { by rewrite Hu. }
  pose proof Hins as (Hp & _ & Hpa & _)%insert_prescription_Some.
  destruct (get_dashboard_notifications_entries db' Hc') as (notifications & E & Hn).
  exists notifications, patient. split_and!; [done| |].
  - unfold Patient_filter_by_file_number. rewrite Hpa, <- Hfn.
    apply (get_unique patient_file_number); [apply (patients_file_number_unique _ Hc1)|done].
  - apply Hn. exists p, patient. apply Prescription_get_Some in Hget as [Hin _].
    split_and!; [done| |done|]; by rewrite Hp.
Qed.

Lemma created_prescription_is_notified_witness :
  ∃ notifications patient,
    get_dashboard_notifications test_db2 = Ok 200 notifications ∧
    Patient_filter_by_file_number test_db2 "JD001" = Some patient ∧
    mkNotification 2 (patient_name patient) 200 ∈ notifications.
Proof.
  apply (created_prescription_is_notified 200 "John Doe" "JD001" 1 (drug_refs [1]) test_db1
           201 (mkCreated "Prescription created successfully" 2 "pending" 200) test_db2);
    [apply consistent_test_db1 | reflexivity].
Defined.

(** X15.  After a status update that found its prescription, the
    prescription is in the notification feed exactly when the new status is
    the string "pending". *)
Theorem status_update_moves_notification id new_status db :
  consistent db → new_status ≠ EmptyString → is_Some (Prescription_get db id) →
  ∃ notifications,
    get_dashboard_notifications
      (update_prescription_status id (status_data new_status) db).2 = Ok 200 notifications ∧
    (id ∈ notification_id <$> notifications ↔ new_status = "pending").
Proof.
  intros Hc Hne [p Hget].
  pose proof (set_status_consistent db id new_status Hc) as Hc'.
  rewrite (update_prescription_status_stored _ _ _ _ Hne Hget). simpl.
  assert (Prescription_get (set_status db id new_status) id = Some (with_status new_status p))
    as Hget'.
  { rewrite Prescription_get_set_status, Hget. simpl. rewrite decide_True; [done|].
    by apply Prescription_get_Some in Hget as [_ ?]. }
  pose proof (Prescription_get_Some _ _ _ Hget') as [Hin' Hid'].
  destruct (get_dashboard_notifications_entries _ Hc') as (notifications & E & Hn).
  exists notifications. split; [done|]. split.
  - intros (n & Hnid & (q & patient & Hq & Hpending & _ & ->)%Hn)%list_elem_of_fmap.
    simpl in Hnid.
    assert (q = with_status new_status p) as ->.
    { apply (same_key prescription_id (prescriptions (set_status db id new_status)));
        [apply (prescriptions_pk _ Hc')|done|done|congruence]. }
    done.
  - intros Hpending.
    destruct (prescription_patient _ _ Hc' Hin') as [patient Hpat].
    apply list_elem_of_fmap.
    exists (mkNotification id (patient_name patient) (prescription_created_at p)).
    split; [done|]. apply Hn. exists (with_status new_status p), patient.
    split_and!; [done|done|done|]. simpl. by rewrite <- Hid'.
Qed.

Lemma status_update_moves_notification_witness :
  ∃ notifications,
    get_dashboard_notifications
      (update_prescription_status 1 (status_data "ready") test_db2).2 = Ok 200 notifications ∧
    (1 ∈ notification_id <$> notifications ↔ "ready" = "pending").
Proof.
  apply (status_update_moves_notification 1 "ready" test_db2);
    [apply consistent_test_db2 | done | by eexists].
Defined.

(** ** GET /prescriptions/<id> and the labels *)

(** X16.  In a database that satisfies the constraints GET /prescriptions/<id>
    answers 200 exactly for the ids of the stored prescriptions, and the
    labels of a stored prescription are one per drug of that answer, built
    from its patient and its drugs in the same order.  For any other id both
    handlers fail alike: with 404 "Prescription not found" when the id is a
    64-bit integer, and with 500 when it is beyond that range. *)
Theorem get_prescription_and_labels today_date id db :
  consistent db →
  match get_prescription id db with
  | Ok code view =>
      code = 200 ∧ id ∈ (prescription_id <$> prescriptions db) ∧ view_id view = id ∧
      get_prescription_label today_date id db =
        Ok 200 (mkLabels id
                  ((λ drug, label_string (patient_name (view_patient view))
                                         (patient_file_number (view_patient view))
                                         drug today_date)
                     <$> view_prescribed_drugs view))
  | Fail code message =>
      (id ∉ prescription_id <$> prescriptions db) ∧
      get_prescription_label today_date id db = Fail code message ∧
      (0 ≤ id < 2 ^ 63 → code = 404 ∧ message = "Prescription not found") ∧
      (2 ^ 63 ≤ id → code = 500 ∧ message = "Internal Server Error")
  end.
Proof.
  intros Hc. unfold get_prescription.
  destruct (Prescription_get db id) as [p|] eqn:Hget; simpl.
  - pose proof (Prescription_get_Some _ _ _ Hget) as [Hin Hid].
    destruct (prescription_patient db p Hc Hin) as [patient Hpat].
    destruct (prescription_doctor db p Hc Hin) as [doctor Hdoc].
    rewrite (get_prescription_label_stored _ _ _ _ _ Hget Hpat), Hpat, Hdoc.
    simpl. split_and!; try done.
    rewrite <- Hid. by apply list_elem_of_fmap_2.
  - rewrite (get_prescription_label_absent _ _ _ Hget).
    assert (id ∉ prescription_id <$> prescriptions db) as Habsent.
    { intros Hin. apply Prescription_get_present in Hin as [p Hp]. congruence. }
    unfold int64. case_decide; (split_and!; [done|done|intros ?|intros ?]); done || lia.
Qed.

Lemma get_prescription_and_labels_witness :
  get_prescription 1 test_db1 =
    Ok 200 (mkPrescriptionView 1 (mkPatient 2 "Jane Smith" "JS001")
              (mkDoctorSummary 1 "testdoc") "pending" 100 [drug1; drug2]) ∧
  get_prescription_label "2024-05-17" 1 test_db1 =
    Ok 200 (mkLabels 1 [label_string "Jane Smith" "JS001" drug1 "2024-05-17";
                        label_string "Jane Smith" "JS001" drug2 "2024-05-17"]) ∧
  get_prescription (2 ^ 63) test_db1 = Fail 500 "Internal Server Error" ∧
  get_prescription_label "2024-05-17" (2 ^ 63) test_db1 = Fail 500 "Internal Server Error".
Proof.
  pose proof (get_prescription_and_labels "2024-05-17" 1 test_db1 consistent_test_db1) as H1.
  pose proof (get_prescription_and_labels "2024-05-17" (2 ^ 63) test_db1 consistent_test_db1)
    as H2.
  destruct (get_prescription 1 test_db1) as [code view|] eqn:E1; [|by vm_compute in E1].
  destruct (get_prescription (2 ^ 63) test_db1) as [|code2 message] eqn:E2;
    [by vm_compute in E2|].
  destruct H1 as (-> & _ & _ & Hlabels). destruct H2 as (_ & Hfail & _ & H500).
  destruct H500 as [-> ->]; [done|].
  vm_compute in E1. injection E1 as <-. by split_and!.
Defined.

(** ** POST /drugs *)

Lemma add_drug_present name strength instructions warnings db :
  name ≠ EmptyString → strength ≠ EmptyString → instructions ≠ EmptyString →
  warnings ≠ EmptyString →
  add_drug (drug_data name strength instructions warnings) db =
    (Ok 201 (mkAdded "Drug added successfully"
               (mkDrug (next_id (drug_id <$> drugs db)) name strength instructions warnings)),
     mkDB (users db) (patients db)
          (drugs db ++ [mkDrug (next_id (drug_id <$> drugs db)) name strength instructions
                               warnings])
          (prescriptions db) (prescription_drug_association db) (flush db)).
Proof.
  intros. unfold add_drug, drug_data. simpl. by rewrite !bool_decide_true by done.
Qed.

(** X17.  POST /drugs answers 201 exactly for the bodies with four non-empty
    fields; with any other answer the database is as before. *)
Theorem add_drug_accepts_exactly data db :
  ((∃ added db', add_drug data db = (Ok 201 added, db')) ↔
   (∃ name strength instructions warnings,
      data = drug_data name strength instructions warnings ∧
      name ≠ EmptyString ∧ strength ≠ EmptyString ∧ instructions ≠ EmptyString ∧
      warnings ≠ EmptyString)) ∧
  (∀ code message, (add_drug data db).1 = Fail code message → (add_drug data db).2 = db).
Proof.
  split; [split|].
  - intros (added & db' & E). revert E. unfold add_drug.
    destruct data as [[[n|] [s|] [i|] [w|]]|]; simpl; rewrite ?andb_false_r; try done.
    destruct (bool_decide (n ≠ EmptyString)) eqn:Hn; [|done].
    destruct (bool_decide (s ≠ EmptyString)) eqn:Hs; [|done].
    destruct (bool_decide (i ≠ EmptyString)) eqn:Hi; [|done].
    destruct (bool_decide (w ≠ EmptyString)) eqn:Hw; [|done].
    intros _. exists n, s, i, w.
    apply bool_decide_eq_true in Hn. apply bool_decide_eq_true in Hs.
    apply bool_decide_eq_true in Hi. apply bool_decide_eq_true in Hw. done.
  - intros (n & s & i & w & -> & ? & ? & ? & ?). rewrite add_drug_present by done.
    by eexists _, _.
  - intros code message. unfold add_drug. destruct data as [data|]; [|done].
    destruct (DrugData_empty data); [done|]. by destruct (negb _).
Qed.

(** X18.  A drug that POST /drugs accepted gets an id above every id of the
    catalog, stands last in GET /drugs behind the unchanged old rows, and is
    found under its id; the drugs found before are found as before. *)
Theorem add_drug_then_get_drugs name strength instructions warnings db :
  name ≠ EmptyString → strength ≠ EmptyString → instructions ≠ EmptyString →
  warnings ≠ EmptyString →
  ∃ id db',
    add_drug (drug_data name strength instructions warnings) db =
      (Ok 201 (mkAdded "Drug added successfully"
                 (mkDrug id name strength instructions warnings)), db') ∧
    (∀ d, d ∈ drugs db → drug_id d < id) ∧
    get_drugs db' = Ok 200 (drugs db ++ [mkDrug id name strength instructions warnings]) ∧
    Drug_get db' id = Some (mkDrug id name strength instructions warnings) ∧
    (∀ i, is_Some (Drug_get db i) → Drug_get db' i = Drug_get db i).
Proof.
  intros Hn Hs Hi Hw. eexists _, _. split; [by apply add_drug_present|].
  split_and!.
  - intros d Hd. apply next_id_bound. by apply list_elem_of_fmap_2.
  - done.
  - unfold Drug_get. simpl. rewrite (first_app (λ d, drug_id d = _)).
    rewrite (get_absent drug_id) by apply next_id_fresh.
    by rewrite filter_cons, decide_True.
  - intros i [d Hd]. unfold Drug_get in *. simpl.
    by rewrite (first_app (λ d, drug_id d = i)), Hd.
Qed.

Lemma add_drug_then_get_drugs_witness :
  ∃ id db',
    add_drug (drug_data "Ibuprofen" "200mg" "As needed for pain" "Do not exceed daily limit")
             test_db =
      (Ok 201 (mkAdded "Drug added successfully"
                 (mkDrug id "Ibuprofen" "200mg" "As needed for pain"
                         "Do not exceed daily limit")), db') ∧
    (∀ d, d ∈ drugs test_db → drug_id d < id) ∧
    get_drugs db' =
      Ok 200 (drugs test_db ++ [mkDrug id "Ibuprofen" "200mg" "As needed for pain"
                                       "Do not exceed daily limit"]) ∧
    Drug_get db' id = Some (mkDrug id "Ibuprofen" "200mg" "As needed for pain"
                                   "Do not exceed daily limit") ∧
    (∀ i, is_Some (Drug_get test_db i) → Drug_get db' i = Drug_get test_db i).
Proof.
  by apply (add_drug_then_get_drugs "Ibuprofen" "200mg" "As needed for pain"
              "Do not exceed daily limit" test_db).
Defined.

(** X19.  POST /drugs does not look for an equal drug: the same body sent
    twice is accepted twice and leaves two catalog rows that differ in their
    id only. *)
Theorem add_drug_twice name strength instructions warnings db :
  name ≠ EmptyString → strength ≠ EmptyString → instructions ≠ EmptyString →
  warnings ≠ EmptyString →
  ∃ id1 id2 db1 db2,
    add_drug (drug_data name strength instructions warnings) db =
      (Ok 201 (mkAdded "Drug added successfully"
                 (mkDrug id1 name strength instructions warnings)), db1) ∧
    add_drug (drug_data name strength instructions warnings) db1 =
      (Ok 201 (mkAdded "Drug added successfully"
                 (mkDrug id2 name strength instructions warnings)), db2) ∧
    id1 < id2 ∧
    drugs db2 = drugs db ++ [mkDrug id1 name strength instructions warnings;
                             mkDrug id2 name strength instructions warnings].
Proof.
  intros Hn Hs Hi Hw. eexists _, _, _, _.
  split; [by apply add_drug_present|]. split; [by apply add_drug_present|]. simpl. split.
  - apply next_id_bound. rewrite fmap_app. apply elem_of_app. right. by left.
  - by rewrite <- app_assoc.
Qed.

Lemma add_drug_twice_witness :
  ∃ id1 id2 db1 db2,
    add_drug (drug_data "Panadol" "500mg" "2 tablets" "Max 8 tablets/day") test_db =
      (Ok 201 (mkAdded "Drug added successfully"
                 (mkDrug id1 "Panadol" "500mg" "2 tablets" "Max 8 tablets/day")), db1) ∧
    add_drug (drug_data "Panadol" "500mg" "2 tablets" "Max 8 tablets/day") db1 =
      (Ok 201 (mkAdded "Drug added successfully"
                 (mkDrug id2 "Panadol" "500mg" "2 tablets" "Max 8 tablets/day")), db2) ∧
    id1 < id2 ∧
    drugs db2 = drugs test_db ++ [mkDrug id1 "Panadol" "500mg" "2 tablets" "Max 8 tablets/day";
                                  mkDrug id2 "Panadol" "500mg" "2 tablets" "Max 8 tablets/day"].
Proof.
  by apply (add_drug_twice "Panadol" "500mg" "2 tablets" "Max 8 tablets/day" test_db).
Defined.

(** ** The statistics after other requests *)

(** X20.  After POST /drugs accepted a drug, the statistics hold 0 under its
    name, whatever they held under that name before, and what they held
    under every other name. *)
Theorem add_drug_resets_the_count_of_its_name name strength instructions warnings db :
  consistent db →
  name ≠ EmptyString → strength ≠ EmptyString → instructions ≠ EmptyString →
  warnings ≠ EmptyString →
  ∃ before after : gmap string nat,
    get_drug_prescription_statistics db = Ok 200 before ∧
    get_drug_prescription_statistics
      (add_drug (drug_data name strength instructions warnings) db).2 = Ok 200 after ∧
    after !! name = Some 0%nat ∧
    ∀ other, other ≠ name → after !! other = before !! other.
Proof.
  intros Hc Hn Hs Hi Hw.
  pose proof (add_drug_consistent (drug_data name strength instructions warnings) db Hc) as Hc'.
  rewrite add_drug_present in * by done. simpl in *.
  set (d := mkDrug _ _ _ _ _) in *. set (db' := mkDB _ _ _ _ _ _) in *.
  destruct (get_drug_prescription_statistics_lookup db Hc) as (before & E & Hb).
  destruct (get_drug_prescription_statistics_lookup db' Hc') as (after & E' & Ha).
  exists before, after. split_and!; [done|done| |].
  - rewrite Ha. subst db'. simpl. rewrite filter_app, filter_cons, decide_True by done.
    rewrite filter_nil, last_snoc. simpl. f_equal. unfold distinct_prescriptions_referencing. simpl.
    rewrite (filter_none (λ row : Z * Z, row.2 = next_id (drug_id <$> drugs db))); [done|].
    pose proof (association_drug_fk _ Hc) as Hfk.
    eapply Forall_impl; [exact Hfk|]. intros row Hrow Heq. simpl in *.
    rewrite Heq in Hrow. by apply next_id_fresh in Hrow.
  - intros other Hother. rewrite Ha, Hb. subst db'. simpl.
    rewrite filter_app, filter_cons, decide_False by (simpl; congruence).
    by rewrite filter_nil, app_nil_r.
Qed.

Lemma add_drug_resets_the_count_of_its_name_witness :
  ∃ before after : gmap string nat,
    get_drug_prescription_statistics test_db2 = Ok 200 before ∧
    get_drug_prescription_statistics
      (add_drug (drug_data "Amoxicillin" "500mg" "Take 1 every 12 hours" "none") test_db2).2 =
      Ok 200 after ∧
    after !! "Amoxicillin" = Some 0%nat ∧
    ∀ other, other ≠ "Amoxicillin" → after !! other = before !! other.
Proof.
  by apply (add_drug_resets_the_count_of_its_name "Amoxicillin" "500mg"
              "Take 1 every 12 hours" "none" test_db2 consistent_test_db2).
Defined.

Lemma distinct_prescriptions_referencing_length db d :
  consistent db →
  distinct_prescriptions_referencing db d =
  length (filter (λ row : Z * Z, row.2 = drug_id d) (prescription_drug_association db)).
Proof.
  intros Hc. unfold distinct_prescriptions_referencing.
  rewrite size_list_to_set; [by rewrite length_fmap|].
  apply NoDup_fmap_2_strong; [|apply NoDup_filter, (association_pk _ Hc)].
  intros [p1 d1] [p2 d2] H1 H2 Heq.
  apply (list_elem_of_filter (λ row : Z * Z, row.2 = drug_id d)) in H1 as [H1 _].
  apply (list_elem_of_filter (λ row : Z * Z, row.2 = drug_id d)) in H2 as [H2 _].
  simpl in *. congruence.
Qed.

(** Among rows of one prescription without repetition, a drug has at most
    one. *)
Lemma count_in_rows (k a : Z) (rows : list (Z * Z)) :
  NoDup rows → Forall (λ row : Z * Z, row.1 = k) rows →
  length (filter (λ row : Z * Z, row.2 = a) rows) =
  if decide ((k, a) ∈ rows) then 1%nat else 0%nat.
Proof.
  induction 1 as [|[k' b] rows Hrow Hnd IH]; intros Hk; [done|].
  apply Forall_cons in Hk as [Hk' Hk]. simpl in Hk'. subst k'.
  rewrite filter_cons. simpl. destruct (decide (b = a)) as [->|Hne]; simpl; rewrite (IH Hk).
  - rewrite decide_False by exact Hrow. by rewrite decide_True by by left.
  - apply decide_ext. rewrite elem_of_cons. split; [by right|].
    intros [[=]|?]; [congruence|done].
Qed.

(** X21.  When no two drugs of the catalog share a name, an accepted POST
    /prescriptions raises the statistic of each drug it names by one and
    leaves the statistic of every other drug of the catalog as it was. *)
Theorem create_prescription_counts_its_drugs now name fn doctor_id ids db code created db' :
  consistent db → NoDup (drug_name <$> drugs db) →
  create_prescription now (request name fn doctor_id (drug_refs ids)) db =
    (Ok code created, db') →
  ∃ before after : gmap string nat,
    get_drug_prescription_statistics db = Ok 200 before ∧
    get_drug_prescription_statistics db' = Ok 200 after ∧
    ∀ d, d ∈ drugs db →
         ∃ n, before !! drug_name d = Some n ∧
              after !! drug_name d = Some (if decide (drug_id d ∈ ids) then S n else n).
Proof.
  intros Hc Hnames Hcreate.
  pose proof (create_prescription_consistent now (request name fn doctor_id (drug_refs ids))
                db Hc) as Hc'. rewrite Hcreate in Hc'. simpl in Hc'.
  apply create_prescription_Ok in Hcreate
    as (name0 & fn0 & did0 & ids0 & doctor & patient & db1 & found & p &
        [= <- <- <- Hrefs] & _ & _ & _ & _ & _ & _ & Hfoc & Hfound & Hins & _).
  apply drug_refs_inj in Hrefs. subst ids0.
  pose proof (find_or_create_patient_consistent _ _ _ _ _ Hc Hfoc) as Hc1.
  destruct (find_or_create_patient_Some db name fn)
    as (patient' & db1' & Hfoc' & _ & _ & _ & Hd & _ & Ha & _).
  rewrite Hfoc in Hfoc'. injection Hfoc' as <- <-.
  apply mapM_Drug_get in Hfound as [Hmap _].
  apply insert_prescription_Some in Hins as (_ & _ & _ & Hd2 & _ & Ha2 & Hnd).
  rewrite Ha2 in Hnd. apply NoDup_app in Hnd as (_ & _ & Hnd).
  destruct (get_drug_prescription_statistics_lookup db Hc) as (before & E & Hb).
  destruct (get_drug_prescription_statistics_lookup db' Hc') as (after & E' & Haf).
  exists before, after. split_and!; [done|done|].
  intros d Hin. exists (distinct_prescriptions_referencing db d).
  assert (∀ d', d' ∈ drugs db → drug_name d' = drug_name d → d' = d) as Huniq.
  { intros d' Hin' Hn. by apply (same_key drug_name (drugs db)). }
  split; [by rewrite Hb, last_of_name|].
  rewrite Haf, Hd2, Hd, last_of_name by done. simpl. f_equal.
  rewrite !distinct_prescriptions_referencing_length by done.
  rewrite Ha2, Ha, filter_app, length_app.
  rewrite (count_in_rows (prescription_id p) (drug_id d)
             (collection_rows db1 (prescription_id p) found)); [|done|].
  - rewrite (decide_ext _ (drug_id d ∈ ids)); [case_decide; lia|].
    rewrite (elem_of_collection_rows_ids _ _ _ ids) by done. split.
    + by intros (i & Hi & [= ->]).
    + intros Hi. by exists (drug_id d).
  - apply Forall_forall. by intros row (d' & _ & ->)%elem_of_collection_rows.
Qed.

Lemma create_prescription_counts_its_drugs_witness :
  ∃ before after : gmap string nat,
    get_drug_prescription_statistics test_db1 = Ok 200 before ∧
    get_drug_prescription_statistics test_db2 = Ok 200 after ∧
    ∀ d, d ∈ drugs test_db1 →
         ∃ n, before !! drug_name d = Some n ∧
              after !! drug_name d = Some (if decide (drug_id d ∈ [1]) then S n else n).
Proof.
  apply (create_prescription_counts_its_drugs 200 "John Doe" "JD001" 1 [1] test_db1 201
           (mkCreated "Prescription created successfully" 2 "pending" 200) test_db2);
    [apply consistent_test_db1 | by_evaluation | reflexivity].
Defined.

(** ** The rows added at start-up *)

Lemma ensure_user_present username password_hash role db :
  is_Some (User_filter_by_username db username) →
  ensure_user username password_hash role db = db.
Proof. unfold ensure_user. by intros [u ->]. Qed.

Lemma ensure_user_found username password_hash role db :
  is_Some (User_filter_by_username (ensure_user username password_hash role db) username).
Proof.
  unfold ensure_user. destruct (User_filter_by_username db username) as [u|] eqn:E.
  - rewrite E. by eexists.
  - unfold User_filter_by_username in *. simpl.
    rewrite (first_app (λ u, user_username u = username)), E.
    rewrite filter_cons, decide_True by done. by eexists.
Qed.

Lemma ensure_user_keeps username password_hash role db other :
  is_Some (User_filter_by_username db other) →
  is_Some (User_filter_by_username (ensure_user username password_hash role db) other).
Proof.
  intros [u Hu]. unfold ensure_user. destruct (User_filter_by_username db username); [by eexists|].
  unfold User_filter_by_username in *. simpl.
  rewrite (first_app (λ u, user_username u = other)), Hu. by eexists.
Qed.

Lemma ensure_drug_present name strength instructions warnings db :
  is_Some (Drug_filter_by_name db name) →
  ensure_drug name strength instructions warnings db = db.
Proof. unfold ensure_drug. by intros [d ->]. Qed.

Lemma ensure_drug_found name strength instructions warnings db :
  is_Some (Drug_filter_by_name (ensure_drug name strength instructions warnings db) name).
Proof.
  unfold ensure_drug. destruct (Drug_filter_by_name db name) as [d|] eqn:E.
  - rewrite E. by eexists.
  - unfold Drug_filter_by_name in *. simpl.
    rewrite (first_app (λ d, drug_name d = name)), E.
    rewrite filter_cons, decide_True by done. by eexists.
Qed.

Lemma ensure_drug_keeps name strength instructions warnings db other :
  is_Some (Drug_filter_by_name db other) →
  is_Some (Drug_filter_by_name (ensure_drug name strength instructions warnings db) other).
Proof.
  intros [d Hd]. unfold ensure_drug. destruct (Drug_filter_by_name db name); [by eexists|].
  unfold Drug_filter_by_name in *. simpl.
  rewrite (first_app (λ d, drug_name d = other)), Hd. by eexists.
Qed.

Lemma ensure_drug_users name strength instructions warnings db :
  users (ensure_drug name strength instructions warnings db) = users db.
Proof. unfold ensure_drug. by destruct (Drug_filter_by_name db name). Qed.

(** X22.  Running the start-up block again adds nothing: whatever hashes the
    second run is given, the database after two runs is the database after
    the first. *)
Theorem main_is_idempotent hashed_doctor hashed_pharmacist hashed_doctor' hashed_pharmacist' db :
  main hashed_doctor' hashed_pharmacist' (main hashed_doctor hashed_pharmacist db) =
  main hashed_doctor hashed_pharmacist db.
Proof.
  unfold main at 1.
  set (db5 := main hashed_doctor hashed_pharmacist db).
  assert (is_Some (User_filter_by_username db5 "testdoctor") ∧
          is_Some (User_filter_by_username db5 "testpharmacist") ∧
          is_Some (Drug_filter_by_name db5 "Amoxicillin") ∧
          is_Some (Drug_filter_by_name db5 "Lisinopril") ∧
          is_Some (Drug_filter_by_name db5 "Metformin")) as (H1 & H2 & H3 & H4 & H5).
  { subst db5. unfold main. unfold User_filter_by_username at 1 2.
    rewrite !ensure_drug_users. split_and!.
    - apply ensure_user_keeps, ensure_user_found.
    - apply ensure_user_found.
    - do 2 apply ensure_drug_keeps. apply ensure_drug_found.
    - apply ensure_drug_keeps, ensure_drug_found.
    - apply ensure_drug_found. }
  rewrite (ensure_user_present "testdoctor") by done.
  rewrite (ensure_user_present "testpharmacist") by done.
  rewrite (ensure_drug_present "Amoxicillin") by done.
  rewrite (ensure_drug_present "Lisinopril") by done.
  by rewrite (ensure_drug_present "Metformin").
Qed.

(** X23.  The start-up block keeps the old rows and the constraints: users
    and drugs are the old rows followed by the added ones, the other tables
    are untouched, usernames stay unique, and afterwards the users
    "testdoctor" and "testpharmacist" and the drugs "Amoxicillin",
    "Lisinopril" and "Metformin" exist. *)
Theorem main_adds_the_missing_rows hashed_doctor hashed_pharmacist db :
  consistent db → NoDup (user_username <$> users db) →
  consistent (main hashed_doctor hashed_pharmacist db) ∧
  NoDup (user_username <$> users (main hashed_doctor hashed_pharmacist db)) ∧
  users db `prefix_of` users (main hashed_doctor hashed_pharmacist db) ∧
  drugs db `prefix_of` drugs (main hashed_doctor hashed_pharmacist db) ∧
  patients (main hashed_doctor hashed_pharmacist db) = patients db ∧
  prescriptions (main hashed_doctor hashed_pharmacist db) = prescriptions db ∧
  prescription_drug_association (main hashed_doctor hashed_pharmacist db) =
    prescription_drug_association db ∧
  Forall (λ username,
            is_Some (User_filter_by_username (main hashed_doctor hashed_pharmacist db) username))
         ["testdoctor"; "testpharmacist"] ∧
  Forall (λ name, is_Some (Drug_filter_by_name (main hashed_doctor hashed_pharmacist db) name))
         ["Amoxicillin"; "Lisinopril"; "Metformin"].
Proof.
  assert (∀ u h r d, consistent d → NoDup (user_username <$> users d) →
            consistent (ensure_user u h r d) ∧
            NoDup (user_username <$> users (ensure_user u h r d)) ∧
            users d `prefix_of` users (ensure_user u h r d) ∧
            drugs (ensure_user u h r d) = drugs d ∧
            patients (ensure_user u h r d) = patients d ∧
            prescriptions (ensure_user u h r d) = prescriptions d ∧
            prescription_drug_association (ensure_user u h r d) =
              prescription_drug_association d) as Huser.
  { intros u h r d Hc Hnd. unfold ensure_user.
    destruct (User_filter_by_username d u) as [?|] eqn:E; [done|]. simpl.
    assert (u ∉ user_username <$> users d) as Hfresh.
    { intros Hin. apply (get_present user_username) in Hin as [? Hin].
      unfold User_filter_by_username in E. congruence. }
    destruct Hc as [Hupk Hppk Hfnu Hdpk Hprpk Hapk Hpfk Hdfk Hapfk Hadfk].
    split_and!; try done; [|by rewrite fmap_app; apply NoDup_app; split_and!;
      [done|intros ? ? ->%list_elem_of_singleton|apply NoDup_singleton]|by apply prefix_app_r].
    constructor; simpl; try done.
    - rewrite fmap_app. apply NoDup_app. split_and!; [done| |apply NoDup_singleton].
      intros i Hi ->%list_elem_of_singleton. by apply next_id_fresh in Hi.
    - eapply Forall_impl; [exact Hdfk|]. intros q Hq. rewrite fmap_app.
      apply elem_of_app. by left. }
  assert (∀ n s i w d, consistent d →
            consistent (ensure_drug n s i w d) ∧
            users (ensure_drug n s i w d) = users d ∧
            drugs d `prefix_of` drugs (ensure_drug n s i w d) ∧
            patients (ensure_drug n s i w d) = patients d ∧
            prescriptions (ensure_drug n s i w d) = prescriptions d ∧
            prescription_drug_association (ensure_drug n s i w d) =
              prescription_drug_association d) as Hdrug.
  { intros n s i w d Hc. unfold ensure_drug.
    destruct (Drug_filter_by_name d n) as [?|]; [done|]. simpl.
    destruct Hc as [Hupk Hppk Hfnu Hdpk Hprpk Hapk Hpfk Hdfk Hapfk Hadfk].
    split_and!; try done; [|by apply prefix_app_r].
    constructor; simpl; try done.
    - rewrite fmap_app. apply NoDup_app. split_and!; [done| |apply NoDup_singleton].
      intros j Hj ->%list_elem_of_singleton. by apply next_id_fresh in Hj.
    - eapply Forall_impl; [exact Hadfk|]. intros row Hrow. rewrite fmap_app.
      apply elem_of_app. by left. }
  intros Hc Hnd. unfold main.
  set (db1 := ensure_user "testdoctor" _ _ db).
  set (db2 := ensure_user "testpharmacist" _ _ db1).
  set (db3 := ensure_drug "Amoxicillin" _ _ _ db2).
  set (db4 := ensure_drug "Lisinopril" _ _ _ db3).
  set (db5 := ensure_drug "Metformin" _ _ _ db4).
  destruct (Huser "testdoctor" hashed_doctor "doctor" db Hc Hnd)
    as (Hc1 & Hnd1 & Hu1 & Hd1 & Hp1 & Hpr1 & Ha1). fold db1 in Hc1, Hnd1, Hu1, Hd1, Hp1, Hpr1, Ha1.
  destruct (Huser "testpharmacist" hashed_pharmacist "pharmacist" db1 Hc1 Hnd1)
    as (Hc2 & Hnd2 & Hu2 & Hd2 & Hp2 & Hpr2 & Ha2).
  fold db2 in Hc2, Hnd2, Hu2, Hd2, Hp2, Hpr2, Ha2.
  destruct (Hdrug "Amoxicillin" "250mg" "Take one tablet every 8 hours"
              "May cause allergic reaction." db2 Hc2) as (Hc3 & Hu3 & Hd3 & Hp3 & Hpr3 & Ha3).
  fold db3 in Hc3, Hu3, Hd3, Hp3, Hpr3, Ha3.
  destruct (Hdrug "Lisinopril" "10mg" "Take one tablet daily" "Monitor blood pressure."
              db3 Hc3) as (Hc4 & Hu4 & Hd4 & Hp4 & Hpr4 & Ha4).
  fold db4 in Hc4, Hu4, Hd4, Hp4, Hpr4, Ha4.
  destruct (Hdrug "Metformin" "500mg" "Take one tablet twice daily with meals"
              "May cause gastrointestinal upset." db4 Hc4)
    as (Hc5 & Hu5 & Hd5 & Hp5 & Hpr5 & Ha5).
  fold db5 in Hc5, Hu5, Hd5, Hp5, Hpr5, Ha5.
  split_and!; try done; try congruence.
  - rewrite Hu5, Hu4, Hu3. by etrans.
  - rewrite <- Hd1, <- Hd2. etrans; [exact Hd3|]. by etrans.
  - repeat constructor; unfold User_filter_by_username; rewrite Hu5, Hu4, Hu3.
    + apply (ensure_user_keeps "testpharmacist"), ensure_user_found.
    + apply ensure_user_found.
  - repeat constructor.
    + do 2 apply ensure_drug_keeps. apply ensure_drug_found.
    + apply ensure_drug_keeps, ensure_drug_found.
    + apply ensure_drug_found.
Qed.

Lemma main_adds_the_missing_rows_witness :
  consistent (main "h1" "h2" test_db2) ∧
  NoDup (user_username <$> users (main "h1" "h2" test_db2)) ∧
  users test_db2 `prefix_of` users (main "h1" "h2" test_db2) ∧
  drugs test_db2 `prefix_of` drugs (main "h1" "h2" test_db2) ∧
  patients (main "h1" "h2" test_db2) = patients test_db2 ∧
  prescriptions (main "h1" "h2" test_db2) = prescriptions test_db2 ∧
  prescription_drug_association (main "h1" "h2" test_db2) =
    prescription_drug_association test_db2 ∧
  Forall (λ username, is_Some (User_filter_by_username (main "h1" "h2" test_db2) username))
         ["testdoctor"; "testpharmacist"] ∧
  Forall (λ name, is_Some (Drug_filter_by_name (main "h1" "h2" test_db2) name))
         ["Amoxicillin"; "Lisinopril"; "Metformin"].
Proof.
  apply (main_adds_the_missing_rows "h1" "h2" test_db2 consistent_test_db2). by_evaluation.
Defined.
